(** * KWin DRM backend: GBM buffers, scanout registration and the CRTC buffer slots

    A shallow embedding of [src/backends/drm/drm_buffer_gbm.cpp] and of the
    buffer slots of [src/plugins/platforms/drm/drm_object_crtc.h].

    The C++ code talks to three outside parties: libgbm / EGL (native buffer
    objects), the kernel through libdrm (framebuffer registration) and the
    Wayland client buffer it imports.  Every call that crosses that border is
    recorded, in order and with the answer it got, in the [trace] of a
    [World]; the answers themselves come from an [Env], which may look at the
    calls made so far.  Undefined behaviour of the C++ code (reading the first
    element of an empty vector, writing past a 4-element array, dereferencing
    a dangling shared pointer) is the failure of the [M] monad. *)

From stdpp Require Import base numbers option list strings gmap.

Local Open Scope Z_scope.

(** ** Machine integers and constants of the system headers *)

Definition to_u32 (z : Z) : Z := z `mod` 2 ^ 32.
Definition to_s32 (z : Z) : Z :=
  let u := z `mod` 2 ^ 32 in if u <? 2 ^ 31 then u else u - 2 ^ 32.

(** drm_fourcc.h: [fourcc_mod_code(NONE, 0x00ffffffffffffffULL)]. *)
Definition DRM_FORMAT_MOD_INVALID : Z := 0xffffffffffffff.
(** drm_mode.h *)
Definition DRM_MODE_FB_MODIFIERS : Z := 2.
(** gbm.h *)
Definition GBM_BO_IMPORT_FD : Z := 0x5503.
Definition GBM_BO_IMPORT_FD_MODIFIER : Z := 0x5504.
Definition GBM_BO_USE_SCANOUT : Z := 1.
Definition GBM_MAX_PLANES : nat := 4.
(** GL / EGL *)
Definition GL_RGBA8 : Z := 0x8058.
Definition EGL_NATIVE_PIXMAP_KHR : Z := 0x30B0.
Definition EGL_NO_IMAGE_KHR : Z := 0.
(** errno.h *)
Definition EINVAL : Z := 22.

(** ** Handles and plain data *)

(** Non-null [gbm_bo *], [GbmSurface *], the address of a C++ object and the
    identity of a client buffer are opaque names. *)
Abbreviation gbm_bo := positive (only parsing).
Abbreviation GbmSurfacePtr := positive (only parsing).
Abbreviation addr := positive (only parsing).

Record QSize := { width : Z; height : Z }.

(** [DrmGpu]: the part of the device handle the two files use. *)
Record DrmGpu := {
  fd : Z;
  devNode : string;
  addFB2ModifiersSupported : bool;
  gbmDevice : positive
}.

(** One plane of a [KWaylandServer::LinuxDmaBufV1ClientBuffer]. *)
Record Plane := {
  plane_fd : Z;
  plane_offset : Z;
  plane_stride : Z;
  plane_modifier : Z
}.

(** The plane's fields are [int], [quint32], [quint32] and [quint64]. *)
Definition plane_wf (p : Plane) : Prop :=
  0 <= plane_offset p < 2 ^ 32 /\ 0 <= plane_stride p < 2 ^ 32 /\
  0 <= plane_modifier p < 2 ^ 64.

(** The client buffer as the importer sees it: an identity that is reference
    counted by its owner, and the getters [format()], [size()], [planes()]. *)
Record ClientBuffer := {
  cb_id : positive;
  cb_format : Z;
  cb_size : QSize;
  cb_planes : list Plane
}.

(** [union gbm_bo_handle]: the raw value, and its [s32] and [u32] views. *)
Definition handle_s32 (h : Z) : Z := to_s32 h.
Definition handle_u32 (h : Z) : Z := to_u32 h.

(** ** Calls across the border *)

(** How a call into the driver or the kernel ends: with a value, or with a
    failure that sets [errno] (always to a positive number). *)
Inductive Answer (A : Type) :=
| Ok (a : A)
| Fail (err : positive).
Arguments Ok {A} a.
Arguments Fail {A} err.

(** The two argument blocks of [gbm_bo_import]. *)
Inductive ImportData :=
| gbm_import_fd_data (fd_ width_ height_ stride_ format_ : Z)
| gbm_import_fd_modifier_data
    (width_ height_ format_ num_fds : Z) (fds strides offsets : list Z)
    (modifier_ : Z).

(** The three framebuffer registration calls of libdrm. *)
Inductive FbRequest :=
| AddFB2WithModifiers (fd_ width_ height_ format_ : Z)
    (handles strides offsets modifiers : list Z) (flags : Z)
| AddFB2 (fd_ width_ height_ format_ : Z)
    (handles strides offsets : list Z) (flags : Z)
| AddFB (fd_ width_ height_ depth bpp stride_ handle : Z).

Inductive LogLevel := Warning | Critical.

(** A [QDebug] line is the sequence of what was streamed into it. *)
Inductive LogItem :=
| LStr (s : string)
| LNum (z : Z).

Inductive Event :=
| EvClientRef (cb : positive)
| EvClientUnref (cb : positive)
| EvGbmBoImport (device : positive) (type : Z) (data : ImportData)
    (usage : Z) (res : Answer gbm_bo)
| EvGbmBoMap (bo : gbm_bo) (x y w h flags : Z) (res : Z * Z * Z)
| EvGbmBoUnmap (bo : gbm_bo) (mapping : Z)
| EvGbmBoDestroy (bo : gbm_bo)
| EvGbmBoSetUserData (bo : gbm_bo) (data : addr)
| EvSurfaceReleaseBuffer (surface : GbmSurfacePtr) (buffer : addr)
| EvEglCreateImage (display : Z) (target : Z) (bo : gbm_bo) (res : Z)
| EvAddFB (rq : FbRequest) (res : Answer Z)
| EvRmFB (fd_ : Z) (fb : Z) (res : Answer unit)
| EvLog (lvl : LogLevel) (line : list LogItem).

Record World := {
  trace : list Event;
  errno : Z
}.

(** The outside world.  The getters of a native buffer are functions of the
    buffer; the answers to calls that do something depend on the call and on
    everything that happened before it. *)
Record Env := {
  gbm_bo_get_stride : gbm_bo -> Z;
  gbm_bo_get_width : gbm_bo -> Z;
  gbm_bo_get_height : gbm_bo -> Z;
  gbm_bo_get_format : gbm_bo -> Z;
  gbm_bo_get_modifier : gbm_bo -> Z;
  gbm_bo_get_plane_count : gbm_bo -> Z;
  gbm_bo_get_handle : gbm_bo -> Z;
  gbm_bo_get_handle_for_plane : gbm_bo -> Z -> Z;
  gbm_bo_get_stride_for_plane : gbm_bo -> Z -> Z;
  gbm_bo_get_offset : gbm_bo -> Z -> Z;
  gbm_format_get_name : Z -> string;
  strerror : Z -> string;
  getEglErrorString : list Event -> string;
  import_answer : list Event -> positive -> Z -> ImportData -> Z -> Answer gbm_bo;
  (** returned address, [*stride] and [*map_data] after the call *)
  map_answer : list Event -> gbm_bo -> Z -> Z -> Z -> Z -> Z -> Z -> Z -> Z * Z * Z;
  egl_image_answer : list Event -> Z -> Z -> gbm_bo -> Z;
  addfb_answer : list Event -> FbRequest -> Answer Z;
  rmfb_answer : list Event -> Z -> Z -> Answer unit
}.

(** ** The monad of the embedded code: state, and [None] for undefined behaviour *)

Definition M (A : Type) : Type := World -> option (A * World).

Definition ret {A} (a : A) : M A := fun w => Some (a, w).
Definition bind {A B} (m : M A) (k : A -> M B) : M B :=
  fun w => match m w with
           | Some (a, w') => k a w'
           | None => None
           end.
Definition undefined {A} : M A := fun _ => None.
Definition emit (ev : Event) : M unit :=
  fun w => Some (tt, {| trace := trace w ++ [ev]; errno := errno w |}).
Definition set_errno (e : Z) : M unit :=
  fun w => Some (tt, {| trace := trace w; errno := e |}).
Definition get_errno : M Z := fun w => Some (errno w, w).
Definition history : M (list Event) := fun w => Some (trace w, w).
Definition defined {A} (o : option A) : M A :=
  match o with Some a => ret a | None => undefined end.
Definition when (c : bool) (m : M unit) : M unit := if c then m else ret tt.

Declare Scope m_scope.
Delimit Scope m_scope with M.
Notation "x <- c1 ;; c2" := (bind c1 (fun x => c2))
  (at level 100, c1 at next level, right associativity) : m_scope.
Notation "c1 ;; c2" := (bind c1 (fun _ => c2))
  (at level 100, right associativity) : m_scope.
Local Open Scope m_scope.

(** The events a computation added to the trace. *)
Definition new_events (w w' : World) : list Event :=
  drop (length (trace w)) (trace w').

(** A fixed-size C array: a write past its end is undefined. *)
Definition array_set (a : list Z) (i : nat) (v : Z) : option (list Z) :=
  if decide (i < length a)%nat then Some (<[i:=v]> a) else None.

Definition zeros4 : list Z := replicate GBM_MAX_PLANES 0.

(** ** Wrappers of the foreign calls, under their C names *)

Section Calls.
Context (env : Env).

Definition ClientBuffer_ref (cb : ClientBuffer) : M unit :=
  emit (EvClientRef (cb_id cb)).
Definition ClientBuffer_unref (cb : ClientBuffer) : M unit :=
  emit (EvClientUnref (cb_id cb)).

(** Returns the [gbm_bo *]; null ([None]) comes with [errno] set. *)
Definition gbm_bo_import (dev : positive) (type : Z) (data : ImportData)
    (usage : Z) : M (option gbm_bo) :=
  h <- history ;;
  let res := import_answer env h dev type data usage in
  emit (EvGbmBoImport dev type data usage res) ;;
  match res with
  | Ok bo => ret (Some bo)
  | Fail e => set_errno (Z.pos e) ;; ret None
  end.

Definition gbm_bo_map (bo : gbm_bo) (x y w h flags : Z)
    (stride map_data : Z) : M (Z * Z * Z) :=
  hist <- history ;;
  let res := map_answer env hist bo x y w h flags stride map_data in
  emit (EvGbmBoMap bo x y w h flags res) ;;
  ret res.

Definition gbm_bo_unmap (bo : gbm_bo) (map_data : Z) : M unit :=
  emit (EvGbmBoUnmap bo map_data).
Definition gbm_bo_destroy (bo : gbm_bo) : M unit :=
  emit (EvGbmBoDestroy bo).
Definition gbm_bo_set_user_data (bo : gbm_bo) (data : addr) : M unit :=
  emit (EvGbmBoSetUserData bo data).
Definition GbmSurface_releaseBuffer (s : GbmSurfacePtr) (buffer : addr) : M unit :=
  emit (EvSurfaceReleaseBuffer s buffer).

Definition eglCreateImageKHR (dpy : Z) (target : Z) (bo : gbm_bo) : M Z :=
  h <- history ;;
  let res := egl_image_answer env h dpy target bo in
  emit (EvEglCreateImage dpy target bo res) ;;
  ret res.

(** The registration calls return libdrm's [-errno] and write [*buf_id]
    on success only; the pair is the return value and [*buf_id] after the
    call. *)
Definition drm_add_fb (rq : FbRequest) (buf_id : Z) : M (Z * Z) :=
  h <- history ;;
  let res := addfb_answer env h rq in
  emit (EvAddFB rq res) ;;
  match res with
  | Ok fb => ret (0, fb)
  | Fail e => set_errno (Z.pos e) ;; ret (Z.neg e, buf_id)
  end.

Definition drmModeAddFB2WithModifiers (fd_ w h fmt : Z)
    (handles strides offsets modifiers : list Z) (buf_id : Z) (flags : Z) :=
  drm_add_fb (AddFB2WithModifiers fd_ w h fmt handles strides offsets modifiers flags) buf_id.
Definition drmModeAddFB2 (fd_ w h fmt : Z)
    (handles strides offsets : list Z) (buf_id : Z) (flags : Z) :=
  drm_add_fb (AddFB2 fd_ w h fmt handles strides offsets flags) buf_id.
Definition drmModeAddFB (fd_ w h depth bpp stride_ handle : Z) (buf_id : Z) :=
  drm_add_fb (AddFB fd_ w h depth bpp stride_ handle) buf_id.

Definition drmModeRmFB (fd_ : Z) (fb : Z) : M Z :=
  h <- history ;;
  let res := rmfb_answer env h fd_ fb in
  emit (EvRmFB fd_ fb res) ;;
  match res with
  | Ok _ => ret 0
  | Fail e => set_errno (Z.pos e) ;; ret (Z.neg e)
  end.

Definition qCWarning (line : list LogItem) : M unit := emit (EvLog Warning line).
Definition qCCritical (line : list LogItem) : M unit := emit (EvLog Critical line).
End Calls.

(** ** GbmBuffer *)

(** The members of [GbmBuffer]; [m_data] and [m_mapping] are [void *] with
    0 for null. *)
Record GbmBuffer := {
  m_surface : option GbmSurfacePtr;
  m_bo : option gbm_bo;
  m_clientBuffer : option ClientBuffer;
  m_data : Z;
  m_mapping : Z;
  m_stride : Z
}.

Definition set_m_surface (v : option GbmSurfacePtr) (b : GbmBuffer) : GbmBuffer :=
  {| m_surface := v; m_bo := m_bo b; m_clientBuffer := m_clientBuffer b;
     m_data := m_data b; m_mapping := m_mapping b; m_stride := m_stride b |}.
Definition set_m_bo (v : option gbm_bo) (b : GbmBuffer) : GbmBuffer :=
  {| m_surface := m_surface b; m_bo := v; m_clientBuffer := m_clientBuffer b;
     m_data := m_data b; m_mapping := m_mapping b; m_stride := m_stride b |}.
Definition set_m_clientBuffer (v : option ClientBuffer) (b : GbmBuffer) : GbmBuffer :=
  {| m_surface := m_surface b; m_bo := m_bo b; m_clientBuffer := v;
     m_data := m_data b; m_mapping := m_mapping b; m_stride := m_stride b |}.
Definition set_m_data (v : Z) (b : GbmBuffer) : GbmBuffer :=
  {| m_surface := m_surface b; m_bo := m_bo b; m_clientBuffer := m_clientBuffer b;
     m_data := v; m_mapping := m_mapping b; m_stride := m_stride b |}.
Definition set_m_mapping (v : Z) (b : GbmBuffer) : GbmBuffer :=
  {| m_surface := m_surface b; m_bo := m_bo b; m_clientBuffer := m_clientBuffer b;
     m_data := m_data b; m_mapping := v; m_stride := m_stride b |}.
Definition set_m_stride (v : Z) (b : GbmBuffer) : GbmBuffer :=
  {| m_surface := m_surface b; m_bo := m_bo b; m_clientBuffer := m_clientBuffer b;
     m_data := m_data b; m_mapping := m_mapping b; m_stride := v |}.

(** [QSharedPointer<EGLImageTexture>::create(eglDisplay, image, GL_RGBA8, size)] *)
Record EGLImageTexture := {
  tex_display : Z;
  tex_image : Z;
  tex_internalFormat : Z;
  tex_size : QSize
}.

Module GbmBuffer.
Section WithEnv.
Context (env : Env).

(** Modelled from the spec: the default member initialisers of the class
    declaration (drm_buffer_gbm.h, not among the sources): no surface, no
    native handle, no client buffer, no mapping, stride 0. *)
Definition default : GbmBuffer :=
  {| m_surface := None; m_bo := None; m_clientBuffer := None;
     m_data := 0; m_mapping := 0; m_stride := 0 |}.

(** [GbmBuffer::GbmBuffer(GbmSurface *surface, gbm_bo *bo)] *)
Definition from_surface (surface : option GbmSurfacePtr) (bo : gbm_bo) : GbmBuffer :=
  set_m_stride (gbm_bo_get_stride env bo)
    (set_m_bo (Some bo) (set_m_surface surface default)).

(** The loop that copies the planes into the [fds], [offsets] and [strides]
    arrays of [gbm_import_fd_modifier_data], from index [i] on. *)
Fixpoint copy_planes (i : nat) (planes : list Plane)
    (fds offsets strides : list Z) : option (list Z * list Z * list Z) :=
  match planes with
  | [] => Some (fds, offsets, strides)
  | p :: rest =>
      fds' ← array_set fds i (plane_fd p);
      offsets' ← array_set offsets i (to_s32 (plane_offset p));
      strides' ← array_set strides i (to_s32 (plane_stride p));
      copy_planes (S i) rest fds' offsets' strides'
  end.

(** [planes.first()] *)
Definition first (planes : list Plane) : option Plane := head planes.
(** [planes.count()] *)
Definition count (planes : list Plane) : Z := Z.of_nat (length planes).

(** The condition of the [if] that chooses the import call. *)
Definition needs_modifier_import (first_plane : Plane) (planes : list Plane) : bool :=
  negb (plane_modifier first_plane =? DRM_FORMAT_MOD_INVALID)
  || (0 <? plane_offset first_plane)
  || (1 <? count planes).

(** [GbmBuffer::GbmBuffer(DrmGpu *gpu, LinuxDmaBufV1ClientBuffer *clientBuffer)] *)
Definition from_clientBuffer (gpu : DrmGpu) (clientBuffer : ClientBuffer) : M GbmBuffer :=
  let obj := set_m_clientBuffer (Some clientBuffer) default in
  ClientBuffer_ref clientBuffer ;;
  let planes := cb_planes clientBuffer in
  first_plane <- defined (first planes) ;;
  bo <- (if needs_modifier_import first_plane planes then
           arrays <- defined (copy_planes 0 planes zeros4 zeros4 zeros4) ;;
           let data := gbm_import_fd_modifier_data
                         (to_u32 (width (cb_size clientBuffer)))
                         (to_u32 (height (cb_size clientBuffer)))
                         (cb_format clientBuffer)
                         (to_u32 (count planes))
                         arrays.1.1 arrays.2 arrays.1.2
                         (plane_modifier first_plane) in
           gbm_bo_import env (gbmDevice gpu) GBM_BO_IMPORT_FD_MODIFIER data GBM_BO_USE_SCANOUT
         else
           let data := gbm_import_fd_data
                         (plane_fd first_plane)
                         (to_u32 (width (cb_size clientBuffer)))
                         (to_u32 (height (cb_size clientBuffer)))
                         (plane_stride first_plane)
                         (cb_format clientBuffer) in
           gbm_bo_import env (gbmDevice gpu) GBM_BO_IMPORT_FD data GBM_BO_USE_SCANOUT) ;;
  let obj := set_m_bo bo obj in
  match m_bo obj with
  | Some b => ret (set_m_stride (gbm_bo_get_stride env b) obj)
  | None =>
      e <- get_errno ;;
      when (negb (e =? EINVAL))
        (qCWarning [LStr "Importing buffer for direct scanout failed:";
                    LStr (strerror env e)]) ;;
      ret obj
  end.

(** [void GbmBuffer::releaseBuffer()] *)
Definition releaseBuffer (this : addr) (b : GbmBuffer) : M GbmBuffer :=
  b <- match m_clientBuffer b with
       | Some cb => ClientBuffer_unref cb ;; ret (set_m_clientBuffer None b)
       | None => ret b
       end ;;
  match m_bo b with
  | None => ret b
  | Some bo =>
      when (negb (m_mapping b =? 0)) (gbm_bo_unmap bo (m_mapping b)) ;;
      b <- match m_surface b with
           | Some s => GbmSurface_releaseBuffer s this ;; ret (set_m_surface None b)
           | None => gbm_bo_destroy bo ;; ret b
           end ;;
      ret (set_m_bo None b)
  end.

(** [GbmBuffer::~GbmBuffer()] *)
Definition destructor (this : addr) (b : GbmBuffer) : M unit :=
  releaseBuffer this b ;; ret tt.

(** [bool GbmBuffer::map(uint32_t flags)] *)
Definition map (b : GbmBuffer) (flags : Z) : M (bool * GbmBuffer) :=
  if negb (m_data b =? 0) then ret (true, b)
  else match m_bo b with
       | None => ret (false, b)
       | Some bo =>
           res <- gbm_bo_map env bo 0 0 (gbm_bo_get_width env bo)
                    (gbm_bo_get_height env bo) flags (m_stride b) (m_mapping b) ;;
           let b := set_m_data res.1.1 (set_m_stride res.1.2 (set_m_mapping res.2 b)) in
           ret (negb (m_data b =? 0), b)
       end.

Definition clientBuffer (b : GbmBuffer) : option ClientBuffer := m_clientBuffer b.
Definition getBo (b : GbmBuffer) : option gbm_bo := m_bo b.
Definition mappedData (b : GbmBuffer) : Z := m_data b.
Definition stride (b : GbmBuffer) : Z := m_stride b.

(** [QSharedPointer<GLTexture> GbmBuffer::createTexture(EGLDisplay) const];
    [None] is the null shared pointer. *)
Definition createTexture (b : GbmBuffer) (eglDisplay : Z) : M (option EGLImageTexture) :=
  match m_bo b with
  | None => ret None
  | Some bo =>
      image <- eglCreateImageKHR env eglDisplay EGL_NATIVE_PIXMAP_KHR bo ;;
      if image =? EGL_NO_IMAGE_KHR then
        h <- history ;;
        qCWarning [LStr "Failed to record frame: Error creating EGLImageKHR - ";
                   LStr (getEglErrorString env h)] ;;
        ret None
      else
        ret (Some {| tex_display := eglDisplay; tex_image := image;
                     tex_internalFormat := GL_RGBA8;
                     tex_size := {| width := to_s32 (gbm_bo_get_width env bo);
                                    height := to_s32 (gbm_bo_get_height env bo) |} |})
  end.
End WithEnv.
End GbmBuffer.

(** ** DrmBuffer and DrmGbmBuffer *)

(** The members of the base class [DrmBuffer] that [DrmGbmBuffer] uses. *)
Record DrmBuffer := {
  m_gpu : DrmGpu;
  m_format : Z;
  m_modifier : Z;
  m_bufferId : Z;
  m_size : QSize
}.

Definition set_m_bufferId (v : Z) (d : DrmBuffer) : DrmBuffer :=
  {| m_gpu := m_gpu d; m_format := m_format d; m_modifier := m_modifier d;
     m_bufferId := v; m_size := m_size d |}.
Definition set_m_size (v : QSize) (d : DrmBuffer) : DrmBuffer :=
  {| m_gpu := m_gpu d; m_format := m_format d; m_modifier := m_modifier d;
     m_bufferId := m_bufferId d; m_size := v |}.

(** [class DrmGbmBuffer : public DrmBuffer, public GbmBuffer] *)
Record DrmGbmBuffer := {
  drm : DrmBuffer;
  gbm : GbmBuffer
}.

(** What a [DrmBuffer *] can point to: a [DrmGbmBuffer] or another subclass
    ([DrmDumbBuffer]), of which only the base part is visible here. *)
Inductive DrmBufferObj :=
| IsDrmGbmBuffer (b : DrmGbmBuffer)
| IsDrmDumbBuffer (d : DrmBuffer).

(** The four arrays that [initialize] passes to the kernel. *)
Record FbPlanes := {
  handles : list Z;
  strides : list Z;
  offsets : list Z;
  modifiers : list Z
}.

Module DrmGbmBuffer.
Section WithEnv.
Context (env : Env).

(** Modelled from the spec: the constructor [DrmBuffer(gpu, format, modifier)]
    of drm_buffer.h/.cpp (not among the sources) stores its arguments; the
    framebuffer identifier is 0 until a registration succeeds and the size
    is the null [QSize()] until [initialize] sets it. *)
Definition DrmBuffer_new (gpu : DrmGpu) (format modifier : Z) : DrmBuffer :=
  {| m_gpu := gpu; m_format := format; m_modifier := modifier;
     m_bufferId := 0; m_size := {| width := -1; height := -1 |} |}.

(** [bool DrmGbmBuffer::hasBo() const] *)
Definition hasBo (b : DrmGbmBuffer) : bool :=
  match m_bo (gbm b) with Some _ => true | None => false end.

(** The body of the [for] loop over the planes, [n] more iterations from
    index [i]. *)
Fixpoint fill_planes (bo : gbm_bo) (modifier : Z) (n i : nat) (a : FbPlanes) : option FbPlanes :=
  match n with
  | O => Some a
  | S n' =>
      hs ← array_set (handles a) i
             (handle_u32 (gbm_bo_get_handle_for_plane env bo (Z.of_nat i)));
      ss ← array_set (strides a) i (gbm_bo_get_stride_for_plane env bo (Z.of_nat i));
      os ← array_set (offsets a) i (gbm_bo_get_offset env bo (Z.of_nat i));
      ms ← array_set (modifiers a) i modifier;
      fill_planes bo modifier n' (S i)
        {| handles := hs; strides := ss; offsets := os; modifiers := ms |}
  end.

Definition zero_planes : FbPlanes :=
  {| handles := zeros4; strides := zeros4; offsets := zeros4; modifiers := zeros4 |}.

(** The first half of [initialize]: the per-plane arrays. *)
Definition plane_arrays (bo : gbm_bo) (modifier : Z) : option FbPlanes :=
  if negb (handle_s32 (gbm_bo_get_handle_for_plane env bo 0) =? -1) then
    fill_planes bo modifier (Z.to_nat (gbm_bo_get_plane_count env bo)) 0 zero_planes
  else
    hs ← array_set zeros4 0 (handle_u32 (gbm_bo_get_handle env bo));
    ss ← array_set zeros4 0 (gbm_bo_get_stride env bo);
    ms ← array_set zeros4 0 DRM_FORMAT_MOD_INVALID;
    Some {| handles := hs; strides := ss; offsets := zeros4; modifiers := ms |}.

(** [array[0]] of a 4-element array. *)
Definition at0 (a : list Z) : Z := default 0 (a !! 0%nat).

Definition failure_line (prefix : string) (middle : string) (d : DrmBuffer)
    (a : FbPlanes) (e : Z) : list LogItem :=
  [LStr prefix; LStr (devNode (m_gpu d)); LStr middle;
   LStr (gbm_format_get_name env (m_format d));
   LStr "and modifier"; LNum (at0 (modifiers a)); LStr (strerror env e)].

(** [void DrmGbmBuffer::initialize()] *)
Definition initialize (this : addr) (b : DrmGbmBuffer) : M DrmGbmBuffer :=
  match m_bo (gbm b) with
  | None => ret b
  | Some bo =>
      let d := set_m_size {| width := to_s32 (gbm_bo_get_width env bo);
                             height := to_s32 (gbm_bo_get_height env bo) |} (drm b) in
      a <- defined (plane_arrays bo (m_modifier d)) ;;
      let gpu := m_gpu d in
      let w := to_u32 (width (m_size d)) in
      let h := to_u32 (height (m_size d)) in
      d <- (if negb (at0 (modifiers a) =? DRM_FORMAT_MOD_INVALID)
               && addFB2ModifiersSupported gpu then
              r <- drmModeAddFB2WithModifiers env (fd gpu) w h (m_format d)
                     (handles a) (strides a) (offsets a) (modifiers a)
                     (m_bufferId d) DRM_MODE_FB_MODIFIERS ;;
              let d := set_m_bufferId r.2 d in
              (if negb (r.1 =? 0) then
                 match m_surface (gbm b) with
                 | Some _ =>
                     e <- get_errno ;;
                     qCCritical (failure_line "drmModeAddFB2WithModifiers on GPU"
                                   "failed for a buffer with format" d a e)
                 | None => ret tt
                 end
               else ret tt) ;;
              ret d
            else
              r <- drmModeAddFB2 env (fd gpu) w h (m_format d)
                     (handles a) (strides a) (offsets a) (m_bufferId d) 0 ;;
              let d := set_m_bufferId r.2 d in
              if negb (r.1 =? 0) then
                r <- drmModeAddFB env (fd gpu) w h 24 32
                       (at0 (strides a)) (at0 (handles a)) (m_bufferId d) ;;
                let d := set_m_bufferId r.2 d in
                (if negb (r.1 =? 0) then
                   match m_surface (gbm b) with
                   | Some _ =>
                       e <- get_errno ;;
                       qCCritical (failure_line "drmModeAddFB2 and drmModeAddFB both failed on GPU"
                                     "for a buffer with format" d a e)
                   | None => ret tt
                   end
                 else ret tt) ;;
                ret d
              else ret d) ;;
      gbm_bo_set_user_data bo this ;;
      ret {| drm := d; gbm := gbm b |}
  end.

(** [DrmGbmBuffer::DrmGbmBuffer(DrmGpu *gpu, GbmSurface *surface, gbm_bo *bo)] *)
Definition from_surface (this : addr) (gpu : DrmGpu)
    (surface : option GbmSurfacePtr) (bo : gbm_bo) : M DrmGbmBuffer :=
  initialize this
    {| drm := DrmBuffer_new gpu (gbm_bo_get_format env bo) (gbm_bo_get_modifier env bo);
       gbm := GbmBuffer.from_surface env surface bo |}.

(** [DrmGbmBuffer::DrmGbmBuffer(DrmGpu *gpu, LinuxDmaBufV1ClientBuffer *clientBuffer)] *)
Definition from_clientBuffer (this : addr) (gpu : DrmGpu)
    (clientBuffer : ClientBuffer) : M DrmGbmBuffer :=
  first_plane <- defined (head (cb_planes clientBuffer)) ;;
  let d := DrmBuffer_new gpu (cb_format clientBuffer) (plane_modifier first_plane) in
  g <- GbmBuffer.from_clientBuffer env gpu clientBuffer ;;
  initialize this {| drm := d; gbm := g |}.

(** [DrmGbmBuffer::~DrmGbmBuffer()], followed by the destructor of the
    [GbmBuffer] base. *)
Definition destructor (this : addr) (b : DrmGbmBuffer) : M unit :=
  (if negb (m_bufferId (drm b) =? 0) then
     rc <- drmModeRmFB env (fd (m_gpu (drm b))) (m_bufferId (drm b)) ;;
     if negb (rc =? 0) then
       e <- get_errno ;;
       qCCritical [LStr "drmModeRmFB on GPU"; LStr (devNode (m_gpu (drm b)));
                   LStr "failed!"; LStr (strerror env e)]
     else ret tt
   else ret tt) ;;
  GbmBuffer.destructor this (gbm b).

(** [bool DrmGbmBuffer::needsModeChange(DrmBuffer *b) const]; the argument
    is [None] for a null pointer, and [dynamic_cast] answers null for it. *)
Definition dynamic_cast (b : option DrmBufferObj) : option DrmGbmBuffer :=
  match b with
  | Some (IsDrmGbmBuffer sb) => Some sb
  | _ => None
  end.

Definition needsModeChange (this : DrmGbmBuffer) (b : option DrmBufferObj) : bool :=
  match dynamic_cast b with
  | Some sb => negb (eqb (hasBo this) (hasBo sb))
  | None => true
  end.
End WithEnv.
End DrmGbmBuffer.

(** ** DrmCrtc: the current / next buffer slots *)

(** A [QSharedPointer<DrmBuffer>] is null or the address of a shared object.
    The store holds every live shared object with its strong reference
    count, which is at least one. *)
Record Shared := {
  pointee : DrmBufferObj;
  strongref : positive
}.

Record DrmCrtc := {
  m_resIndex : Z;
  gamma_size : Z;
  m_currentBuffer : option addr;
  m_nextBuffer : option addr;
  m_blackBuffer : option addr
}.

Definition set_m_nextBuffer (v : option addr) (c : DrmCrtc) : DrmCrtc :=
  {| m_resIndex := m_resIndex c; gamma_size := gamma_size c;
     m_currentBuffer := m_currentBuffer c; m_nextBuffer := v;
     m_blackBuffer := m_blackBuffer c |}.

Module QSharedPointer.
Section WithEnv.
Context (env : Env).
(** The destructor of the other [DrmBuffer] subclass is not among the
    sources; it is whatever the caller says. *)
Context (DrmDumbBuffer_destructor : addr -> DrmBuffer -> M unit).

(** [delete ptr] through the virtual destructor of [DrmBuffer]. *)
Definition destroy (a : addr) (o : DrmBufferObj) : M unit :=
  match o with
  | IsDrmGbmBuffer b => DrmGbmBuffer.destructor env a b
  | IsDrmDumbBuffer d => DrmDumbBuffer_destructor a d
  end.

(** Copy construction: one more strong reference. *)
Definition ref (p : option addr) (st : gmap positive Shared) : option (gmap positive Shared) :=
  match p with
  | None => Some st
  | Some a =>
      s ← st !! a;
      Some (<[a := {| pointee := pointee s; strongref := Pos.succ (strongref s) |}]> st)
  end.

(** Destruction of one shared pointer: one strong reference less, and the
    object is destroyed with the last one. *)
Definition deref (p : option addr) (st : gmap positive Shared) : M (gmap positive Shared) :=
  match p with
  | None => ret st
  | Some a =>
      match st !! a with
      | None => undefined
      | Some s =>
          if decide (strongref s = 1%positive) then
            destroy a (pointee s) ;; ret (delete a st)
          else
            ret (<[a := {| pointee := pointee s; strongref := Pos.pred (strongref s) |}]> st)
      end
  end.

(** [operator=(const QSharedPointer &other)]: copy [other], swap, and let
    the copy (now holding the old value) go out of scope. *)
Definition assign (lhs other : option addr) (st : gmap positive Shared)
    : M (option addr * gmap positive Shared) :=
  st <- defined (ref other st) ;;
  st <- deref lhs st ;;
  ret (other, st).
End WithEnv.
End QSharedPointer.

Module DrmCrtc.
Section WithEnv.
Context (env : Env).
Context (DrmDumbBuffer_destructor : addr -> DrmBuffer -> M unit).

Definition resIndex (c : DrmCrtc) : Z := m_resIndex c.
Definition current (c : DrmCrtc) : option addr := m_currentBuffer c.
Definition next (c : DrmCrtc) : option addr := m_nextBuffer c.
Definition gammaRampSize (c : DrmCrtc) : Z := gamma_size c.

(** [void setNext(const QSharedPointer<DrmBuffer> &buffer)] *)
Definition setNext (c : DrmCrtc) (buffer : option addr) (st : gmap positive Shared)
    : M (DrmCrtc * gmap positive Shared) :=
  r <- QSharedPointer.assign env DrmDumbBuffer_destructor (m_nextBuffer c) buffer st ;;
  ret (set_m_nextBuffer r.1 c, r.2).
End WithEnv.
End DrmCrtc.

(** * libkwineffects: the deform effect

    A shallow embedding of [src/libkwineffects/kwindeformeffect.cpp].  The
    effect keeps one offscreen texture per redirected window and draws the
    window from it.  Everything it asks of the compositor, of Qt and of
    OpenGL is an event of its own trace; textures, framebuffers and signal
    connections get fresh names from a counter when they are made.  What the
    outside answers (window geometry, screens, what a texture reports as its
    size) is read from an environment at the moment of the call, a moment
    being a tick of the world's clock.  Numbers that are [qreal], matrices,
    regions and the compositor's paint data are kept abstract, with the
    operations the file applies to them. *)

Module Deform.

Inductive Signal := windowDamaged | windowDeleted.

Record QRect := { rect_x : Z; rect_y : Z; rect_width : Z; rect_height : Z }.

(** A [WindowVertex]: position and texture coordinate.  The coordinates the
    file computes are integers, which [qreal] holds exactly. *)
Record WindowVertex := { position : Z * Z; texcoord : Z * Z }.
Record WindowQuad := {
  vertex0 : WindowVertex; vertex1 : WindowVertex;
  vertex2 : WindowVertex; vertex3 : WindowVertex
}.

(** gl.h *)
Definition GL_LINEAR : Z := 0x2601.
Definition GL_CLAMP_TO_EDGE : Z := 0x812F.
Definition GL_COLOR_BUFFER_BIT : Z := 0x4000.
Definition GL_QUADS : Z := 0x0007.
Definition GL_TRIANGLES : Z := 0x0004.
Definition GL_SCISSOR_TEST : Z := 0x0C11.
Definition GL_BLEND : Z := 0x0BE2.
Definition GL_ONE : Z := 1.
Definition GL_ONE_MINUS_SRC_ALPHA : Z := 0x0303.

(** What lies outside the file.  The first block is the abstract data and
    the constants of headers that are not among the sources; the second is
    what the compositor answers at a given moment. *)
Record Env := {
  Region : Type;
  WindowPaintData : Type;
  Real : Type;
  Matrix : Type;
  infiniteRegion : Region;
  (** [region != infiniteRegion()] *)
  differs : Region -> Region -> bool;
  brightness : WindowPaintData -> Real;
  opacity : WindowPaintData -> Real;
  saturation : WindowPaintData -> Real;
  times : Real -> Real -> Real;
  screenProjectionMatrix : WindowPaintData -> Matrix;
  translate : Matrix -> Z -> Z -> Matrix;
  PAINT_WINDOW_TRANSFORMED : Z;
  PAINT_WINDOW_TRANSLUCENT : Z;
  sizeof_GLVertex2D : Z;
  (** the virtual [deform] of the subclass *)
  deform : positive -> Z -> WindowPaintData -> list WindowQuad ->
           WindowPaintData * list WindowQuad;

  expandedGeometry : nat -> positive -> QRect;
  frameGeometry : nat -> positive -> QRect;
  screen : nat -> positive -> option positive;
  (** [size *= screen->devicePixelRatio()] *)
  scaled : nat -> QSize -> positive -> QSize;
  window_x : nat -> positive -> Z;
  window_y : nat -> positive -> Z;
  (** [GLTexture::size()] *)
  texture_size : nat -> positive -> QSize;
  mapToRenderTarget : nat -> Region -> Region;
  supportsIndexedQuads : nat -> bool;
  (** [ShaderManager::instance()->shader(MapTexture | Modulate | AdjustSaturation)] *)
  stock_shader : nat -> positive;
  isOpenGLCompositing : nat -> bool
}.

(** The paint data of a call of [effects->drawWindow]: the caller's, or the
    one [maybeRender] builds (translation, opacity 1.0 and an orthographic
    projection of a rectangle). *)
Inductive PaintArg (E : Env) :=
| CallerData (d : WindowPaintData E)
| OffscreenData (xTranslation yTranslation : Z) (ortho : QRect).
Arguments CallerData {E} d.
Arguments OffscreenData {E} xTranslation yTranslation ortho.

Inductive Event (E : Env) :=
| Connect (s : Signal) (c : positive)
| Disconnect (c : option positive)
| MakeOpenGLContextCurrent
| NewTexture (t : positive) (internalFormat : Z) (size : QSize)
| SetFilter (t : positive) (filter : Z)
| SetWrapMode (t : positive) (mode : Z)
| DeleteTexture (t : positive)
| NewFramebuffer (f t : positive)
| DeleteFramebuffer (f : positive)
| PushFramebuffer (f : option positive)
| PopFramebuffer
| GlClearColor
| GlClear (mask : Z)
| EffectsDrawWindow (window : positive) (mask : Z) (region : Region E) (data : PaintArg E)
| ShaderBinderEnter (s : positive)
| ShaderBinderLeave (s : positive)
| VboReset
| VboSetAttribLayout (count : Z) (stride : Z)
| VboMap (size : Z)
| MakeInterleavedArrays (primitiveType : Z) (quads : list WindowQuad) (t : positive)
| VboUnmap
| VboBindArrays
| SetModelViewProjection (s : positive) (m : Matrix E)
| SetModulationConstant (s : positive) (rgb a : Real E)
| SetSaturation (s : positive) (v : Real E)
| SetTextureWidth (s : positive) (v : Z)
| SetTextureHeight (s : positive) (v : Z)
| GlEnable (cap : Z)
| GlDisable (cap : Z)
| GlBlendFunc (sfactor dfactor : Z)
| TextureBind (t : positive)
| TextureUnbind (t : positive)
| VboDraw (clip : Region E) (primitiveType first count : Z) (hardwareClipping : bool)
| VboUnbindArrays.
Arguments Connect {E}. Arguments Disconnect {E}. Arguments MakeOpenGLContextCurrent {E}.
Arguments NewTexture {E}. Arguments SetFilter {E}. Arguments SetWrapMode {E}.
Arguments DeleteTexture {E}. Arguments NewFramebuffer {E}. Arguments DeleteFramebuffer {E}.
Arguments PushFramebuffer {E}. Arguments PopFramebuffer {E}. Arguments GlClearColor {E}.
Arguments GlClear {E}. Arguments EffectsDrawWindow {E}. Arguments ShaderBinderEnter {E}.
Arguments ShaderBinderLeave {E}. Arguments VboReset {E}. Arguments VboSetAttribLayout {E}.
Arguments VboMap {E}. Arguments MakeInterleavedArrays {E}. Arguments VboUnmap {E}.
Arguments VboBindArrays {E}. Arguments SetModelViewProjection {E}.
Arguments SetModulationConstant {E}. Arguments SetSaturation {E}.
Arguments SetTextureWidth {E}. Arguments SetTextureHeight {E}. Arguments GlEnable {E}.
Arguments GlDisable {E}. Arguments GlBlendFunc {E}. Arguments TextureBind {E}.
Arguments TextureUnbind {E}. Arguments VboDraw {E}. Arguments VboUnbindArrays {E}.

Record World (E : Env) := {
  trace : list (Event E);
  next_name : positive;
  now : nat
}.
Arguments trace {E}. Arguments next_name {E}. Arguments now {E}.

(** [struct DeformOffscreenData]; the scoped pointers are [None] when null. *)
Record DeformOffscreenData := {
  texture : option positive;
  fbo : option positive;
  isDirty : bool;
  shader : option positive
}.

Definition set_isDirty (v : bool) (d : DeformOffscreenData) : DeformOffscreenData :=
  {| texture := texture d; fbo := fbo d; isDirty := v; shader := shader d |}.
Definition set_shader (v : option positive) (d : DeformOffscreenData) : DeformOffscreenData :=
  {| texture := texture d; fbo := fbo d; isDirty := isDirty d; shader := v |}.

(** [class DeformEffectPrivate].  A value of the hash is a pointer: [None]
    for a null one. *)
Record DeformEffectPrivate := {
  windows : gmap positive (option DeformOffscreenData);
  windowDamagedConnection : option positive;
  windowDeletedConnection : option positive;
  live : bool
}.

Definition set_windows (v : gmap positive (option DeformOffscreenData))
    (d : DeformEffectPrivate) : DeformEffectPrivate :=
  {| windows := v; windowDamagedConnection := windowDamagedConnection d;
     windowDeletedConnection := windowDeletedConnection d; live := live d |}.
Definition set_windowDamagedConnection (v : option positive)
    (d : DeformEffectPrivate) : DeformEffectPrivate :=
  {| windows := windows d; windowDamagedConnection := v;
     windowDeletedConnection := windowDeletedConnection d; live := live d |}.
Definition set_windowDeletedConnection (v : option positive)
    (d : DeformEffectPrivate) : DeformEffectPrivate :=
  {| windows := windows d; windowDamagedConnection := windowDamagedConnection d;
     windowDeletedConnection := v; live := live d |}.
Definition set_live (v : bool) (d : DeformEffectPrivate) : DeformEffectPrivate :=
  {| windows := windows d; windowDamagedConnection := windowDamagedConnection d;
     windowDeletedConnection := windowDeletedConnection d; live := v |}.

Definition qsize_differs (a b : QSize) : bool :=
  negb ((width a =? width b) && (height a =? height b)).

Section WithEnv.
Context (E : Env).

(** State, and [None] for a failed assertion or a null pointer that is
    dereferenced. *)
Definition DM (A : Type) : Type := World E -> option (A * World E).

Definition ret {A} (a : A) : DM A := fun w => Some (a, w).
Definition bind {A B} (m : DM A) (k : A -> DM B) : DM B :=
  fun w => match m w with
           | Some (a, w') => k a w'
           | None => None
           end.
Definition failed {A} : DM A := fun _ => None.
Definition emit (ev : Event E) : DM unit :=
  fun w => Some (tt, {| trace := trace w ++ [ev]; next_name := next_name w; now := now w |}).
Definition fresh : DM positive :=
  fun w => Some (next_name w,
                 {| trace := trace w; next_name := Pos.succ (next_name w); now := now w |}).
Definition moment : DM nat := fun w => Some (now w, w).
(** Time passes between two calls into the effect. *)
Definition tick : DM unit :=
  fun w => Some (tt, {| trace := trace w; next_name := next_name w; now := S (now w) |}).

Declare Scope dm_scope.
Delimit Scope dm_scope with DM.
Notation "x <- c1 ;; c2" := (bind c1 (fun x => c2))
  (at level 100, c1 at next level, right associativity) : dm_scope.
Notation "c1 ;; c2" := (bind c1 (fun _ => c2))
  (at level 100, right associativity) : dm_scope.
Local Open Scope dm_scope.

(** [connect(effects, signal, this, slot)] *)
Definition connect (s : Signal) : DM (option positive) :=
  c <- fresh ;; emit (Connect s c) ;; ret (Some c).
Definition disconnect (c : option positive) : DM unit := emit (Disconnect c).

(** [new GLTexture(format, size)], [new GLFramebuffer(texture)] and the
    [delete] a scoped pointer does on what it held. *)
Definition new_GLTexture (format : Z) (size : QSize) : DM positive :=
  t <- fresh ;; emit (NewTexture t format size) ;; ret t.
Definition new_GLFramebuffer (t : positive) : DM positive :=
  f <- fresh ;; emit (NewFramebuffer f t) ;; ret f.
Definition delete_GLTexture (t : option positive) : DM unit :=
  match t with Some t => emit (DeleteTexture t) | None => ret tt end.
Definition delete_GLFramebuffer (f : option positive) : DM unit :=
  match f with Some f => emit (DeleteFramebuffer f) | None => ret tt end.

(** [delete offscreenData]: the members go in reverse order of declaration. *)
Definition delete_data (d : option DeformOffscreenData) : DM unit :=
  match d with
  | Some d => delete_GLFramebuffer (fbo d) ;; delete_GLTexture (texture d)
  | None => ret tt
  end.

(** [new DeformOffscreenData] *)
Definition new_data : DeformOffscreenData :=
  {| texture := None; fbo := None; isDirty := true; shader := None |}.

(** [DeformEffect::DeformEffect]: [new DeformEffectPrivate] *)
Definition constructor : DeformEffectPrivate :=
  {| windows := ∅; windowDamagedConnection := None;
     windowDeletedConnection := None; live := true |}.

(** [qDeleteAll(d->windows)] *)
Fixpoint qDeleteAll (values : list (option DeformOffscreenData)) : DM unit :=
  match values with
  | [] => ret tt
  | v :: rest => delete_data v ;; qDeleteAll rest
  end.

(** [DeformEffect::~DeformEffect] *)
Definition destructor (d : DeformEffectPrivate) : DM unit :=
  qDeleteAll (map_to_list (windows d)).*2.

(** [bool DeformEffect::supported()] *)
Definition supported : DM bool :=
  t <- moment ;; ret (isOpenGLCompositing E t).

(** [void DeformEffect::setLive(bool live)]; the assertion must hold. *)
Definition setLive (d : DeformEffectPrivate) (v : bool) : DM DeformEffectPrivate :=
  if decide (windows d = ∅) then ret (set_live v d) else failed.

(** [void DeformEffect::setupConnections()] *)
Definition setupConnections (d : DeformEffectPrivate) : DM DeformEffectPrivate :=
  d <- (if live d then
          c <- connect windowDamaged ;; ret (set_windowDamagedConnection c d)
        else ret d) ;;
  c <- connect windowDeleted ;;
  ret (set_windowDeletedConnection c d).

(** [void DeformEffect::destroyConnections()] *)
Definition destroyConnections (d : DeformEffectPrivate) : DM DeformEffectPrivate :=
  disconnect (windowDamagedConnection d) ;;
  disconnect (windowDeletedConnection d) ;;
  ret (set_windowDeletedConnection None (set_windowDamagedConnection None d)).

(** The mask of the offscreen pass. *)
Definition offscreen_mask : Z :=
  Z.lor (PAINT_WINDOW_TRANSFORMED E) (PAINT_WINDOW_TRANSLUCENT E).

(** The size of the offscreen texture of a window at a moment. *)
Definition wanted_size (t : nat) (window : positive) : QSize :=
  let geometry := expandedGeometry E t window in
  let textureSize := {| width := rect_width geometry; height := rect_height geometry |} in
  match screen E t window with
  | Some s => scaled E t textureSize s
  | None => textureSize
  end.

(** [GLTexture *DeformEffectPrivate::maybeRender(window, offscreenData)]:
    the texture it returns and the offscreen data as it leaves them. *)
Definition maybeRender (window : positive) (data : DeformOffscreenData)
    : DM (option positive * DeformOffscreenData) :=
  t <- moment ;;
  let geometry := expandedGeometry E t window in
  let textureSize := wanted_size t window in
  data <- (if match texture data with
              | None => true
              | Some tex => qsize_differs (texture_size E t tex) textureSize
              end
           then
             tex <- new_GLTexture GL_RGBA8 textureSize ;;
             delete_GLTexture (texture data) ;;
             emit (SetFilter tex GL_LINEAR) ;;
             emit (SetWrapMode tex GL_CLAMP_TO_EDGE) ;;
             f <- new_GLFramebuffer tex ;;
             delete_GLFramebuffer (fbo data) ;;
             ret {| texture := Some tex; fbo := Some f; isDirty := true;
                    shader := shader data |}
           else ret data) ;;
  data <- (if isDirty data then
             emit (PushFramebuffer (fbo data)) ;;
             emit GlClearColor ;;
             emit (GlClear GL_COLOR_BUFFER_BIT) ;;
             emit (EffectsDrawWindow window offscreen_mask (infiniteRegion E)
                     (OffscreenData (- rect_x geometry) (- rect_y geometry)
                        {| rect_x := 0; rect_y := 0;
                           rect_width := rect_width geometry;
                           rect_height := rect_height geometry |})) ;;
             emit PopFramebuffer ;;
             ret (set_isDirty false data)
           else ret data) ;;
  ret (texture data, data).

(** [d->windows.value(window)] *)
Definition value (d : DeformEffectPrivate) (window : positive) : option DeformOffscreenData :=
  default None (windows d !! window).

(** [void DeformEffect::redirect(EffectWindow *window)] *)
Definition redirect (d : DeformEffectPrivate) (window : positive) : DM DeformEffectPrivate :=
  (* [d->windows[window]] adds a null entry for a window that has none *)
  let d := match windows d !! window with
           | Some _ => d
           | None => set_windows (<[window := None]> (windows d)) d
           end in
  match value d window with
  | Some _ => ret d
  | None =>
      let offscreenData := new_data in
      let d := set_windows (<[window := Some offscreenData]> (windows d)) d in
      d <- (if decide (size (windows d) = 1%nat) then setupConnections d else ret d) ;;
      if negb (live d) then
        emit MakeOpenGLContextCurrent ;;
        r <- maybeRender window offscreenData ;;
        ret (set_windows (<[window := Some r.2]> (windows d)) d)
      else ret d
  end.

(** [void DeformEffect::unredirect(EffectWindow *window)] *)
Definition unredirect (d : DeformEffectPrivate) (window : positive) : DM DeformEffectPrivate :=
  delete_data (value d window) ;;
  let d := set_windows (delete window (windows d)) d in
  if decide (windows d = ∅) then destroyConnections d else ret d.

(** [void DeformEffect::deform(...)] of the base class does nothing. *)
Definition DeformEffect_deform (window : positive) (mask : Z)
    (data : WindowPaintData E) (quads : list WindowQuad)
    : WindowPaintData E * list WindowQuad :=
  (data, quads).

(** [void DeformEffectPrivate::paint(window, texture, region, data, quads,
    offscreenShader)]; the texture is dereferenced, so it is not null.  The
    products are those of the C++ code as long as they fit their types. *)
Definition paint (window : positive) (tex : positive) (region : Region E)
    (data : WindowPaintData E) (quads : list WindowQuad)
    (offscreenShader : option positive) : DM unit :=
  t <- moment ;;
  let s := match offscreenShader with
           | Some s => s
           | None => stock_shader E t
           end in
  emit (ShaderBinderEnter s) ;;
  let indexedQuads := supportsIndexedQuads E t in
  let primitiveType := if indexedQuads then GL_QUADS else GL_TRIANGLES in
  let verticesPerQuad := if indexedQuads then 4 else 6 in
  emit VboReset ;;
  emit (VboSetAttribLayout 2 (sizeof_GLVertex2D E)) ;;
  let count := Z.of_nat (length quads) in
  let size := verticesPerQuad * count * sizeof_GLVertex2D E in
  emit (VboMap size) ;;
  emit (MakeInterleavedArrays primitiveType quads tex) ;;
  emit VboUnmap ;;
  emit VboBindArrays ;;
  let rgb := times E (brightness E data) (opacity E data) in
  let a := opacity E data in
  let mvp := translate E (screenProjectionMatrix E data)
               (window_x E t window) (window_y E t window) in
  emit (SetModelViewProjection s mvp) ;;
  emit (SetModulationConstant s rgb a) ;;
  emit (SetSaturation s (saturation E data)) ;;
  emit (SetTextureWidth s (width (texture_size E t tex))) ;;
  emit (SetTextureHeight s (height (texture_size E t tex))) ;;
  let clipping := differs E region (infiniteRegion E) in
  let clipRegion := if clipping then mapToRenderTarget E t region
                    else infiniteRegion E in
  (if clipping then emit (GlEnable GL_SCISSOR_TEST) else ret tt) ;;
  emit (GlEnable GL_BLEND) ;;
  emit (GlBlendFunc GL_ONE GL_ONE_MINUS_SRC_ALPHA) ;;
  emit (TextureBind tex) ;;
  emit (VboDraw clipRegion primitiveType 0 (verticesPerQuad * count) clipping) ;;
  emit (TextureUnbind tex) ;;
  emit (GlDisable GL_BLEND) ;;
  (if clipping then emit (GlDisable GL_SCISSOR_TEST) else ret tt) ;;
  emit VboUnbindArrays ;;
  emit (ShaderBinderLeave s).

(** The quad [drawWindow] starts from: the expanded geometry, placed
    relative to the frame, with the unit square as texture coordinates. *)
Definition visible_quad (expanded frame : QRect) : WindowQuad :=
  let left := rect_x expanded - rect_x frame in
  let top := rect_y expanded - rect_y frame in
  let right := left + rect_width expanded in
  let bottom := top + rect_height expanded in
  {| vertex0 := {| position := (left, top); texcoord := (0, 0) |};
     vertex1 := {| position := (right, top); texcoord := (1, 0) |};
     vertex2 := {| position := (right, bottom); texcoord := (1, 1) |};
     vertex3 := {| position := (left, bottom); texcoord := (0, 1) |} |}.

(** [void DeformEffect::drawWindow(window, mask, region, data)]; the paint
    data is passed by reference, so what [deform] made of it is returned. *)
Definition drawWindow (d : DeformEffectPrivate) (window : positive) (mask : Z)
    (region : Region E) (data : WindowPaintData E)
    : DM (DeformEffectPrivate * WindowPaintData E) :=
  match value d window with
  | None =>
      emit (EffectsDrawWindow window mask region (CallerData data)) ;;
      ret (d, data)
  | Some offscreenData =>
      t <- moment ;;
      let quad := visible_quad (expandedGeometry E t window) (frameGeometry E t window) in
      let deformed := deform E window mask data [quad] in
      r <- maybeRender window offscreenData ;;
      match r.1 with
      | Some tex =>
          paint window tex region deformed.1 deformed.2 (shader r.2) ;;
          ret (set_windows (<[window := Some r.2]> (windows d)) d, deformed.1)
      | None => failed
      end
  end.

(** [void DeformEffect::handleWindowDamaged(EffectWindow *window)] *)
Definition handleWindowDamaged (d : DeformEffectPrivate) (window : positive)
    : DeformEffectPrivate :=
  match value d window with
  | Some offscreenData =>
      set_windows (<[window := Some (set_isDirty true offscreenData)]> (windows d)) d
  | None => d
  end.

(** [void DeformEffect::handleWindowDeleted(EffectWindow *window)] *)
Definition handleWindowDeleted (d : DeformEffectPrivate) (window : positive)
    : DM DeformEffectPrivate :=
  unredirect d window.

(** [void DeformEffect::setShader(EffectWindow *window, GLShader *shader)] *)
Definition setShader (d : DeformEffectPrivate) (window : positive)
    (s : option positive) : DeformEffectPrivate :=
  match value d window with
  | Some offscreenData =>
      set_windows (<[window := Some (set_shader s offscreenData)]> (windows d)) d
  | None => d
  end.
End WithEnv.
End Deform.

(** * Properties *)

(** ** Reading a trace *)

Definition is_import (ev : Event) : bool :=
  match ev with EvGbmBoImport _ _ _ _ _ => true | _ => false end.
Definition is_deregistration (ev : Event) : bool :=
  match ev with EvRmFB _ _ _ => true | _ => false end.
Definition is_tagging (ev : Event) : bool :=
  match ev with EvGbmBoSetUserData _ _ => true | _ => false end.
Definition is_log (lvl : LogLevel) (ev : Event) : bool :=
  match ev, lvl with
  | EvLog Warning _, Warning => true
  | EvLog Critical _, Critical => true
  | _, _ => false
  end.
Definition is_ref_of (cb : positive) (ev : Event) : bool :=
  match ev with EvClientRef c => bool_decide (c = cb) | _ => false end.
Definition is_unref_of (cb : positive) (ev : Event) : bool :=
  match ev with EvClientUnref c => bool_decide (c = cb) | _ => false end.
(** The native handle is given up: back to its pool, or destroyed. *)
Definition is_native_release (ev : Event) : bool :=
  match ev with
  | EvGbmBoDestroy _ | EvSurfaceReleaseBuffer _ _ => true
  | _ => false
  end.
Definition occurrences (f : Event -> bool) (evs : list Event) : nat :=
  length (filter (fun ev => f ev) evs).

(** A world that continues [w] with the events [evs]. *)
Definition extends (w w' : World) (evs : list Event) : Prop :=
  trace w' = trace w ++ evs.

(** The import type that goes with an argument block. *)
Definition import_type_of (d : ImportData) : Z :=
  match d with
  | gbm_import_fd_data _ _ _ _ _ => GBM_BO_IMPORT_FD
  | gbm_import_fd_modifier_data _ _ _ _ _ _ _ _ => GBM_BO_IMPORT_FD_MODIFIER
  end.

Definition import_failed_with (e : positive) (evs : list Event) : Prop :=
  exists dev type data usage, EvGbmBoImport dev type data usage (Fail e) ∈ evs.

Definition logged (lvl : LogLevel) (evs : list Event) : Prop :=
  exists line, EvLog lvl line ∈ evs.

(** ** Sample inputs *)

(** An environment whose native buffers are 1920x1080 XRGB8888 with a single
    plane, and whose calls are answered as the parameters say. *)
Definition sample_env (import : Answer gbm_bo) (addfb : FbRequest -> Answer Z)
    (rmfb : Answer unit) (mapped : Z * Z * Z) (modifier : Z) : Env :=
  {| gbm_bo_get_stride := fun _ => 7680;
     gbm_bo_get_width := fun _ => 1920;
     gbm_bo_get_height := fun _ => 1080;
     gbm_bo_get_format := fun _ => 0x34325258;
     gbm_bo_get_modifier := fun _ => modifier;
     gbm_bo_get_plane_count := fun _ => 1;
     gbm_bo_get_handle := fun _ => 3;
     gbm_bo_get_handle_for_plane := fun _ _ => 3;
     gbm_bo_get_stride_for_plane := fun _ _ => 7680;
     gbm_bo_get_offset := fun _ _ => 0;
     gbm_format_get_name := fun _ => "XR24";
     strerror := fun e => if e =? EINVAL then "Invalid argument" else "Permission denied";
     getEglErrorString := fun _ => "EGL_BAD_ALLOC";
     import_answer := fun _ _ _ _ _ => import;
     map_answer := fun _ _ _ _ _ _ _ _ _ => mapped;
     egl_image_answer := fun _ _ _ _ => 0;
     addfb_answer := fun _ rq => addfb rq;
     rmfb_answer := fun _ _ _ => rmfb |}.

Definition sample_gpu : DrmGpu :=
  {| fd := 5; devNode := "/dev/dri/card0"; addFB2ModifiersSupported := true;
     gbmDevice := 1%positive |}.

Definition linear_plane : Plane :=
  {| plane_fd := 9; plane_offset := 0; plane_stride := 7680;
     plane_modifier := DRM_FORMAT_MOD_INVALID |}.

Definition tiled_plane : Plane :=
  {| plane_fd := 9; plane_offset := 0; plane_stride := 7680;
     plane_modifier := 0x100000000000001 |}.

Definition sample_client (planes : list Plane) : ClientBuffer :=
  {| cb_id := 77%positive; cb_format := 0x34325258;
     cb_size := {| width := 1920; height := 1080 |}; cb_planes := planes |}.

Definition empty_world : World := {| trace := []; errno := 0 |}.

Definition all_fail (e : positive) : FbRequest -> Answer Z := fun _ => Fail e.

(** ** What one run of [initialize] asks of the kernel *)

Inductive Tier := TierModifiers | TierMultiPlane | TierLegacy.

Definition tier_of (rq : FbRequest) : Tier :=
  match rq with
  | AddFB2WithModifiers _ _ _ _ _ _ _ _ _ => TierModifiers
  | AddFB2 _ _ _ _ _ _ _ _ => TierMultiPlane
  | AddFB _ _ _ _ _ _ _ => TierLegacy
  end.

Definition succeeded {A} (res : Answer A) : bool :=
  match res with Ok _ => true | Fail _ => false end.

(** The registration attempts in a trace, in order: which call, and whether
    the kernel accepted it. *)
Definition attempt_of (ev : Event) : option (Tier * bool) :=
  match ev with
  | EvAddFB rq res => Some (tier_of rq, succeeded res)
  | _ => None
  end.
Definition attempts (evs : list Event) : list (Tier * bool) := omap attempt_of evs.

(** The framebuffer identifier the kernel handed out in a trace, if any. *)
Definition issued_id (ev : Event) : option Z :=
  match ev with
  | EvAddFB _ (Ok fb) => Some fb
  | _ => None
  end.
Definition registered_id (evs : list Event) : option Z := last (omap issued_id evs).

Definition Tier_eqb (s t : Tier) : bool :=
  match s, t with
  | TierModifiers, TierModifiers | TierMultiPlane, TierMultiPlane
  | TierLegacy, TierLegacy => true
  | _, _ => false
  end.

(** A fallback chain over the tiers [tiers]: the first tier is attempted; a
    success ends the chain; a failure is followed by the chain over the
    remaining tiers; nothing is attempted once the tiers are used up. *)
Fixpoint fallback_chain (tiers : list Tier) (atts : list (Tier * bool)) : bool :=
  match tiers, atts with
  | [], [] => true
  | t :: ts, (t', ok) :: rest =>
      Tier_eqb t' t &&
      (if ok then match rest with [] => true | _ => false end
       else fallback_chain ts rest)
  | _, _ => false
  end.

Section Registration.
Context (env : Env) (b : DrmGbmBuffer) (bo : gbm_bo) (a : FbPlanes).

Definition fb_width : Z := to_u32 (to_s32 (gbm_bo_get_width env bo)).
Definition fb_height : Z := to_u32 (to_s32 (gbm_bo_get_height env bo)).

Definition request_modifiers : FbRequest :=
  AddFB2WithModifiers (fd (m_gpu (drm b))) fb_width fb_height (m_format (drm b))
    (handles a) (strides a) (offsets a) (modifiers a) DRM_MODE_FB_MODIFIERS.
Definition request_multi_plane : FbRequest :=
  AddFB2 (fd (m_gpu (drm b))) fb_width fb_height (m_format (drm b))
    (handles a) (strides a) (offsets a) 0.
Definition request_legacy : FbRequest :=
  AddFB (fd (m_gpu (drm b))) fb_width fb_height 24 32
    (DrmGbmBuffer.at0 (strides a)) (DrmGbmBuffer.at0 (handles a)).

(** The condition of the outer [if] of [initialize]. *)
Definition modifier_aware : bool :=
  negb (DrmGbmBuffer.at0 (modifiers a) =? DRM_FORMAT_MOD_INVALID)
  && addFB2ModifiersSupported (m_gpu (drm b)).

(** The line a diagnostic of [initialize] names the device, the format and
    the modifier in. *)
Definition names_buffer (line : list LogItem) : Prop :=
  LStr (devNode (m_gpu (drm b))) ∈ line /\
  LStr (gbm_format_get_name env (m_format (drm b))) ∈ line /\
  LNum (DrmGbmBuffer.at0 (modifiers a)) ∈ line.

(** The diagnostic is only written for a buffer that has a surface. *)
Definition diagnostic (prefix middle : string) (e : positive) : list Event :=
  match m_surface (gbm b) with
  | Some _ =>
      [EvLog Critical
         [LStr prefix; LStr (devNode (m_gpu (drm b))); LStr middle;
          LStr (gbm_format_get_name env (m_format (drm b)));
          LStr "and modifier"; LNum (DrmGbmBuffer.at0 (modifiers a));
          LStr (strerror env (Z.pos e))]]
  | None => []
  end.

(** The five ways the registration part of [initialize] can go, after the
    history [h]: the events it adds, the framebuffer identifier it leaves in
    [m_bufferId], and the [errno] of the last failed call. *)
Inductive registration (h : list Event) : list Event -> Z -> option positive -> Prop :=
| reg_modifiers_ok fb :
    modifier_aware = true ->
    addfb_answer env h request_modifiers = Ok fb ->
    registration h [EvAddFB request_modifiers (Ok fb)] fb None
| reg_modifiers_fail e :
    modifier_aware = true ->
    addfb_answer env h request_modifiers = Fail e ->
    registration h
      (EvAddFB request_modifiers (Fail e) ::
       diagnostic "drmModeAddFB2WithModifiers on GPU" "failed for a buffer with format" e)
      (m_bufferId (drm b)) (Some e)
| reg_multi_plane_ok fb :
    modifier_aware = false ->
    addfb_answer env h request_multi_plane = Ok fb ->
    registration h [EvAddFB request_multi_plane (Ok fb)] fb None
| reg_legacy_ok e fb :
    modifier_aware = false ->
    addfb_answer env h request_multi_plane = Fail e ->
    addfb_answer env (h ++ [EvAddFB request_multi_plane (Fail e)]) request_legacy = Ok fb ->
    registration h
      [EvAddFB request_multi_plane (Fail e); EvAddFB request_legacy (Ok fb)]
      fb (Some e)
| reg_legacy_fail e e' :
    modifier_aware = false ->
    addfb_answer env h request_multi_plane = Fail e ->
    addfb_answer env (h ++ [EvAddFB request_multi_plane (Fail e)]) request_legacy = Fail e' ->
    registration h
      (EvAddFB request_multi_plane (Fail e) :: EvAddFB request_legacy (Fail e') ::
       diagnostic "drmModeAddFB2 and drmModeAddFB both failed on GPU"
         "for a buffer with format" e')
      (m_bufferId (drm b)) (Some e').
End Registration.

(** libgbm never reports more planes than its arrays hold. *)
Definition planes_fit (env : Env) (bo : gbm_bo) : Prop :=
  gbm_bo_get_plane_count env bo <= Z.of_nat GBM_MAX_PLANES.

(** Every attempt in the list failed, and there was at least one. *)
Definition exhausted (atts : list (Tier * bool)) : bool :=
  match atts with
  | [] => false
  | _ => forallb (fun att => negb att.2) atts
  end.

(** The tiers of the three-tier reading: all three when the first is
    applicable, the last two otherwise. *)
Definition three_tiers (modifier_first : bool) : list Tier :=
  if modifier_first then [TierModifiers; TierMultiPlane; TierLegacy]
  else [TierMultiPlane; TierLegacy].

(** The tiers [initialize] goes through. *)
Definition two_branches (modifier_first : bool) : list Tier :=
  if modifier_first then [TierModifiers] else [TierMultiPlane; TierLegacy].

(** The three-tier reading of a run of [initialize]: the attempts it made
    form a fallback chain over [three_tiers]. *)
Definition three_tier_fallback (env : Env) (this : addr) (b : DrmGbmBuffer)
    (w : World) : Prop :=
  exists bo a b' w',
    m_bo (gbm b) = Some bo /\
    DrmGbmBuffer.plane_arrays env bo (m_modifier (drm b)) = Some a /\
    DrmGbmBuffer.initialize env this b w = Some (b', w') /\
    fallback_chain (three_tiers (modifier_aware b a))
      (attempts (new_events w w')) = true.

(** Every hard registration failure is reported: a construction that ends
    with all its attempts failed has logged a critical line that names the
    device, the format and a modifier. *)
Definition hard_failure_reported (construct : M DrmGbmBuffer) (env : Env)
    (w : World) : Prop :=
  forall b' w',
    construct w = Some (b', w') ->
    exhausted (attempts (new_events w w')) = true ->
    exists line,
      EvLog Critical line ∈ new_events w w' /\
      LStr (devNode (m_gpu (drm b'))) ∈ line /\
      LStr (gbm_format_get_name env (m_format (drm b'))) ∈ line /\
      exists modifier, LNum modifier ∈ line.

(** A tiled buffer from a pool, on a device that registers with modifiers,
    and a kernel that rejects every registration. *)
Definition tiled_modifier : Z := 0x100000000000001.
Definition rejecting_env : Env :=
  sample_env (Ok 4%positive) (all_fail 22) (Ok tt) (0, 0, 0) tiled_modifier.
Definition pool_buffer : DrmGbmBuffer :=
  {| drm := DrmGbmBuffer.DrmBuffer_new sample_gpu 0x34325258 tiled_modifier;
     gbm := GbmBuffer.from_surface rejecting_env (Some 2%positive) 4%positive |}.

(** ** The life of a buffer object *)

(** What [releaseBuffer] asks of the outside for an object in state [b]. *)
Definition release_events (this : addr) (b : GbmBuffer) : list Event :=
  match m_clientBuffer b with
  | Some cb => [EvClientUnref (cb_id cb)]
  | None => []
  end ++
  match m_bo b with
  | None => []
  | Some bo =>
      (if m_mapping b =? 0 then [] else [EvGbmBoUnmap bo (m_mapping b)]) ++
      [match m_surface b with
       | Some s => EvSurfaceReleaseBuffer s this
       | None => EvGbmBoDestroy bo
       end]
  end.

(** The state [releaseBuffer] leaves the object in. *)
Definition released (b : GbmBuffer) : GbmBuffer :=
  {| m_surface := match m_bo b with Some _ => None | None => m_surface b end;
     m_bo := None; m_clientBuffer := None;
     m_data := m_data b; m_mapping := m_mapping b; m_stride := m_stride b |}.

(** What the body of [~DrmGbmBuffer] asks of the outside after the history
    [h]. *)
Definition deregistration_events (env : Env) (h : list Event) (d : DrmBuffer) : list Event :=
  if m_bufferId d =? 0 then []
  else
    let res := rmfb_answer env h (fd (m_gpu d)) (m_bufferId d) in
    EvRmFB (fd (m_gpu d)) (m_bufferId d) res ::
    match res with
    | Ok _ => []
    | Fail e =>
        [EvLog Critical
           [LStr "drmModeRmFB on GPU"; LStr (devNode (m_gpu d)); LStr "failed!";
            LStr (strerror env (Z.pos e))]]
    end.

(** The public operations a caller can apply to a buffer object between its
    construction and its destruction. *)
Inductive BufferOp :=
| OpMap (flags : Z)
| OpRelease
| OpCreateTexture (display : Z).

Definition run_op (env : Env) (this : addr) (op : BufferOp) (b : GbmBuffer) : M GbmBuffer :=
  match op with
  | OpMap flags => r <- GbmBuffer.map env b flags ;; ret r.2
  | OpRelease => GbmBuffer.releaseBuffer this b
  | OpCreateTexture display => GbmBuffer.createTexture env b display ;; ret b
  end.

Fixpoint run_ops (env : Env) (this : addr) (ops : list BufferOp) (b : GbmBuffer) : M GbmBuffer :=
  match ops with
  | [] => ret b
  | op :: rest => b' <- run_op env this op b ;; run_ops env this rest b'
  end.

(** Import, any use, destruction. *)
Definition lifetime (env : Env) (this : addr) (gpu : DrmGpu) (cb : ClientBuffer)
    (ops : list BufferOp) : M unit :=
  b <- GbmBuffer.from_clientBuffer env gpu cb ;;
  b <- run_ops env this ops b ;;
  GbmBuffer.destructor this b.

(** The references to client buffer [id] that a buffer object still owes. *)
Definition owed (id : positive) (b : GbmBuffer) : nat :=
  match m_clientBuffer b with
  | Some cb => if bool_decide (cb_id cb = id) then 1 else 0
  | None => 0
  end.

(** A driver that maps every buffer at address 4096. *)
Definition mapping_env : Env :=
  sample_env (Ok 4%positive) (all_fail 22) (Ok tt) (4096, 7680, 555) tiled_modifier.

Definition no_dumb_work : addr -> DrmBuffer -> M unit := fun _ _ => ret tt.

Definition gbm_object (surface : positive) (bo : gbm_bo) (fb : Z) : DrmBufferObj :=
  IsDrmGbmBuffer
    {| drm := set_m_bufferId fb (DrmGbmBuffer.DrmBuffer_new sample_gpu 0x34325258 tiled_modifier);
       gbm := GbmBuffer.from_surface rejecting_env (Some surface) bo |}.

(** Two shared buffers: 10 is queued as "next" and is referenced by nobody
    else, 20 is the buffer about to be queued, held by its maker. *)
Definition sample_store : gmap positive Shared :=
  {[ 10%positive := {| pointee := gbm_object 2 4 41; strongref := 1 |};
     20%positive := {| pointee := gbm_object 2 5 42; strongref := 1 |} ]}.

Definition sample_crtc : DrmCrtc :=
  {| m_resIndex := 0; gamma_size := 256; m_currentBuffer := None;
     m_nextBuffer := Some 10%positive; m_blackBuffer := None |}.

(** ** More ways to read a trace *)

Definition is_map_call (ev : Event) : bool :=
  match ev with EvGbmBoMap _ _ _ _ _ _ _ => true | _ => false end.
Definition is_unmap (ev : Event) : bool :=
  match ev with EvGbmBoUnmap _ _ => true | _ => false end.
Definition is_destroy (ev : Event) : bool :=
  match ev with EvGbmBoDestroy _ => true | _ => false end.
Definition is_surface_release (ev : Event) : bool :=
  match ev with EvSurfaceReleaseBuffer _ _ => true | _ => false end.
Definition is_egl_image (ev : Event) : bool :=
  match ev with EvEglCreateImage _ _ _ _ => true | _ => false end.
Definition is_any_log (ev : Event) : bool :=
  match ev with EvLog _ _ => true | _ => false end.

(** The fields the three registration requests have in common. *)
Definition request_fd (rq : FbRequest) : Z :=
  match rq with
  | AddFB2WithModifiers f _ _ _ _ _ _ _ _ | AddFB2 f _ _ _ _ _ _ _
  | AddFB f _ _ _ _ _ _ => f
  end.
Definition request_width (rq : FbRequest) : Z :=
  match rq with
  | AddFB2WithModifiers _ w _ _ _ _ _ _ _ | AddFB2 _ w _ _ _ _ _ _
  | AddFB _ w _ _ _ _ _ => w
  end.
Definition request_height (rq : FbRequest) : Z :=
  match rq with
  | AddFB2WithModifiers _ _ h _ _ _ _ _ _ | AddFB2 _ _ h _ _ _ _ _
  | AddFB _ _ h _ _ _ _ => h
  end.

(** [a] comes before [b] in [evs]. *)
Definition precedes (a b : Event) (evs : list Event) : Prop :=
  exists l1 l2 l3, evs = l1 ++ a :: l2 ++ b :: l3.

(** A scanout buffer's whole life when it comes from a pool. *)
Definition pool_lifetime (env : Env) (this : addr) (gpu : DrmGpu)
    (surface : option GbmSurfacePtr) (bo : gbm_bo) : M unit :=
  b <- DrmGbmBuffer.from_surface env this gpu surface bo ;;
  DrmGbmBuffer.destructor env this b.

(** A scanout buffer's whole life when it is imported from a client. *)
Definition import_lifetime (env : Env) (this : addr) (gpu : DrmGpu)
    (cb : ClientBuffer) : M unit :=
  b <- DrmGbmBuffer.from_clientBuffer env this gpu cb ;;
  DrmGbmBuffer.destructor env this b.

(** A native buffer with three planes whose per-plane handles are 11, 12
    and 13, registered by a kernel that accepts everything. *)
Definition planar_env : Env :=
  {| gbm_bo_get_stride := fun _ => 1920;
     gbm_bo_get_width := fun _ => 1920;
     gbm_bo_get_height := fun _ => 1080;
     gbm_bo_get_format := fun _ => 0x32315559;
     gbm_bo_get_modifier := fun _ => 0;
     gbm_bo_get_plane_count := fun _ => 3;
     gbm_bo_get_handle := fun _ => 11;
     gbm_bo_get_handle_for_plane := fun _ i => 11 + i;
     gbm_bo_get_stride_for_plane := fun _ i => if i =? 0 then 1920 else 960;
     gbm_bo_get_offset := fun _ i => i * 2073600;
     gbm_format_get_name := fun _ => "YU12";
     strerror := fun _ => "Invalid argument";
     getEglErrorString := fun _ => "EGL_BAD_ALLOC";
     import_answer := fun _ _ _ _ _ => Ok 4%positive;
     map_answer := fun _ _ _ _ _ _ _ _ _ => (4096, 1920, 555);
     egl_image_answer := fun _ _ _ _ => 900;
     addfb_answer := fun _ _ => Ok 41;
     rmfb_answer := fun _ _ _ => Ok tt |}.

(** The same buffer seen by a libgbm without per-plane handles. *)
Definition legacy_env : Env :=
  {| gbm_bo_get_stride := gbm_bo_get_stride planar_env;
     gbm_bo_get_width := gbm_bo_get_width planar_env;
     gbm_bo_get_height := gbm_bo_get_height planar_env;
     gbm_bo_get_format := gbm_bo_get_format planar_env;
     gbm_bo_get_modifier := gbm_bo_get_modifier planar_env;
     gbm_bo_get_plane_count := gbm_bo_get_plane_count planar_env;
     gbm_bo_get_handle := gbm_bo_get_handle planar_env;
     gbm_bo_get_handle_for_plane := fun _ _ => 0xffffffff;
     gbm_bo_get_stride_for_plane := gbm_bo_get_stride_for_plane planar_env;
     gbm_bo_get_offset := gbm_bo_get_offset planar_env;
     gbm_format_get_name := gbm_format_get_name planar_env;
     strerror := strerror planar_env;
     getEglErrorString := getEglErrorString planar_env;
     import_answer := import_answer planar_env;
     map_answer := map_answer planar_env;
     egl_image_answer := egl_image_answer planar_env;
     addfb_answer := addfb_answer planar_env;
     rmfb_answer := rmfb_answer planar_env |}.

Definition planar_buffer (env : Env) : DrmGbmBuffer :=
  {| drm := DrmGbmBuffer.DrmBuffer_new sample_gpu 0x32315559 0;
     gbm := GbmBuffer.from_surface env (Some 2%positive) 4%positive |}.

(** All four arrays have their four entries. *)
Definition fits4 (a : FbPlanes) : Prop :=
  length (handles a) = GBM_MAX_PLANES /\ length (strides a) = GBM_MAX_PLANES /\
  length (offsets a) = GBM_MAX_PLANES /\ length (modifiers a) = GBM_MAX_PLANES.

Definition request_format (rq : FbRequest) : option Z :=
  match rq with
  | AddFB2WithModifiers _ _ _ f _ _ _ _ _ | AddFB2 _ _ _ f _ _ _ _ => Some f
  | AddFB _ _ _ _ _ _ _ => None
  end.

(** A [uint32_t] value. *)
Definition is_u32 (z : Z) : Prop := 0 <= z < 2 ^ 32.

(** ** Reading the trace of the deform effect *)

Module DeformTrace.
Section WithEnv.
Context {E : Deform.Env}.

Definition new_events (w w' : Deform.World E) : list (Deform.Event E) :=
  drop (length (Deform.trace w)) (Deform.trace w').

Definition count (f : Deform.Event E -> bool) (evs : list (Deform.Event E)) : nat :=
  length (filter (fun ev => f ev) evs).

Definition is_window_draw (ev : Deform.Event E) : bool :=
  match ev with Deform.EffectsDrawWindow _ _ _ _ => true | _ => false end.
Definition is_vbo_draw (ev : Deform.Event E) : bool :=
  match ev with Deform.VboDraw _ _ _ _ _ => true | _ => false end.
Definition is_new_texture (ev : Deform.Event E) : bool :=
  match ev with Deform.NewTexture _ _ _ => true | _ => false end.
Definition makes_texture (t : positive) (ev : Deform.Event E) : bool :=
  match ev with Deform.NewTexture x _ _ => bool_decide (x = t) | _ => false end.
Definition deletes_texture (t : positive) (ev : Deform.Event E) : bool :=
  match ev with Deform.DeleteTexture x => bool_decide (x = t) | _ => false end.
Definition makes_framebuffer (f : positive) (ev : Deform.Event E) : bool :=
  match ev with Deform.NewFramebuffer x _ => bool_decide (x = f) | _ => false end.
Definition deletes_framebuffer (f : positive) (ev : Deform.Event E) : bool :=
  match ev with Deform.DeleteFramebuffer x => bool_decide (x = f) | _ => false end.
Definition opens (c : positive) (ev : Deform.Event E) : bool :=
  match ev with Deform.Connect _ x => bool_decide (x = c) | _ => false end.
Definition closes (c : positive) (ev : Deform.Event E) : bool :=
  match ev with Deform.Disconnect (Some x) => bool_decide (x = c) | _ => false end.
Definition is_shader_bind (ev : Deform.Event E) : bool :=
  match ev with Deform.ShaderBinderEnter _ => true | _ => false end.

(** The OpenGL capabilities that are enabled after [evs], having been [caps]
    before. *)
Definition gl_step (caps : gset Z) (ev : Deform.Event E) : gset Z :=
  match ev with
  | Deform.GlEnable cap => caps ∪ {[cap]}
  | Deform.GlDisable cap => caps ∖ {[cap]}
  | _ => caps
  end.
Definition gl_caps (caps : gset Z) (evs : list (Deform.Event E)) : gset Z :=
  foldl gl_step caps evs.

(** The texture of a window is out of date at the moment [t]: there is none,
    or it does not report the size the window wants. *)
Definition stale (t : nat) (window : positive) (data : Deform.DeformOffscreenData) : bool :=
  match Deform.texture data with
  | None => true
  | Some tex =>
      Deform.qsize_differs (Deform.texture_size E t tex) (Deform.wanted_size E t window)
  end.

(** The call [maybeRender] makes to have the window drawn offscreen. *)
Definition offscreen_draw (t : nat) (window : positive) : Deform.Event E :=
  let geometry := Deform.expandedGeometry E t window in
  Deform.EffectsDrawWindow window (Deform.offscreen_mask E) (Deform.infiniteRegion E)
    (Deform.OffscreenData (- Deform.rect_x geometry) (- Deform.rect_y geometry)
       {| Deform.rect_x := 0; Deform.rect_y := 0;
          Deform.rect_width := Deform.rect_width geometry;
          Deform.rect_height := Deform.rect_height geometry |}).

(** What one call of [paint] asks of OpenGL, at the moment [t]. *)
Definition paint_events (t : nat) (window tex : positive) (region : Deform.Region E)
    (data : Deform.WindowPaintData E) (quads : list Deform.WindowQuad)
    (offscreenShader : option positive) : list (Deform.Event E) :=
  let s := match offscreenShader with
           | Some s => s
           | None => Deform.stock_shader E t
           end in
  let indexed := Deform.supportsIndexedQuads E t in
  let primitiveType := if indexed then Deform.GL_QUADS else Deform.GL_TRIANGLES in
  let per := if indexed then 4 else 6 in
  let count := Z.of_nat (length quads) in
  let clipping := Deform.differs E region (Deform.infiniteRegion E) in
  [Deform.ShaderBinderEnter s; Deform.VboReset;
   Deform.VboSetAttribLayout 2 (Deform.sizeof_GLVertex2D E);
   Deform.VboMap (per * count * Deform.sizeof_GLVertex2D E);
   Deform.MakeInterleavedArrays primitiveType quads tex;
   Deform.VboUnmap; Deform.VboBindArrays;
   Deform.SetModelViewProjection s
     (Deform.translate E (Deform.screenProjectionMatrix E data)
        (Deform.window_x E t window) (Deform.window_y E t window));
   Deform.SetModulationConstant s
     (Deform.times E (Deform.brightness E data) (Deform.opacity E data))
     (Deform.opacity E data);
   Deform.SetSaturation s (Deform.saturation E data);
   Deform.SetTextureWidth s (width (Deform.texture_size E t tex));
   Deform.SetTextureHeight s (height (Deform.texture_size E t tex))] ++
  (if clipping then [Deform.GlEnable Deform.GL_SCISSOR_TEST] else []) ++
  [Deform.GlEnable Deform.GL_BLEND;
   Deform.GlBlendFunc Deform.GL_ONE Deform.GL_ONE_MINUS_SRC_ALPHA;
   Deform.TextureBind tex;
   Deform.VboDraw
     (if clipping then Deform.mapToRenderTarget E t region else Deform.infiniteRegion E)
     primitiveType 0 (per * count) clipping;
   Deform.TextureUnbind tex;
   Deform.GlDisable Deform.GL_BLEND] ++
  (if clipping then [Deform.GlDisable Deform.GL_SCISSOR_TEST] else []) ++
  [Deform.VboUnbindArrays; Deform.ShaderBinderLeave s].
End WithEnv.
Arguments stale : clear implicits.
Arguments offscreen_draw : clear implicits.
Arguments paint_events : clear implicits.
End DeformTrace.


(** ** Using the deform effect *)

Module DeformLife.
Section WithEnv.
Context {E : Deform.Env}.

(** What can be asked of a [DeformEffect] from outside: its public and
    protected members, and its two slots. *)
Inductive Call :=
| CallSetLive (live : bool)
| CallRedirect (window : positive)
| CallUnredirect (window : positive)
| CallDrawWindow (window : positive) (mask : Z) (region : Deform.Region E)
    (data : Deform.WindowPaintData E)
| CallWindowDamaged (window : positive)
| CallWindowDeleted (window : positive)
| CallSetShader (window : positive) (shader : option positive).

Definition run_call (d : Deform.DeformEffectPrivate) (c : Call)
    : Deform.DM E Deform.DeformEffectPrivate :=
  match c with
  | CallSetLive v => Deform.setLive E d v
  | CallRedirect window => Deform.redirect E d window
  | CallUnredirect window => Deform.unredirect E d window
  | CallDrawWindow window mask region data =>
      Deform.bind E (Deform.drawWindow E d window mask region data)
        (fun r => Deform.ret E r.1)
  | CallWindowDamaged window => Deform.ret E (Deform.handleWindowDamaged d window)
  | CallWindowDeleted window => Deform.handleWindowDeleted E d window
  | CallSetShader window s => Deform.ret E (Deform.setShader d window s)
  end.

(** One call after the other, time passing in between. *)
Fixpoint run_calls (d : Deform.DeformEffectPrivate) (cs : list Call)
    : Deform.DM E Deform.DeformEffectPrivate :=
  match cs with
  | [] => Deform.ret E d
  | c :: cs =>
      Deform.bind E (run_call d c) (fun d =>
      Deform.bind E (Deform.tick E) (fun _ => run_calls d cs))
  end.

(** An effect from its construction to its destruction. *)
Definition lifetime (cs : list Call) : Deform.DM E unit :=
  Deform.bind E (run_calls (Deform.constructor) cs) (fun d => Deform.destructor E d).

(** The windows that are redirected after the calls [cs], [ws] being
    redirected before. *)
Definition track (ws : gset positive) (c : Call) : gset positive :=
  match c with
  | CallRedirect window => ws ∪ {[window]}
  | CallUnredirect window | CallWindowDeleted window => ws ∖ {[window]}
  | _ => ws
  end.
Definition redirected_after (ws : gset positive) (cs : list Call) : gset positive :=
  foldl track ws cs.

(** No call of [setLive] is made while a window is redirected. *)
Fixpoint well_used (ws : gset positive) (cs : list Call) : bool :=
  match cs with
  | [] => true
  | c :: cs =>
      match c with
      | CallSetLive _ => bool_decide (ws = ∅)
      | _ => true
      end && well_used (track ws c) cs
  end.

(** The value of [live] after the calls. *)
Definition live_step (v : bool) (c : Call) : bool :=
  match c with CallSetLive v' => v' | _ => v end.
Definition live_after (v : bool) (cs : list Call) : bool := foldl live_step v cs.

(** What the effect makes and has to give back: textures, framebuffers and
    signal connections. *)
Inductive Kind := Texture | Framebuffer | Connection.

(** [ev] makes, or gives back, the object [x] of kind [k]. *)
Definition made (k : Kind) (x : positive) (ev : Deform.Event E) : bool :=
  match k with
  | Texture => DeformTrace.makes_texture x ev
  | Framebuffer => DeformTrace.makes_framebuffer x ev
  | Connection => DeformTrace.opens x ev
  end.
Definition gone (k : Kind) (x : positive) (ev : Deform.Event E) : bool :=
  match k with
  | Texture => DeformTrace.deletes_texture x ev
  | Framebuffer => DeformTrace.deletes_framebuffer x ev
  | Connection => DeformTrace.closes x ev
  end.

(** What an entry of [windows] holds on to, and what the effect does: the
    textures and framebuffers of its entries, and its two connections. *)
Definition holds (k : Kind) (v : option Deform.DeformOffscreenData) : list positive :=
  match v, k with
  | Some data, Texture => option_list (Deform.texture data)
  | Some data, Framebuffer => option_list (Deform.fbo data)
  | _, _ => []
  end.
Definition held (k : Kind) (d : Deform.DeformEffectPrivate) : list positive :=
  ((map_to_list (Deform.windows d)).*2 ≫= holds k) ++
  match k with
  | Connection =>
      option_list (Deform.windowDamagedConnection d) ++
      option_list (Deform.windowDeletedConnection d)
  | _ => []
  end.

(** How often [x] is in [l]. *)
Definition occ (x : positive) (l : list positive) : nat :=
  length (filter (fun y => y = x) l).

(** Every object made so far and not given back is held, by one holder;
    no name was used twice, and none beyond the counter. *)
Definition balanced (d : Deform.DeformEffectPrivate) (w : Deform.World E) : Prop :=
  forall k x,
    (DeformTrace.count (made k x) (Deform.trace w) =
       DeformTrace.count (gone k x) (Deform.trace w) + occ x (held k d))%nat /\
    (DeformTrace.count (made k x) (Deform.trace w) <= 1)%nat /\
    ((Deform.next_name w <= x)%positive ->
     DeformTrace.count (made k x) (Deform.trace w) = 0%nat).

(** The events [evs], with names from [n] up to [n'], turn the holdings
    [before] into [after]: what they make and what was held is what they
    give back and what is held afterwards, and each name they make is a new
    one, made once. *)
Definition accounts (evs : list (Deform.Event E)) (n n' : positive)
    (before after : Kind -> list positive) : Prop :=
  (n <= n')%positive /\
  forall k x,
    (DeformTrace.count (made k x) evs + occ x (before k) =
       DeformTrace.count (gone k x) evs + occ x (after k))%nat /\
    (DeformTrace.count (made k x) evs <= 1)%nat /\
    (DeformTrace.count (made k x) evs <> 0%nat -> (n <= x < n')%positive).

(** The state of an effect as its members leave it: no window has a null
    entry, the deletion signal is connected exactly while some window is
    redirected, and the damage signal exactly while, in addition, the effect
    is live. *)
Definition consistent (d : Deform.DeformEffectPrivate) : Prop :=
  (forall window v, Deform.windows d !! window = Some v -> v <> None) /\
  (Deform.windowDeletedConnection d <> None <-> Deform.windows d <> ∅) /\
  (Deform.windowDamagedConnection d <> None <->
   Deform.windows d <> ∅ /\ Deform.live d = true).

(** The connection [c] to the signal [s] has been made and not been
    disconnected. *)
Definition is_open (s : Deform.Signal) (c : positive) (evs : list (Deform.Event E)) : Prop :=
  Deform.Connect s c ∈ evs /\ DeformTrace.count (DeformTrace.closes c) evs = 0%nat.

(** The connections the effect holds were made to the signals their names
    say. *)
Definition rightly_connected (d : Deform.DeformEffectPrivate)
    (evs : list (Deform.Event E)) : Prop :=
  (forall c, Deform.windowDamagedConnection d = Some c ->
             Deform.Connect Deform.windowDamaged c ∈ evs) /\
  (forall c, Deform.windowDeletedConnection d = Some c ->
             Deform.Connect Deform.windowDeleted c ∈ evs).

(** A world in which nothing has happened yet. *)
Definition start (n : positive) (t : nat) : Deform.World E :=
  {| Deform.trace := []; Deform.next_name := n; Deform.now := t |}.

(** The events of [unredirect] or of the destructor for one entry. *)
Definition delete_events (v : option Deform.DeformOffscreenData) : list (Deform.Event E) :=
  match v with
  | Some data =>
      match Deform.fbo data with Some f => [Deform.DeleteFramebuffer f] | None => [] end ++
      match Deform.texture data with Some t => [Deform.DeleteTexture t] | None => [] end
  | None => []
  end.
End WithEnv.
Arguments Call : clear implicits.
End DeformLife.

(** A compositor in which every window is 800 by 600 at (100, 50), on no
    screen, and every texture reports that size.  Regions are numbers, 0
    being the infinite one. *)
Definition sample_deform_env : Deform.Env :=
  {| Deform.Region := Z;
     Deform.WindowPaintData := Z;
     Deform.Real := Z;
     Deform.Matrix := Z * Z;
     Deform.infiniteRegion := 0;
     Deform.differs := fun a b => negb (a =? b);
     Deform.brightness := fun _ => 1;
     Deform.opacity := fun d => d;
     Deform.saturation := fun _ => 1;
     Deform.times := Z.mul;
     Deform.screenProjectionMatrix := fun _ => (0, 0);
     Deform.translate := fun m x y => (m.1 + x, m.2 + y);
     Deform.PAINT_WINDOW_TRANSFORMED := 2;
     Deform.PAINT_WINDOW_TRANSLUCENT := 1;
     Deform.sizeof_GLVertex2D := 16;
     Deform.deform := fun _ _ d q => (d, q);
     Deform.expandedGeometry := fun _ _ =>
       {| Deform.rect_x := 100; Deform.rect_y := 50;
          Deform.rect_width := 800; Deform.rect_height := 600 |};
     Deform.frameGeometry := fun _ _ =>
       {| Deform.rect_x := 100; Deform.rect_y := 50;
          Deform.rect_width := 800; Deform.rect_height := 600 |};
     Deform.screen := fun _ _ => None;
     Deform.scaled := fun _ s _ => s;
     Deform.window_x := fun _ _ => 100;
     Deform.window_y := fun _ _ => 50;
     Deform.texture_size := fun _ _ => {| width := 800; height := 600 |};
     Deform.mapToRenderTarget := fun _ r => r;
     Deform.supportsIndexedQuads := fun _ => false;
     Deform.stock_shader := fun _ => 1%positive;
     Deform.isOpenGLCompositing := fun _ => true |}.

(** A live effect with the window 7 redirected and not yet rendered. *)
Definition sample_effect : Deform.DeformEffectPrivate :=
  {| Deform.windows := {[ 7%positive := Some Deform.new_data ]};
     Deform.windowDamagedConnection := Some 1%positive;
     Deform.windowDeletedConnection := Some 2%positive;
     Deform.live := true |}.

(** An effect that is not live: two windows are redirected, one is drawn,
    damaged and drawn again, and then unredirected. *)
Definition sample_calls : list (DeformLife.Call sample_deform_env) :=
  [DeformLife.CallSetLive false;
   DeformLife.CallRedirect 7%positive;
   DeformLife.CallDrawWindow (E:=sample_deform_env) 7%positive 0 0 5;
   DeformLife.CallWindowDamaged 7%positive;
   DeformLife.CallRedirect 8%positive;
   DeformLife.CallDrawWindow (E:=sample_deform_env) 7%positive 0 3 5;
   DeformLife.CallSetShader 8%positive (Some 9%positive);
   DeformLife.CallUnredirect 7%positive].
(** ** The monad, step by step *)

Lemma new_events_app (w : World) (evs : list Event) (e : Z) :
  new_events w {| trace := trace w ++ evs; errno := e |} = evs.
Proof. unfold new_events. simpl. apply drop_app_length. Qed.

Lemma new_events_refl (w : World) : new_events w w = [].
Proof. unfold new_events. apply drop_all. Qed.

Lemma extends_new_events w w' evs : extends w w' evs -> new_events w w' = evs.
Proof. unfold extends, new_events. intros ->. apply drop_app_length. Qed.

Lemma extends_refl w : extends w w [].
Proof. unfold extends. by rewrite app_nil_r. Qed.

Lemma extends_trans w1 w2 w3 e1 e2 :
  extends w1 w2 e1 -> extends w2 w3 e2 -> extends w1 w3 (e1 ++ e2).
Proof. unfold extends. intros H1 H2. by rewrite H2, H1, app_assoc. Qed.

#[local] Arguments Z.eqb : simpl never.
#[local] Arguments Z.ltb : simpl never.

Ltac run :=
  repeat (unfold bind, ret, emit, set_errno, get_errno, history, defined,
            undefined, when, qCWarning, qCCritical,
            ClientBuffer_ref, ClientBuffer_unref, gbm_bo_import, gbm_bo_map,
            gbm_bo_unmap, gbm_bo_destroy, gbm_bo_set_user_data,
            GbmSurface_releaseBuffer, eglCreateImageKHR, drm_add_fb,
            drmModeAddFB2WithModifiers, drmModeAddFB2, drmModeAddFB,
            drmModeRmFB in *; simpl in *).

(** ** Fixed-size arrays *)

Lemma array_set_Some (a : list Z) (i : nat) (v : Z) :
  (i < length a)%nat -> array_set a i v = Some (<[i:=v]> a).
Proof. intros H. unfold array_set. by rewrite decide_True. Qed.

Lemma copy_planes_defined (planes : list Plane) :
  forall (i : nat) (fds offs strs : list Z),
    length fds = GBM_MAX_PLANES -> length offs = GBM_MAX_PLANES ->
    length strs = GBM_MAX_PLANES ->
    (i + length planes <= GBM_MAX_PLANES)%nat ->
    is_Some (GbmBuffer.copy_planes i planes fds offs strs).
Proof.
  induction planes as [|p rest IH]; intros i fds offs strs Hf Ho Hs Hi; simpl.
  - eauto.
  - simpl in Hi.
    rewrite !array_set_Some by lia. simpl.
    apply IH; rewrite ?length_insert; lia.
Qed.

(** ** C2: which import call the constructor makes *)

Section ImportRun.
Context (env : Env).

(** What the import constructor does, in one equation per outcome. *)
Lemma from_clientBuffer_run (gpu : DrmGpu) (cb : ClientBuffer) (w : World)
    (p : Plane) (rest : list Plane) :
  cb_planes cb = p :: rest -> (length rest < GBM_MAX_PLANES)%nat ->
  exists (type : Z) (data : ImportData),
    let res := import_answer env (trace w ++ [EvClientRef (cb_id cb)])
                 (gbmDevice gpu) type data GBM_BO_USE_SCANOUT in
    let call := EvGbmBoImport (gbmDevice gpu) type data GBM_BO_USE_SCANOUT res in
    type = (if GbmBuffer.needs_modifier_import p (p :: rest)
            then GBM_BO_IMPORT_FD_MODIFIER else GBM_BO_IMPORT_FD) /\
    import_type_of data = type /\
    GbmBuffer.from_clientBuffer env gpu cb w =
      match res with
      | Ok bo =>
          Some ({| m_surface := None; m_bo := Some bo; m_clientBuffer := Some cb;
                   m_data := 0; m_mapping := 0;
                   m_stride := gbm_bo_get_stride env bo |},
                {| trace := trace w ++ [EvClientRef (cb_id cb); call];
                   errno := errno w |})
      | Fail e =>
          Some ({| m_surface := None; m_bo := None; m_clientBuffer := Some cb;
                   m_data := 0; m_mapping := 0; m_stride := 0 |},
                {| trace := trace w ++ [EvClientRef (cb_id cb); call] ++
                     (if Z.pos e =? EINVAL then []
                      else [EvLog Warning
                              [LStr "Importing buffer for direct scanout failed:";
                               LStr (strerror env (Z.pos e))]]);
                   errno := Z.pos e |})
      end.
Proof.
  intros Hp Hlen.
  unfold GbmBuffer.from_clientBuffer. rewrite Hp.
  destruct (GbmBuffer.needs_modifier_import p (p :: rest)) eqn:Hc.
  - destruct (copy_planes_defined (p :: rest) 0 zeros4 zeros4 zeros4)
      as [arr Harr]; try reflexivity.
    { simpl. unfold GBM_MAX_PLANES in *. lia. }
    run. rewrite Hc. run. rewrite Harr. run.
    destruct (import_answer env _ _ GBM_BO_IMPORT_FD_MODIFIER _ _) as [bo|e] eqn:Ha.
    + eexists _, _. split; [reflexivity|]. split; [|rewrite Ha]; run; [done|].
      by rewrite <- app_assoc.
    + eexists _, _. split; [reflexivity|]. split; [|rewrite Ha]; run; [done|].
      destruct (Z.pos e =? EINVAL); run; by rewrite <- !app_assoc.
  - run. rewrite Hc. run.
    destruct (import_answer env _ _ GBM_BO_IMPORT_FD _ _) as [bo|e] eqn:Ha.
    + eexists _, _. split; [reflexivity|]. split; [|rewrite Ha]; run; [done|].
      by rewrite <- app_assoc.
    + eexists _, _. split; [reflexivity|]. split; [|rewrite Ha]; run; [done|].
      destruct (Z.pos e =? EINVAL); run; by rewrite <- !app_assoc.
Qed.
End ImportRun.

Section ImportClaims.
Context (env : Env).

Lemma needs_modifier_import_spec (p : Plane) (planes : list Plane) :
  0 <= plane_offset p ->
  GbmBuffer.needs_modifier_import p planes = true <->
  1 < GbmBuffer.count planes \/ plane_modifier p <> DRM_FORMAT_MOD_INVALID \/
  plane_offset p <> 0.
Proof.
  intros Hoff. unfold GbmBuffer.needs_modifier_import.
  rewrite !orb_true_iff, negb_true_iff, Z.eqb_neq, !Z.ltb_lt. lia.
Qed.

(** C2.  An import of a client buffer with 1 to 4 planes, the fields of the
    first within the ranges of their unsigned types, makes exactly one
    [gbm_bo_import] call; it is the multi-plane call with modifier exactly when
    there is more than one plane, or the first plane's modifier is not the
    invalid one, or the first plane's offset is not zero, and the single-plane
    call in every other case; the call asks for scanout usage either way, and
    when it succeeds the object holds the handle and the stride read from it. *)
Theorem C2_import_path_selection (gpu : DrmGpu) (cb : ClientBuffer) (w : World)
    (p : Plane) (rest : list Plane) :
  cb_planes cb = p :: rest -> (length rest < GBM_MAX_PLANES)%nat -> plane_wf p ->
  exists b w' type data res,
    GbmBuffer.from_clientBuffer env gpu cb w = Some (b, w') /\
    filter (fun ev => is_import ev) (new_events w w') =
      [EvGbmBoImport (gbmDevice gpu) type data GBM_BO_USE_SCANOUT res] /\
    import_type_of data = type /\
    (type = GBM_BO_IMPORT_FD_MODIFIER <->
       1 < GbmBuffer.count (cb_planes cb) \/
       plane_modifier p <> DRM_FORMAT_MOD_INVALID \/ plane_offset p <> 0) /\
    (type = GBM_BO_IMPORT_FD <->
       ~ (1 < GbmBuffer.count (cb_planes cb) \/
          plane_modifier p <> DRM_FORMAT_MOD_INVALID \/ plane_offset p <> 0)) /\
    match res with
    | Ok bo => m_bo b = Some bo /\ m_stride b = gbm_bo_get_stride env bo
    | Fail _ => m_bo b = None
    end.
Proof.
  intros Hp Hlen (Hoff & _ & _).
  destruct (from_clientBuffer_run env gpu cb w p rest Hp Hlen)
    as (type & data & Htype & Hkind & Hrun).
  simpl in Hrun. rewrite Hp.
  pose proof (needs_modifier_import_spec p (p :: rest) (proj1 Hoff)) as Hspec.
  assert (Hsel : (type = GBM_BO_IMPORT_FD_MODIFIER <->
                    GbmBuffer.needs_modifier_import p (p :: rest) = true) /\
                 (type = GBM_BO_IMPORT_FD <->
                    GbmBuffer.needs_modifier_import p (p :: rest) <> true)).
  { rewrite Htype. destruct (GbmBuffer.needs_modifier_import p (p :: rest));
      unfold GBM_BO_IMPORT_FD_MODIFIER, GBM_BO_IMPORT_FD; split; split; intros; try done. }
  destruct Hsel as [Hmod Hfd].
  destruct (import_answer env _ _ _ _ _) as [bo|e] eqn:Ha.
  - eexists _, _, type, data, (Ok bo). split; [exact Hrun|].
    rewrite new_events_app. repeat split; try tauto.
  - eexists _, _, type, data, (Fail e). split; [exact Hrun|].
    rewrite new_events_app. repeat split; try tauto.
    destruct (Z.pos e =? EINVAL); reflexivity.
Qed.

(** C3.  The import constructor, on a client buffer with 1 to 4 planes,
    makes exactly one [gbm_bo_import] call and always returns an object that
    holds the client buffer and has no mapping.  The import has failed for
    the reason [e] exactly when libgbm answered that call with [e]; then the
    object has no native handle, [errno] is [e], and a warning is logged
    exactly when [e] is not [EINVAL]: for [EINVAL] no warning is logged at
    all.  When the import succeeds the object holds the handle and no
    warning is logged. *)
Theorem C3_import_failure_warning (gpu : DrmGpu) (cb : ClientBuffer) (w : World)
    (p : Plane) (rest : list Plane) :
  cb_planes cb = p :: rest -> (length rest < GBM_MAX_PLANES)%nat ->
  exists b w' type data res,
    GbmBuffer.from_clientBuffer env gpu cb w = Some (b, w') /\
    res = import_answer env (trace w ++ [EvClientRef (cb_id cb)])
            (gbmDevice gpu) type data GBM_BO_USE_SCANOUT /\
    filter (fun ev => is_import ev) (new_events w w') =
      [EvGbmBoImport (gbmDevice gpu) type data GBM_BO_USE_SCANOUT res] /\
    (forall e, import_failed_with e (new_events w w') <-> res = Fail e) /\
    m_data b = 0 /\ m_clientBuffer b = Some cb /\
    match res with
    | Fail e =>
        m_bo b = None /\ errno w' = Z.pos e /\
        (logged Warning (new_events w w') <-> Z.pos e <> EINVAL) /\
        (Z.pos e = EINVAL -> occurrences (is_log Warning) (new_events w w') = 0%nat) /\
        (Z.pos e <> EINVAL -> occurrences (is_log Warning) (new_events w w') = 1%nat)
    | Ok bo =>
        m_bo b = Some bo /\ errno w' = errno w /\
        occurrences (is_log Warning) (new_events w w') = 0%nat
    end.
Proof.
  intros Hp Hlen.
  destruct (from_clientBuffer_run env gpu cb w p rest Hp Hlen)
    as (type & data & _ & _ & Hrun).
  simpl in Hrun.
  destruct (import_answer env _ _ _ _ _) as [bo|e] eqn:Ha.
  - eexists _, _, type, data, (Ok bo). split; [exact Hrun|].
    split; [by rewrite Ha|]. rewrite new_events_app.
    split; [reflexivity|]. split; [|done].
    intros e. split; [|discriminate].
    intros (dev & ty & dat & us & Hin).
    repeat (apply elem_of_cons in Hin as [Hin|Hin]; [discriminate Hin|]).
    by apply elem_of_nil in Hin.
  - eexists _, _, type, data, (Fail e). split; [exact Hrun|].
    split; [by rewrite Ha|]. rewrite new_events_app.
    split; [destruct (Z.pos e =? EINVAL); reflexivity|].
    split; [|split; [done|split; [done|]]].
    + intros e'. split.
      * intros (dev & ty & dat & us & Hin).
        apply elem_of_cons in Hin as [Hin|Hin]; [discriminate Hin|].
        apply elem_of_cons in Hin as [Hin|Hin]; [congruence|].
        simpl in Hin. destruct (Z.pos e =? EINVAL).
        -- by apply elem_of_nil in Hin.
        -- apply elem_of_cons in Hin as [Hin|Hin]; [discriminate Hin|].
           by apply elem_of_nil in Hin.
      * intros [= <-]. eexists _, _, _, _. rewrite !elem_of_cons. eauto.
    + simpl. split; [done|]. split; [done|]. split; [split|split].
      * intros [line Hl]. destruct (Z.pos e =? EINVAL) eqn:He.
        -- repeat (apply elem_of_cons in Hl as [Hl|Hl]; [discriminate Hl|]).
           by apply elem_of_nil in Hl.
        -- by apply Z.eqb_neq.
      * intros Hne. apply Z.eqb_neq in Hne. rewrite Hne.
        eexists. rewrite !elem_of_cons. eauto.
      * intros Heq. apply Z.eqb_eq in Heq. rewrite Heq. reflexivity.
      * intros Hne. apply Z.eqb_neq in Hne. rewrite Hne. reflexivity.
Qed.

End ImportClaims.

Lemma C2_witness :
  exists b w' type data res,
    GbmBuffer.from_clientBuffer (sample_env (Ok 4%positive) (all_fail 13) (Ok tt) (0, 0, 0) 0)
      sample_gpu (sample_client [tiled_plane]) empty_world = Some (b, w') /\
    filter (fun ev => is_import ev) (new_events empty_world w') =
      [EvGbmBoImport 1%positive type data GBM_BO_USE_SCANOUT res] /\
    import_type_of data = type /\
    (type = GBM_BO_IMPORT_FD_MODIFIER <->
       1 < 1 \/ plane_modifier tiled_plane <> DRM_FORMAT_MOD_INVALID \/ 0 <> 0) /\
    (type = GBM_BO_IMPORT_FD <->
       ~ (1 < 1 \/ plane_modifier tiled_plane <> DRM_FORMAT_MOD_INVALID \/ 0 <> 0)) /\
    match res with
    | Ok bo => m_bo b = Some bo /\ m_stride b = 7680
    | Fail _ => m_bo b = None
    end.
Proof.
  apply (C2_import_path_selection
           (sample_env (Ok 4%positive) (all_fail 13) (Ok tt) (0, 0, 0) 0)
           sample_gpu (sample_client [tiled_plane]) empty_world tiled_plane []).
  - reflexivity.
  - simpl. unfold GBM_MAX_PLANES. lia.
  - unfold plane_wf. simpl. lia.
Defined.

Lemma C3_witness :
  (exists b w' type data,
     GbmBuffer.from_clientBuffer (sample_env (Fail 13) (all_fail 13) (Ok tt) (0, 0, 0) 0)
       sample_gpu (sample_client [linear_plane]) empty_world = Some (b, w') /\
     filter (fun ev => is_import ev) (new_events empty_world w') =
       [EvGbmBoImport 1%positive type data GBM_BO_USE_SCANOUT (Fail 13)] /\
     import_failed_with 13 (new_events empty_world w') /\
     m_data b = 0 /\ m_clientBuffer b = Some (sample_client [linear_plane]) /\
     m_bo b = None /\ errno w' = 13 /\
     logged Warning (new_events empty_world w') /\
     occurrences (is_log Warning) (new_events empty_world w') = 1%nat) /\
  (exists b w' type data,
     GbmBuffer.from_clientBuffer (sample_env (Fail 22) (all_fail 13) (Ok tt) (0, 0, 0) 0)
       sample_gpu (sample_client [linear_plane]) empty_world = Some (b, w') /\
     filter (fun ev => is_import ev) (new_events empty_world w') =
       [EvGbmBoImport 1%positive type data GBM_BO_USE_SCANOUT (Fail 22)] /\
     import_failed_with 22 (new_events empty_world w') /\
     m_data b = 0 /\ m_clientBuffer b = Some (sample_client [linear_plane]) /\
     m_bo b = None /\ errno w' = EINVAL /\
     ~ logged Warning (new_events empty_world w') /\
     occurrences (is_log Warning) (new_events empty_world w') = 0%nat).
Proof.
  split.
  - destruct (C3_import_failure_warning
                (sample_env (Fail 13) (all_fail 13) (Ok tt) (0, 0, 0) 0)
                sample_gpu (sample_client [linear_plane]) empty_world linear_plane [])
      as (b & w' & type & data & res & Hrun & Hres & Hcall & Hfail & Hd & Hcb & Hm).
    + reflexivity.
    + simpl. unfold GBM_MAX_PLANES. lia.
    + simpl in Hres. subst res. destruct Hm as (Hbo & He & Hlog & _ & Hone).
      exists b, w', type, data. split; [exact Hrun|]. split; [exact Hcall|].
      split; [by apply Hfail|]. do 4 (split; [done|]).
      split; [apply Hlog|apply Hone]; unfold EINVAL; lia.
  - destruct (C3_import_failure_warning
                (sample_env (Fail 22) (all_fail 13) (Ok tt) (0, 0, 0) 0)
                sample_gpu (sample_client [linear_plane]) empty_world linear_plane [])
      as (b & w' & type & data & res & Hrun & Hres & Hcall & Hfail & Hd & Hcb & Hm).
    + reflexivity.
    + simpl. unfold GBM_MAX_PLANES. lia.
    + simpl in Hres. subst res. destruct Hm as (Hbo & He & Hlog & Hnone & _).
      exists b, w', type, data. split; [exact Hrun|]. split; [exact Hcall|].
      split; [by apply Hfail|]. do 4 (split; [done|]).
      split; [|by apply Hnone].
      intros Hl. apply Hlog in Hl. by apply Hl.
Defined.

(** ** Registration: what [initialize] does *)

Section Initialize.
Context (env : Env).

Lemma fill_planes_defined (bo : gbm_bo) (modifier : Z) (n : nat) :
  forall (i : nat) (a : FbPlanes),
    length (handles a) = GBM_MAX_PLANES -> length (strides a) = GBM_MAX_PLANES ->
    length (offsets a) = GBM_MAX_PLANES -> length (modifiers a) = GBM_MAX_PLANES ->
    (i + n <= GBM_MAX_PLANES)%nat ->
    is_Some (DrmGbmBuffer.fill_planes env bo modifier n i a).
Proof.
  induction n as [|n IH]; intros i a Hh Hs Ho Hm Hi; simpl.
  - eauto.
  - rewrite !array_set_Some by lia. simpl.
    apply IH; simpl; rewrite ?length_insert; lia.
Qed.

Lemma plane_arrays_defined (bo : gbm_bo) (modifier : Z) :
  planes_fit env bo -> is_Some (DrmGbmBuffer.plane_arrays env bo modifier).
Proof.
  intros Hfit. unfold DrmGbmBuffer.plane_arrays.
  destruct (negb _).
  - apply fill_planes_defined; try reflexivity.
    unfold planes_fit in Hfit. lia.
  - simpl. eauto.
Qed.

(** One run of [initialize] on a buffer that has a native handle: the
    registration goes one of its five ways, the handle is tagged, and the
    buffer-object half of the object is as before. *)
Lemma initialize_run (this : addr) (b : DrmGbmBuffer) (w : World) (bo : gbm_bo) :
  m_bo (gbm b) = Some bo -> planes_fit env bo ->
  exists a evs id eo,
    DrmGbmBuffer.plane_arrays env bo (m_modifier (drm b)) = Some a /\
    registration env b bo a (trace w) evs id eo /\
    DrmGbmBuffer.initialize env this b w =
      Some ({| drm := {| m_gpu := m_gpu (drm b); m_format := m_format (drm b);
                         m_modifier := m_modifier (drm b); m_bufferId := id;
                         m_size := {| width := to_s32 (gbm_bo_get_width env bo);
                                      height := to_s32 (gbm_bo_get_height env bo) |} |};
               gbm := gbm b |},
            {| trace := trace w ++ evs ++ [EvGbmBoSetUserData bo this];
               errno := from_option Z.pos (errno w) eo |}).
Proof.
  intros Hbo Hfit.
  destruct (plane_arrays_defined bo (m_modifier (drm b)) Hfit) as [a Ha].
  exists a. unfold DrmGbmBuffer.initialize. rewrite Hbo. run. rewrite Ha. run.
  fold (modifier_aware b a).
  destruct (modifier_aware b a) eqn:Hc.
  - destruct (addfb_answer env (trace w) (request_modifiers env b bo a)) as [fb|e] eqn:H1.
    + eexists _, _, None. split; [reflexivity|]. split; [by apply reg_modifiers_ok|].
      unfold request_modifiers, fb_width, fb_height in H1. rewrite H1. run.
      by rewrite <- !app_assoc.
    + eexists _, _, (Some e). split; [reflexivity|].
      split; [by apply reg_modifiers_fail|].
      unfold request_modifiers, fb_width, fb_height in H1. rewrite H1. run.
      unfold diagnostic, DrmGbmBuffer.failure_line.
      destruct (m_surface (gbm b)); run; by rewrite <- !app_assoc.
  - destruct (addfb_answer env (trace w) (request_multi_plane env b bo a)) as [fb|e] eqn:H1.
    + eexists _, _, None. split; [reflexivity|]. split; [by apply reg_multi_plane_ok|].
      unfold request_multi_plane, fb_width, fb_height in H1. rewrite H1. run.
      by rewrite <- !app_assoc.
    + destruct (addfb_answer env (trace w ++ [EvAddFB (request_multi_plane env b bo a) (Fail e)])
                  (request_legacy env b bo a)) as [fb|e'] eqn:H2.
      * eexists _, _, (Some e). split; [reflexivity|].
        split; [by apply reg_legacy_ok|].
        unfold request_multi_plane, request_legacy, fb_width, fb_height in H1, H2.
        rewrite H1. run. rewrite H2. run. by rewrite <- !app_assoc.
      * eexists _, _, (Some e'). split; [reflexivity|].
        split; [by apply reg_legacy_fail|].
        unfold request_multi_plane, request_legacy, fb_width, fb_height in H1, H2.
        rewrite H1. run. rewrite H2. run.
        unfold diagnostic, DrmGbmBuffer.failure_line.
        destruct (m_surface (gbm b)); run; by rewrite <- !app_assoc.
Qed.
End Initialize.

Section RegistrationFacts.
Context (env : Env).

Lemma attempts_app (l1 l2 : list Event) :
  attempts (l1 ++ l2) = attempts l1 ++ attempts l2.
Proof. apply omap_app. Qed.

Lemma registered_id_tag (evs : list Event) (bo : gbm_bo) (this : addr) :
  registered_id (evs ++ [EvGbmBoSetUserData bo this]) = registered_id evs.
Proof. unfold registered_id. rewrite omap_app. simpl. by rewrite app_nil_r. Qed.

Lemma attempts_tag (evs : list Event) (bo : gbm_bo) (this : addr) :
  attempts (evs ++ [EvGbmBoSetUserData bo this]) = attempts evs.
Proof. rewrite attempts_app. simpl. by rewrite app_nil_r. Qed.

Lemma attempts_diagnostic (b : DrmGbmBuffer) (a : FbPlanes) (s1 s2 : string) (e : positive) :
  attempts (diagnostic env b a s1 s2 e) = [] /\
  omap issued_id (diagnostic env b a s1 s2 e) = [].
Proof. unfold diagnostic. by destruct (m_surface (gbm b)). Qed.

Lemma elem_of_diagnostic (b : DrmGbmBuffer) (a : FbPlanes) (s1 s2 : string)
    (e : positive) (ev : Event) :
  ev ∈ diagnostic env b a s1 s2 e -> exists line, ev = EvLog Critical line.
Proof.
  unfold diagnostic. destruct (m_surface (gbm b)).
  - intros ->%list_elem_of_singleton. eauto.
  - by intros ?%elem_of_nil.
Qed.

Lemma failed_attempts_no_id (l : list Event) :
  forallb (fun att : Tier * bool => negb att.2) (attempts l) = true ->
  omap issued_id l = [].
Proof.
  unfold attempts. induction l as [|ev l IH]; [done|].
  destruct ev as [| | | | | | | | |rq res| |]; simpl; try exact IH.
  destruct res as [fb|e]; simpl; [discriminate|exact IH].
Qed.

Lemma exhausted_no_id (l : list Event) :
  exhausted (attempts l) = true -> omap issued_id l = [].
Proof.
  unfold exhausted. destruct (attempts l) eqn:Hl; [discriminate|].
  rewrite <- Hl. apply failed_attempts_no_id.
Qed.

(** The attempts of the five ways, the identifier they leave behind, and the
    shape of the legacy request. *)
Lemma registration_attempts (b : DrmGbmBuffer) (bo : gbm_bo) (a : FbPlanes)
    (h evs : list Event) (id : Z) (eo : option positive) :
  registration env b bo a h evs id eo ->
  fallback_chain (two_branches (modifier_aware b a)) (attempts evs) = true /\
  id = default (m_bufferId (drm b)) (registered_id evs) /\
  (forall rq res, EvAddFB rq res ∈ evs -> tier_of rq = TierLegacy ->
     rq = request_legacy env b bo a) /\
  (modifier_aware b a = true ->
   exists res, attempts evs = [(TierModifiers, succeeded res)] /\
               addfb_answer env h (request_modifiers env b bo a) = res).
Proof.
  intros Hreg.
  destruct Hreg as [fb Hc H1|e Hc H1|fb Hc H1|e fb Hc H1 H2|e e' Hc H1 H2];
    rewrite Hc; unfold registered_id, diagnostic;
    destruct (m_surface (gbm b)) as [s|];
    simpl; (split; [reflexivity|]); (split; [reflexivity|]); split;
    try discriminate;
    try (intros _; eexists; split; [|exact H1]; reflexivity).
  all: intros rq res Hin Ht.
  all: repeat (apply elem_of_cons in Hin as [Hin|Hin];
               [first [discriminate Hin
                      |injection Hin as -> ->; first [discriminate Ht|reflexivity]]|]).
  all: by apply elem_of_nil in Hin.
Qed.

(** C1, as the code has it.  On a freshly built object with a native handle
    the registration is a chain over two branches, not three tiers: when
    plane 0's modifier is valid and the device registers with modifiers, the
    modifier-aware call is the only one attempted, whatever its outcome;
    otherwise the plain multi-plane call is attempted and, only when it
    fails, the single-plane call, with depth 24 and 32 bits per pixel.  A
    success ends the chain and its identifier is stored; the identifier
    stays 0 when every attempted call fails; the object is returned in
    either case and its buffer-object half is untouched. *)
Theorem C1_registration_two_branches (this : addr) (b : DrmGbmBuffer)
    (w : World) (bo : gbm_bo) :
  m_bo (gbm b) = Some bo -> planes_fit env bo -> m_bufferId (drm b) = 0 ->
  exists a b' w',
    DrmGbmBuffer.plane_arrays env bo (m_modifier (drm b)) = Some a /\
    DrmGbmBuffer.initialize env this b w = Some (b', w') /\
    fallback_chain (two_branches (modifier_aware b a))
      (attempts (new_events w w')) = true /\
    (modifier_aware b a = true ->
     exists res, attempts (new_events w w') = [(TierModifiers, succeeded res)] /\
                 addfb_answer env (trace w) (request_modifiers env b bo a) = res) /\
    (forall rq res, EvAddFB rq res ∈ new_events w w' -> tier_of rq = TierLegacy ->
       exists f wd ht st hd, rq = AddFB f wd ht 24 32 st hd) /\
    m_bufferId (drm b') = default 0 (registered_id (new_events w w')) /\
    (exhausted (attempts (new_events w w')) = true -> m_bufferId (drm b') = 0) /\
    gbm b' = gbm b.
Proof.
  intros Hbo Hfit Hid.
  destruct (initialize_run env this b w bo Hbo Hfit)
    as (a & evs & id & eo & Ha & Hreg & Hrun).
  destruct (registration_attempts b bo a (trace w) evs id eo Hreg)
    as (Hchain & Hident & Hlegacy & Hmod).
  eexists a, _, _. split; [exact Ha|]. split; [exact Hrun|].
  rewrite new_events_app, attempts_tag, registered_id_tag. simpl.
  rewrite Hid in Hident.
  split; [exact Hchain|]. split; [exact Hmod|]. split; [|split; [exact Hident|split]].
  - intros rq res Hin Ht. apply elem_of_app in Hin as [Hin|Hin].
    + rewrite (Hlegacy rq res Hin Ht). unfold request_legacy. by eexists _, _, _, _, _.
    + apply list_elem_of_singleton in Hin. discriminate Hin.
  - intros Hex. rewrite Hident.
    unfold registered_id. by rewrite (exhausted_no_id evs Hex).
  - reflexivity.
Qed.

(** C8, as the code has it.  When every registration call that [initialize]
    attempted has failed, the object is still returned with its buffer-object
    half untouched and no framebuffer identifier gained; a critical line
    naming the device, the format and the modifier of plane 0 is logged when
    the buffer has a surface, and nothing is logged when it has none. *)
Theorem C8_hard_failure_diagnostic (this : addr) (b : DrmGbmBuffer)
    (w : World) (bo : gbm_bo) :
  m_bo (gbm b) = Some bo -> planes_fit env bo ->
  exists a b' w',
    DrmGbmBuffer.plane_arrays env bo (m_modifier (drm b)) = Some a /\
    DrmGbmBuffer.initialize env this b w = Some (b', w') /\
    gbm b' = gbm b /\
    (exhausted (attempts (new_events w w')) = true ->
     m_bufferId (drm b') = m_bufferId (drm b) /\
     match m_surface (gbm b) with
     | Some _ =>
         exists line, EvLog Critical line ∈ new_events w w' /\ names_buffer env b a line
     | None => ~ logged Critical (new_events w w')
     end).
Proof.
  intros Hbo Hfit.
  destruct (initialize_run env this b w bo Hbo Hfit)
    as (a & evs & id & eo & Ha & Hreg & Hrun).
  eexists a, _, _. split; [exact Ha|]. split; [exact Hrun|]. split; [reflexivity|].
  rewrite new_events_app, attempts_tag. simpl.
  destruct Hreg as [fb Hc H1|e Hc H1|fb Hc H1|e fb Hc H1 H2|e e' Hc H1 H2];
    unfold diagnostic, logged, names_buffer;
    destruct (m_surface (gbm b)) as [s|]; simpl; try discriminate;
    intros _; (split; [reflexivity|]).
  all: try (match goal with
            | |- context [EvLog Critical ?l :: _] => exists l
            end; repeat split; rewrite !elem_of_cons; by eauto 10).
  all: intros [line Hin];
    repeat (apply elem_of_cons in Hin as [Hin|Hin]; [discriminate Hin|]);
    by apply elem_of_nil in Hin.
Qed.

(** C10.  [initialize] on an object with a native handle always ends by
    tagging that handle with the address of the object, once, whatever the
    registration calls answered; on an object without a native handle it
    does nothing at all: no tag, no registration call, no change. *)
Theorem C10_tagging_unconditional (this : addr) (b : DrmGbmBuffer) (w : World) :
  (forall bo, m_bo (gbm b) = Some bo -> planes_fit env bo) ->
  exists b' w',
    DrmGbmBuffer.initialize env this b w = Some (b', w') /\
    match m_bo (gbm b) with
    | Some bo =>
        last (new_events w w') = Some (EvGbmBoSetUserData bo this) /\
        occurrences is_tagging (new_events w w') = 1%nat /\
        (exhausted (attempts (new_events w w')) = true ->
         m_bufferId (drm b') = m_bufferId (drm b) /\
         EvGbmBoSetUserData bo this ∈ new_events w w')
    | None =>
        b' = b /\ w' = w /\
        occurrences is_tagging (new_events w w') = 0%nat /\
        attempts (new_events w w') = []
    end.
Proof.
  intros Hfit. destruct (m_bo (gbm b)) as [bo|] eqn:Hbo.
  - destruct (initialize_run env this b w bo Hbo (Hfit bo eq_refl))
      as (a & evs & id & eo & Ha & Hreg & Hrun).
    eexists _, _. split; [exact Hrun|].
    rewrite new_events_app, attempts_tag. simpl.
    split; [apply last_snoc|]. split.
    + unfold occurrences. rewrite filter_app, length_app. simpl.
      assert (Hno : filter (fun ev => is_tagging ev) evs = []).
      { destruct Hreg; unfold diagnostic; by destruct (m_surface (gbm b)). }
      by rewrite Hno.
    + intros Hex. split; [|apply elem_of_app; right; by apply list_elem_of_singleton].
      destruct Hreg; unfold diagnostic in Hex;
        destruct (m_surface (gbm b)); simpl in Hex; try discriminate; reflexivity.
  - eexists b, w. unfold DrmGbmBuffer.initialize. rewrite Hbo.
    split; [reflexivity|]. by rewrite new_events_refl.
Qed.

(** The two constructors end with [initialize], so what holds of it holds of
    every scanout buffer that is built. *)
Lemma from_surface_tags_handle (this : addr) (gpu : DrmGpu)
    (surface : option GbmSurfacePtr) (bo : gbm_bo) (w : World) :
  planes_fit env bo ->
  exists b' w',
    DrmGbmBuffer.from_surface env this gpu surface bo w = Some (b', w') /\
    m_bo (gbm b') = Some bo /\
    last (new_events w w') = Some (EvGbmBoSetUserData bo this).
Proof.
  intros Hfit. unfold DrmGbmBuffer.from_surface.
  edestruct (initialize_run env this) as (a & evs & id & eo & Ha & Hreg & Hrun);
    [|exact Hfit|].
  2: { eexists _, _. split; [exact Hrun|]. split; [reflexivity|].
       rewrite new_events_app. apply last_snoc. }
  reflexivity.
Qed.

Lemma from_clientBuffer_tags_handle (this : addr) (gpu : DrmGpu)
    (cb : ClientBuffer) (w : World) (p : Plane) (rest : list Plane) :
  cb_planes cb = p :: rest -> (length rest < GBM_MAX_PLANES)%nat ->
  (forall bo, planes_fit env bo) ->
  exists b' w',
    DrmGbmBuffer.from_clientBuffer env this gpu cb w = Some (b', w') /\
    m_bufferId (drm b') = default 0 (registered_id (new_events w w')) /\
    match m_bo (gbm b') with
    | Some bo => last (new_events w w') = Some (EvGbmBoSetUserData bo this)
    | None =>
        occurrences is_tagging (new_events w w') = 0%nat /\
        attempts (new_events w w') = []
    end.
Proof.
  intros Hp Hlen Hfit.
  destruct (from_clientBuffer_run env gpu cb w p rest Hp Hlen)
    as (type & data & _ & _ & Hrun).
  simpl in Hrun.
  unfold DrmGbmBuffer.from_clientBuffer. rewrite Hp. simpl.
  unfold bind at 1. simpl. unfold bind at 1. rewrite Hrun.
  destruct (import_answer env _ _ _ _ _) as [bo|e].
  - match goal with
    | |- context [DrmGbmBuffer.initialize env this ?b ?w1] =>
        destruct (initialize_run env this b w1 bo eq_refl (Hfit bo))
          as (a & evs & id & eo & Ha & Hreg & Hi)
    end.
    destruct (registration_attempts _ bo a _ evs id eo Hreg) as (_ & Hid & _).
    eexists _, _. split; [exact Hi|]. simpl.
    unfold new_events. simpl. rewrite <- app_assoc, drop_app_length.
    split.
    + change (EvClientRef (cb_id cb) :: ?x :: evs ++ ?t)
        with ([EvClientRef (cb_id cb); x] ++ evs ++ t).
      rewrite app_assoc, registered_id_tag.
      unfold registered_id. rewrite omap_app. simpl. exact Hid.
    + rewrite app_assoc. apply last_snoc.
  - eexists _, _. split; [reflexivity|]. simpl.
    rewrite new_events_app.
    destruct (Z.pos e =? EINVAL); done.
Qed.
End RegistrationFacts.

Lemma C1_witness :
  exists a b' w',
    DrmGbmBuffer.plane_arrays rejecting_env 4%positive (m_modifier (drm pool_buffer)) = Some a /\
    DrmGbmBuffer.initialize rejecting_env 100%positive pool_buffer empty_world = Some (b', w') /\
    fallback_chain (two_branches (modifier_aware pool_buffer a))
      (attempts (new_events empty_world w')) = true /\
    (modifier_aware pool_buffer a = true ->
     exists res, attempts (new_events empty_world w') = [(TierModifiers, succeeded res)] /\
                 addfb_answer rejecting_env (trace empty_world)
                   (request_modifiers rejecting_env pool_buffer 4%positive a) = res) /\
    (forall rq res, EvAddFB rq res ∈ new_events empty_world w' -> tier_of rq = TierLegacy ->
       exists f wd ht st hd, rq = AddFB f wd ht 24 32 st hd) /\
    m_bufferId (drm b') = default 0 (registered_id (new_events empty_world w')) /\
    (exhausted (attempts (new_events empty_world w')) = true -> m_bufferId (drm b') = 0) /\
    gbm b' = gbm pool_buffer.
Proof.
  apply (C1_registration_two_branches rejecting_env 100%positive pool_buffer
           empty_world 4%positive).
  - reflexivity.
  - unfold planes_fit, GBM_MAX_PLANES. simpl. lia.
  - reflexivity.
Defined.

(** C1, as it is worded, fails: on a tiled pool buffer whose modifier-aware
    registration the kernel rejects, no second call is made. *)
Lemma C1_counterexample :
  ~ three_tier_fallback rejecting_env 100%positive pool_buffer empty_world.
Proof.
  intros (bo & a & b' & w' & Hbo & Ha & Hrun & Hchain).
  injection Hbo as <-.
  vm_compute in Ha. injection Ha as <-.
  vm_compute in Hrun. injection Hrun as <- <-.
  vm_compute in Hchain. discriminate Hchain.
Qed.

Lemma C8_witness :
  exists a b' w',
    DrmGbmBuffer.plane_arrays rejecting_env 4%positive (m_modifier (drm pool_buffer)) = Some a /\
    DrmGbmBuffer.initialize rejecting_env 100%positive pool_buffer empty_world = Some (b', w') /\
    gbm b' = gbm pool_buffer /\
    (exhausted (attempts (new_events empty_world w')) = true ->
     m_bufferId (drm b') = m_bufferId (drm pool_buffer) /\
     match m_surface (gbm pool_buffer) with
     | Some _ =>
         exists line, EvLog Critical line ∈ new_events empty_world w' /\
                      names_buffer rejecting_env pool_buffer a line
     | None => ~ logged Critical (new_events empty_world w')
     end).
Proof.
  apply (C8_hard_failure_diagnostic rejecting_env 100%positive pool_buffer
           empty_world 4%positive).
  - reflexivity.
  - unfold planes_fit, GBM_MAX_PLANES. simpl. lia.
Defined.

(** C8, as it is worded, fails: an imported client buffer has no surface, and
    when the kernel rejects both registration calls nothing is logged. *)
Lemma C8_counterexample :
  ~ hard_failure_reported
      (DrmGbmBuffer.from_clientBuffer rejecting_env 100%positive sample_gpu
         (sample_client [linear_plane]))
      rejecting_env empty_world.
Proof.
  intros H.
  destruct (H _ _ eq_refl eq_refl) as (line & Hin & _).
  vm_compute in Hin.
  repeat (apply elem_of_cons in Hin as [Hin|Hin]; [discriminate Hin|]).
  by apply elem_of_nil in Hin.
Qed.

Lemma C10_witness :
  exists b' w',
    DrmGbmBuffer.initialize rejecting_env 100%positive pool_buffer empty_world = Some (b', w') /\
    match m_bo (gbm pool_buffer) with
    | Some bo =>
        last (new_events empty_world w') = Some (EvGbmBoSetUserData bo 100%positive) /\
        occurrences is_tagging (new_events empty_world w') = 1%nat /\
        (exhausted (attempts (new_events empty_world w')) = true ->
         m_bufferId (drm b') = m_bufferId (drm pool_buffer) /\
         EvGbmBoSetUserData bo 100%positive ∈ new_events empty_world w')
    | None =>
        b' = pool_buffer /\ w' = empty_world /\
        occurrences is_tagging (new_events empty_world w') = 0%nat /\
        attempts (new_events empty_world w') = []
    end.
Proof.
  apply (C10_tagging_unconditional rejecting_env 100%positive pool_buffer empty_world).
  intros bo _. unfold planes_fit, GBM_MAX_PLANES. simpl. lia.
Defined.

(** ** C5: mode changes *)

(** C5.  [needsModeChange] is true whenever the other buffer is not a
    [DrmGbmBuffer]; when it is one, the result is true exactly when one of
    the two has a native buffer and the other has none, and false exactly
    when both have one or both have none.  Nothing else of the two objects
    is looked at. *)
Theorem C5_needsModeChange (a : DrmGbmBuffer) :
  (forall d, DrmGbmBuffer.needsModeChange a (Some (IsDrmDumbBuffer d)) = true) /\
  (forall sb,
     DrmGbmBuffer.needsModeChange a (Some (IsDrmGbmBuffer sb)) = true <->
     (is_Some (m_bo (gbm a)) /\ m_bo (gbm sb) = None) \/
     (m_bo (gbm a) = None /\ is_Some (m_bo (gbm sb)))) /\
  (forall sb,
     DrmGbmBuffer.needsModeChange a (Some (IsDrmGbmBuffer sb)) = false <->
     (is_Some (m_bo (gbm a)) /\ is_Some (m_bo (gbm sb))) \/
     (m_bo (gbm a) = None /\ m_bo (gbm sb) = None)) /\
  (forall a' sb sb',
     DrmGbmBuffer.hasBo a = DrmGbmBuffer.hasBo a' ->
     DrmGbmBuffer.hasBo sb = DrmGbmBuffer.hasBo sb' ->
     DrmGbmBuffer.needsModeChange a (Some (IsDrmGbmBuffer sb)) =
     DrmGbmBuffer.needsModeChange a' (Some (IsDrmGbmBuffer sb'))).
Proof.
  split; [reflexivity|]. split; [|split].
  - intros sb. unfold DrmGbmBuffer.needsModeChange, DrmGbmBuffer.hasBo. simpl.
    destruct (m_bo (gbm a)), (m_bo (gbm sb)); simpl; split;
      try discriminate; eauto; intros [[[x Hx] Hy]|[Hx [y Hy]]]; discriminate.
  - intros sb. unfold DrmGbmBuffer.needsModeChange, DrmGbmBuffer.hasBo. simpl.
    destruct (m_bo (gbm a)), (m_bo (gbm sb)); simpl; split;
      try discriminate; eauto; intros [[[x Hx] [y Hy]]|[Hx Hy]]; discriminate.
  - intros a' sb sb' Ha Hs. unfold DrmGbmBuffer.needsModeChange. simpl.
    by rewrite Ha, Hs.
Qed.

(** ** Release and destruction *)

Section Release.
Context (env : Env).

Lemma releaseBuffer_run (this : addr) (b : GbmBuffer) (w : World) :
  GbmBuffer.releaseBuffer this b w =
    Some (released b, {| trace := trace w ++ release_events this b; errno := errno w |}).
Proof.
  unfold GbmBuffer.releaseBuffer, release_events, released.
  destruct w as [tr er]. destruct b as [sf bo cb dt mp st]. run.
  destruct cb as [cb|], bo as [bo|]; run; rewrite ?app_nil_r; try reflexivity.
  all: destruct (mp =? 0), sf as [s|]; run; by rewrite <- ?app_assoc.
Qed.

Lemma released_idempotent (b : GbmBuffer) : released (released b) = released b.
Proof. reflexivity. Qed.

Lemma release_events_released (this : addr) (b : GbmBuffer) :
  release_events this (released b) = [].
Proof. reflexivity. Qed.

Lemma destructor_run (this : addr) (b : DrmGbmBuffer) (w : World) :
  exists e,
    DrmGbmBuffer.destructor env this b w =
      Some (tt, {| trace := trace w ++ deregistration_events env (trace w) (drm b)
                            ++ release_events this (gbm b);
                   errno := e |}).
Proof.
  unfold DrmGbmBuffer.destructor, GbmBuffer.destructor, deregistration_events.
  destruct (m_bufferId (drm b) =? 0) eqn:Hid; run.
  - rewrite releaseBuffer_run. run. by eexists.
  - destruct (rmfb_answer env (trace w) _ _) as [[]|e]; run;
      rewrite releaseBuffer_run; run; eexists; by rewrite <- !app_assoc.
Qed.
End Release.

Lemma occurrences_app (f : Event -> bool) (l1 l2 : list Event) :
  occurrences f (l1 ++ l2) = (occurrences f l1 + occurrences f l2)%nat.
Proof. unfold occurrences. by rewrite filter_app, length_app. Qed.

Lemma occurrences_cons (f : Event -> bool) (ev : Event) (l : list Event) :
  occurrences f (ev :: l) = ((if f ev then 1 else 0) + occurrences f l)%nat.
Proof.
  unfold occurrences. rewrite filter_cons.
  destruct (f ev); reflexivity.
Qed.

Lemma occurrences_nil (f : Event -> bool) : occurrences f [] = 0%nat.
Proof. reflexivity. Qed.

Ltac count_events :=
  rewrite ?occurrences_app, ?occurrences_cons, ?occurrences_nil; simpl.

Section Destruction.
Context (env : Env).

Lemma release_events_no_deregistration (this : addr) (b : GbmBuffer) :
  occurrences is_deregistration (release_events this b) = 0%nat.
Proof.
  unfold release_events.
  destruct (m_clientBuffer b), (m_bo b), (m_surface b); simpl;
    try destruct (m_mapping b =? 0); reflexivity.
Qed.

Lemma release_events_native (this : addr) (b : GbmBuffer) (bo : gbm_bo) :
  m_bo b = Some bo ->
  occurrences is_native_release (release_events this b) = 1%nat /\
  match m_surface b with
  | Some s => EvSurfaceReleaseBuffer s this ∈ release_events this b
  | None => EvGbmBoDestroy bo ∈ release_events this b
  end.
Proof.
  intros Hbo. unfold release_events. rewrite Hbo.
  destruct (m_clientBuffer b), (m_surface b), (m_mapping b =? 0); simpl;
    (split; [reflexivity|]); rewrite !elem_of_cons; eauto.
Qed.

(** C6.  The destructor of a scanout buffer always returns.  It calls
    [drmModeRmFB] once when the framebuffer identifier is not 0 and never
    when it is 0.  When that call fails a critical line is logged, and in
    every case what follows is exactly what [releaseBuffer] does on the
    object: the native handle, when there is one, is given up once. *)
Theorem C6_deregistration_once (this : addr) (b : DrmGbmBuffer) (w : World) :
  exists w',
    DrmGbmBuffer.destructor env this b w = Some (tt, w') /\
    occurrences is_deregistration (new_events w w') =
      (if m_bufferId (drm b) =? 0 then 0%nat else 1%nat) /\
    (forall f id e, EvRmFB f id (Fail e) ∈ new_events w w' ->
       f = fd (m_gpu (drm b)) /\ id = m_bufferId (drm b) /\
       EvLog Critical
         [LStr "drmModeRmFB on GPU"; LStr (devNode (m_gpu (drm b)));
          LStr "failed!"; LStr (strerror env (Z.pos e))] ∈ new_events w w') /\
    new_events w w' =
      deregistration_events env (trace w) (drm b) ++ release_events this (gbm b) /\
    (forall bo, m_bo (gbm b) = Some bo ->
       occurrences is_native_release (new_events w w') = 1%nat /\
       match m_surface (gbm b) with
       | Some s => EvSurfaceReleaseBuffer s this ∈ new_events w w'
       | None => EvGbmBoDestroy bo ∈ new_events w w'
       end).
Proof.
  destruct (destructor_run env this b w) as [e Hrun].
  eexists. split; [exact Hrun|]. rewrite new_events_app.
  split; [|split; [|split; [reflexivity|]]].
  - rewrite occurrences_app, release_events_no_deregistration.
    unfold deregistration_events.
    destruct (m_bufferId (drm b) =? 0); [reflexivity|].
    destruct (rmfb_answer env _ _ _); reflexivity.
  - intros f id e' Hin. apply elem_of_app in Hin as [Hin|Hin].
    + unfold deregistration_events in *.
      destruct (m_bufferId (drm b) =? 0); [by apply elem_of_nil in Hin|].
      destruct (rmfb_answer env _ _ _) as [[]|e0].
      * apply elem_of_cons in Hin as [Hin|Hin]; [discriminate Hin|].
        by apply elem_of_nil in Hin.
      * apply elem_of_cons in Hin as [Hin|Hin].
        -- injection Hin as -> -> ->. repeat split.
           rewrite elem_of_app, !elem_of_cons. eauto.
        -- apply elem_of_cons in Hin as [Hin|Hin]; [discriminate Hin|].
           by apply elem_of_nil in Hin.
    + exfalso. unfold release_events in Hin.
      destruct (m_clientBuffer (gbm b)), (m_bo (gbm b)), (m_surface (gbm b));
        simpl in Hin; try destruct (m_mapping (gbm b) =? 0); simpl in Hin;
        repeat (apply elem_of_cons in Hin as [Hin|Hin]; [discriminate Hin|]);
        by apply elem_of_nil in Hin.
  - intros bo Hbo.
    destruct (release_events_native this (gbm b) bo Hbo) as [Hcount Hin].
    split.
    + rewrite occurrences_app, Hcount.
      unfold deregistration_events.
      destruct (m_bufferId (drm b) =? 0); [reflexivity|].
      destruct (rmfb_answer env _ _ _); reflexivity.
    + destruct (m_surface (gbm b)); apply elem_of_app; by right.
Qed.

(** *** References to the client buffer *)

Lemma run_op_spec (this : addr) (id : positive) (op : BufferOp)
    (b : GbmBuffer) (w : World) :
  exists b' w' evs,
    run_op env this op b w = Some (b', w') /\ extends w w' evs /\
    occurrences (is_ref_of id) evs = 0%nat /\
    (occurrences (is_unref_of id) evs + owed id b')%nat = owed id b.
Proof.
  destruct op as [flags| |display]; simpl.
  - unfold GbmBuffer.map. run.
    destruct (negb (m_data b =? 0)); run.
    { eexists _, _, []. split; [reflexivity|]. split; [apply extends_refl|]. done. }
    destruct (m_bo b) as [bo|]; run.
    + eexists _, _, [_]. split; [reflexivity|]. split; [reflexivity|]. done.
    + eexists _, _, []. split; [reflexivity|]. split; [apply extends_refl|]. done.
  - rewrite releaseBuffer_run. eexists _, _, _.
    split; [reflexivity|]. split; [reflexivity|]. unfold release_events, owed. simpl.
    destruct (m_clientBuffer b) as [cb|], (m_bo b), (m_surface b); simpl;
      try destruct (m_mapping b =? 0); count_events;
      try destruct (bool_decide (cb_id cb = id)); done.
  - unfold GbmBuffer.createTexture. run.
    destruct (m_bo b) as [bo|]; run.
    + destruct (egl_image_answer env _ _ _ _ =? EGL_NO_IMAGE_KHR); run.
      * eexists _, _, [_; _]. split; [reflexivity|].
        split; [unfold extends; simpl; by rewrite <- app_assoc|]. done.
      * eexists _, _, [_]. split; [reflexivity|]. split; [reflexivity|]. done.
    + eexists _, _, []. split; [reflexivity|]. split; [apply extends_refl|]. done.
Qed.

Lemma run_ops_spec (this : addr) (id : positive) (ops : list BufferOp) :
  forall (b : GbmBuffer) (w : World),
  exists b' w' evs,
    run_ops env this ops b w = Some (b', w') /\ extends w w' evs /\
    occurrences (is_ref_of id) evs = 0%nat /\
    (occurrences (is_unref_of id) evs + owed id b')%nat = owed id b.
Proof.
  induction ops as [|op ops IH]; intros b w; simpl.
  - exists b, w, []. split; [reflexivity|]. split; [apply extends_refl|]. done.
  - destruct (run_op_spec this id op b w) as (b1 & w1 & e1 & Hop & Hx1 & Hr1 & Hu1).
    destruct (IH b1 w1) as (b2 & w2 & e2 & Hops & Hx2 & Hr2 & Hu2).
    exists b2, w2, (e1 ++ e2). unfold bind. rewrite Hop.
    split; [exact Hops|]. split; [by eapply extends_trans|].
    rewrite !occurrences_app. lia.
Qed.

(** C7.  Over the whole life of a buffer object imported from a client
    buffer with 1 to 4 planes (the import, any sequence of [map],
    [releaseBuffer] and [createTexture], and the destructor), the client
    buffer is referenced exactly once and unreferenced exactly once, whether
    or not the import succeeded; no step is undefined.  And [releaseBuffer]
    on the object it has just left touches nothing: same object, same
    world. *)
Theorem C7_client_reference_balance (this : addr) (gpu : DrmGpu) (cb : ClientBuffer)
    (ops : list BufferOp) (w : World) (p : Plane) (rest : list Plane) :
  cb_planes cb = p :: rest -> (length rest < GBM_MAX_PLANES)%nat ->
  (exists w',
     lifetime env this gpu cb ops w = Some (tt, w') /\
     occurrences (is_ref_of (cb_id cb)) (new_events w w') = 1%nat /\
     occurrences (is_unref_of (cb_id cb)) (new_events w w') = 1%nat) /\
  (forall (that : addr) (b b1 : GbmBuffer) (w0 w1 : World),
     GbmBuffer.releaseBuffer that b w0 = Some (b1, w1) ->
     GbmBuffer.releaseBuffer that b1 w1 = Some (b1, w1)).
Proof.
  intros Hp Hlen. split.
  - destruct (from_clientBuffer_run env gpu cb w p rest Hp Hlen)
      as (type & data & _ & _ & Hrun).
    simpl in Hrun.
    assert (exists b0 w0 evs0,
              GbmBuffer.from_clientBuffer env gpu cb w = Some (b0, w0) /\
              extends w w0 evs0 /\
              occurrences (is_ref_of (cb_id cb)) evs0 = 1%nat /\
              occurrences (is_unref_of (cb_id cb)) evs0 = 0%nat /\
              owed (cb_id cb) b0 = 1%nat) as (b0 & w0 & evs0 & H0 & Hx0 & Hr0 & Hu0 & Ho0).
    { destruct (import_answer env _ _ _ _ _) as [bo|e].
      - eexists _, _, _. split; [exact Hrun|]. split; [reflexivity|].
        unfold owed. count_events. by rewrite !bool_decide_eq_true_2.
      - eexists _, _, _. split; [exact Hrun|]. split; [reflexivity|].
        unfold owed. destruct (Z.pos e =? EINVAL); count_events;
          by rewrite !bool_decide_eq_true_2. }
    destruct (run_ops_spec this (cb_id cb) ops b0 w0)
      as (b1 & w1 & evs1 & H1 & Hx1 & Hr1 & Hu1).
    unfold lifetime, bind. rewrite H0, H1.
    unfold GbmBuffer.destructor, bind. rewrite releaseBuffer_run.
    eexists. split; [reflexivity|].
    assert (Hx2 : extends w
                    {| trace := trace w1 ++ release_events this b1; errno := errno w1 |}
                    ((evs0 ++ evs1) ++ release_events this b1)).
    { eapply extends_trans; [by eapply extends_trans|reflexivity]. }
    rewrite (extends_new_events _ _ _ Hx2), !occurrences_app.
    assert (occurrences (is_ref_of (cb_id cb)) (release_events this b1) = 0%nat /\
            occurrences (is_unref_of (cb_id cb)) (release_events this b1) =
              owed (cb_id cb) b1) as [Hr2 Hu2].
    { unfold release_events, owed.
      destruct (m_clientBuffer b1) as [c|], (m_bo b1), (m_surface b1); simpl;
        try destruct (m_mapping b1 =? 0); count_events;
        try destruct (bool_decide (cb_id c = cb_id cb)); done. }
    lia.
  - intros that b b1 w0 w1. rewrite releaseBuffer_run. intros [= <- <-].
    rewrite releaseBuffer_run, release_events_released, released_idempotent.
    simpl. by rewrite app_nil_r.
Qed.
End Destruction.

Lemma C7_witness :
  (exists w',
     lifetime mapping_env 100%positive sample_gpu (sample_client [linear_plane])
       [OpMap 1; OpRelease; OpRelease] empty_world = Some (tt, w') /\
     occurrences (is_ref_of 77%positive) (new_events empty_world w') = 1%nat /\
     occurrences (is_unref_of 77%positive) (new_events empty_world w') = 1%nat) /\
  (forall (that : addr) (b b1 : GbmBuffer) (w0 w1 : World),
     GbmBuffer.releaseBuffer that b w0 = Some (b1, w1) ->
     GbmBuffer.releaseBuffer that b1 w1 = Some (b1, w1)).
Proof.
  apply (C7_client_reference_balance mapping_env 100%positive sample_gpu
           (sample_client [linear_plane]) [OpMap 1; OpRelease; OpRelease]
           empty_world linear_plane []).
  - reflexivity.
  - unfold GBM_MAX_PLANES. simpl. lia.
Defined.

(** ** Objects without a native handle *)

Section Empty.
Context (env : Env).

(** Without a native handle nothing is asked of the driver by [map], and the
    object is left as it was. *)
Lemma map_empty_no_call (b : GbmBuffer) (flags : Z) (w : World) :
  m_bo b = None ->
  GbmBuffer.map env b flags w = Some ((negb (m_data b =? 0), b), w).
Proof.
  intros Hbo. unfold GbmBuffer.map. destruct (negb (m_data b =? 0)); [reflexivity|].
  by rewrite Hbo.
Qed.

(** It fails when, in addition, no mapped address is recorded. *)
Lemma map_empty_unmapped (b : GbmBuffer) (flags : Z) (w : World) :
  m_bo b = None -> m_data b = 0 ->
  GbmBuffer.map env b flags w = Some ((false, b), w).
Proof. intros Hbo Hd. rewrite map_empty_no_call by done. by rewrite Hd. Qed.

Lemma createTexture_empty (b : GbmBuffer) (display : Z) (w : World) :
  m_bo b = None -> GbmBuffer.createTexture env b display w = Some (None, w).
Proof. intros Hbo. unfold GbmBuffer.createTexture. by rewrite Hbo. Qed.
End Empty.

(** C4, where the code departs from it.  A pool buffer is mapped and then
    released: [releaseBuffer] unmaps it and drops the native handle but
    leaves the mapped address in [m_data].  The object now has no native
    handle, and [map] on it still answers [true], without any call. *)
Lemma C4_map_after_release_returns_true :
  exists b1 w1 b2 w2,
    GbmBuffer.map mapping_env
      (GbmBuffer.from_surface mapping_env (Some 2%positive) 4%positive) 1 empty_world
      = Some ((true, b1), w1) /\
    GbmBuffer.releaseBuffer 100%positive b1 w1 = Some (b2, w2) /\
    m_bo b2 = None /\
    EvGbmBoUnmap 4%positive 555 ∈ trace w2 /\
    m_data b2 = 4096 /\
    GbmBuffer.map mapping_env b2 1 w2 = Some ((true, b2), w2).
Proof.
  eexists _, _, _, _.
  split; [vm_compute; reflexivity|].
  split; [vm_compute; reflexivity|].
  split; [reflexivity|].
  split; [|split; reflexivity].
  simpl. rewrite !elem_of_cons. eauto.
Qed.

(** ** C9: queueing the next buffer *)

Section SetNext.
Context (env : Env).
Context (DrmDumbBuffer_destructor : addr -> DrmBuffer -> M unit).
Hypothesis dumb_destructor_returns :
  forall a d w, exists w', DrmDumbBuffer_destructor a d w = Some (tt, w').

Lemma destroy_returns (a : addr) (o : DrmBufferObj) (w : World) :
  exists w', QSharedPointer.destroy env DrmDumbBuffer_destructor a o w = Some (tt, w').
Proof.
  destruct o as [b|d]; simpl.
  - destruct (destructor_run env a b w) as [e He]. eauto.
  - apply dumb_destructor_returns.
Qed.

(** C9.  With a buffer [old] queued as "next", [setNext] with another live
    buffer [new] returns; afterwards "next" is [new], which has gained one
    strong reference, and "current" and the rest of the slot are as before.
    [old] has lost one strong reference: when that was its last, its
    destructor has run from the world [setNext] was called in and the
    object is gone from the store; otherwise the object stays, the world is
    unchanged and nothing is destroyed.  No other shared object is
    touched. *)
Theorem C9_setNext_replaces_next (c : DrmCrtc) (st : gmap positive Shared)
    (w : World) (old new : addr) (o n : Shared) :
  m_nextBuffer c = Some old -> st !! old = Some o -> st !! new = Some n ->
  new <> old ->
  exists c' st' w',
    DrmCrtc.setNext env DrmDumbBuffer_destructor c (Some new) st w = Some ((c', st'), w') /\
    m_nextBuffer c' = Some new /\
    m_currentBuffer c' = m_currentBuffer c /\
    m_blackBuffer c' = m_blackBuffer c /\
    st' !! new = Some {| pointee := pointee n; strongref := Pos.succ (strongref n) |} /\
    (if decide (strongref o = 1%positive) then
       st' !! old = None /\
       QSharedPointer.destroy env DrmDumbBuffer_destructor old (pointee o) w = Some (tt, w')
     else
       st' !! old = Some {| pointee := pointee o; strongref := Pos.pred (strongref o) |} /\
       w' = w) /\
    (forall a, a <> old -> a <> new -> st' !! a = st !! a).
Proof.
  intros Hnext Hold Hnew Hne.
  unfold DrmCrtc.setNext, QSharedPointer.assign, QSharedPointer.ref,
    QSharedPointer.deref.
  rewrite Hnext, Hnew. run.
  rewrite lookup_insert_ne by done. rewrite Hold.
  destruct (decide (strongref o = 1%positive)) as [Hone|Hmore].
  - destruct (destroy_returns old (pointee o) w) as [w' Hd].
    run. rewrite Hd. eexists _, _, _. split; [reflexivity|]. simpl.
    repeat split; try done.
    + rewrite lookup_delete_ne by done. by rewrite lookup_insert_eq.
    + by rewrite lookup_delete_eq.
    + intros a Ha1 Ha2. rewrite lookup_delete_ne by done.
      by rewrite lookup_insert_ne.
  - eexists _, _, _. split; [reflexivity|]. simpl.
    repeat split; try done.
    + rewrite lookup_insert_ne by done. by rewrite lookup_insert_eq.
    + by rewrite lookup_insert_eq.
    + intros a Ha1 Ha2. by rewrite !lookup_insert_ne.
Qed.
End SetNext.

Lemma C9_witness :
  exists c' st' w',
    DrmCrtc.setNext rejecting_env no_dumb_work sample_crtc (Some 20%positive)
      sample_store empty_world = Some ((c', st'), w') /\
    m_nextBuffer c' = Some 20%positive /\
    m_currentBuffer c' = m_currentBuffer sample_crtc /\
    m_blackBuffer c' = m_blackBuffer sample_crtc /\
    st' !! 20%positive =
      Some {| pointee := gbm_object 2 5 42; strongref := Pos.succ 1 |} /\
    (if decide (1%positive = 1%positive) then
       st' !! 10%positive = None /\
       QSharedPointer.destroy rejecting_env no_dumb_work 10%positive
         (gbm_object 2 4 41) empty_world = Some (tt, w')
     else
       st' !! 10%positive =
         Some {| pointee := gbm_object 2 4 41; strongref := Pos.pred 1 |} /\
       w' = empty_world) /\
    (forall a, a <> 10%positive -> a <> 20%positive -> st' !! a = sample_store !! a).
Proof.
  apply (C9_setNext_replaces_next rejecting_env no_dumb_work
           (fun a d w => ex_intro _ w eq_refl)
           sample_crtc sample_store empty_world 10%positive 20%positive
           {| pointee := gbm_object 2 4 41; strongref := 1 |}
           {| pointee := gbm_object 2 5 42; strongref := 1 |}).
  - reflexivity.
  - reflexivity.
  - reflexivity.
  - discriminate.
Defined.

(** * Further properties of the buffer code *)

Ltac count_all :=
  repeat (rewrite occurrences_app || rewrite occurrences_cons
          || rewrite occurrences_nil); simpl.

Section BufferObject.
Context (env : Env).

(** Once [map] has answered [true], every later [map] answers [true] again
    without calling the driver and without touching the object; a single
    [map] calls the driver at most once. *)
Theorem map_mapped_is_noop (b b' : GbmBuffer) (flags flags' : Z) (w w' : World) :
  GbmBuffer.map env b flags w = Some ((true, b'), w') ->
  GbmBuffer.map env b' flags' w' = Some ((true, b'), w') /\
  (occurrences is_map_call (new_events w w') <= 1)%nat.
Proof.
  unfold GbmBuffer.map at 1.
  destruct (negb (m_data b =? 0)) eqn:Hd.
  - intros [= <- <-]. split.
    + unfold GbmBuffer.map. by rewrite Hd.
    + rewrite new_events_refl. count_events. lia.
  - destruct (m_bo b) as [bo|]; [|discriminate].
    run. intros [= Hnz <- <-]. split.
    + unfold GbmBuffer.map. simpl. by rewrite Hnz.
    + rewrite new_events_app. count_events. lia.
Qed.

(** [releaseBuffer] always returns and leaves an object that holds neither
    a native handle nor a client buffer.  A handle that belongs to a surface
    goes back to that surface once and is never destroyed; a handle without
    a surface is destroyed once and never handed to a surface; a recorded
    mapping is unmapped once, before the handle is given up; without a
    handle, the driver is not called at all. *)
Theorem releaseBuffer_gives_up_handle (this : addr) (b : GbmBuffer) (w : World) :
  exists b' w',
    GbmBuffer.releaseBuffer this b w = Some (b', w') /\
    m_bo b' = None /\ m_clientBuffer b' = None /\
    match m_bo b with
    | None =>
        occurrences is_native_release (new_events w w') = 0%nat /\
        occurrences is_unmap (new_events w w') = 0%nat /\
        m_surface b' = m_surface b
    | Some bo =>
        m_surface b' = None /\
        occurrences is_unmap (new_events w w') =
          (if m_mapping b =? 0 then 0%nat else 1%nat) /\
        match m_surface b with
        | Some s =>
            occurrences is_surface_release (new_events w w') = 1%nat /\
            occurrences is_destroy (new_events w w') = 0%nat /\
            last (new_events w w') = Some (EvSurfaceReleaseBuffer s this) /\
            (m_mapping b <> 0 ->
             precedes (EvGbmBoUnmap bo (m_mapping b)) (EvSurfaceReleaseBuffer s this)
               (new_events w w'))
        | None =>
            occurrences is_destroy (new_events w w') = 1%nat /\
            occurrences is_surface_release (new_events w w') = 0%nat /\
            last (new_events w w') = Some (EvGbmBoDestroy bo) /\
            (m_mapping b <> 0 ->
             precedes (EvGbmBoUnmap bo (m_mapping b)) (EvGbmBoDestroy bo)
               (new_events w w'))
        end
    end.
Proof.
  rewrite releaseBuffer_run. eexists _, _. split; [reflexivity|].
  rewrite new_events_app. unfold release_events, released, precedes. simpl.
  split; [reflexivity|]. split; [reflexivity|].
  destruct (m_bo b) as [bo|].
  - split; [reflexivity|].
    destruct (m_clientBuffer b) as [cb|], (m_surface b) as [s|],
      (m_mapping b =? 0) eqn:Hm; simpl; count_events;
      repeat split; try reflexivity; intros Hne;
      try (apply Z.eqb_eq in Hm; contradiction).
    + by exists [EvClientUnref (cb_id cb)], [], [].
    + by exists [EvClientUnref (cb_id cb)], [], [].
    + by exists [], [], [].
    + by exists [], [], [].
  - destruct (m_clientBuffer b); simpl; by count_events.
Qed.

(** After [releaseBuffer] the object is inert: whatever sequence of [map],
    [releaseBuffer] and [createTexture] follows, the outside world is not
    called once (only [map] may still answer [true], from a stale
    address). *)
Theorem released_buffer_is_inert (this that : addr) (b b1 : GbmBuffer)
    (ops : list BufferOp) (w w1 : World) :
  GbmBuffer.releaseBuffer this b w = Some (b1, w1) ->
  run_ops env that ops b1 w1 = Some (b1, w1).
Proof.
  rewrite releaseBuffer_run. intros [= <- <-].
  induction ops as [|op ops IH]; [reflexivity|].
  simpl. unfold bind.
  assert (Hop : run_op env that op (released b)
                  {| trace := trace w ++ release_events this b; errno := errno w |}
                = Some (released b,
                        {| trace := trace w ++ release_events this b; errno := errno w |})).
  { destruct op as [flags| |display]; simpl.
    - unfold bind. rewrite map_empty_no_call by reflexivity. reflexivity.
    - rewrite releaseBuffer_run, release_events_released, released_idempotent.
      simpl. by rewrite app_nil_r.
    - unfold bind. rewrite createTexture_empty by reflexivity. reflexivity. }
  rewrite Hop. exact IH.
Qed.

(** [createTexture] on an object with a native handle asks EGL for an image
    exactly once.  It answers null exactly when EGL answered
    [EGL_NO_IMAGE_KHR], and then one warning carrying EGL's error string is
    logged; otherwise nothing is logged and the texture wraps that image,
    in [GL_RGBA8], with the size of the native buffer. *)
Theorem createTexture_outcomes (b : GbmBuffer) (bo : gbm_bo) (display : Z) (w : World) :
  m_bo b = Some bo ->
  exists r w' image,
    GbmBuffer.createTexture env b display w = Some (r, w') /\
    image = egl_image_answer env (trace w) display EGL_NATIVE_PIXMAP_KHR bo /\
    filter (fun ev => is_egl_image ev) (new_events w w') =
      [EvEglCreateImage display EGL_NATIVE_PIXMAP_KHR bo image] /\
    (r = None <-> image = EGL_NO_IMAGE_KHR) /\
    match r with
    | None =>
        filter (fun ev => is_any_log ev) (new_events w w') =
          [EvLog Warning
             [LStr "Failed to record frame: Error creating EGLImageKHR - ";
              LStr (getEglErrorString env
                      (trace w ++ [EvEglCreateImage display EGL_NATIVE_PIXMAP_KHR bo image]))]]
    | Some t =>
        occurrences is_any_log (new_events w w') = 0%nat /\
        tex_image t = image /\ tex_display t = display /\
        tex_internalFormat t = GL_RGBA8 /\
        tex_size t = {| width := to_s32 (gbm_bo_get_width env bo);
                        height := to_s32 (gbm_bo_get_height env bo) |}
    end.
Proof.
  intros Hbo. unfold GbmBuffer.createTexture. rewrite Hbo. run.
  destruct (egl_image_answer env (trace w) display EGL_NATIVE_PIXMAP_KHR bo =? EGL_NO_IMAGE_KHR)
    eqn:Himg; run.
  - eexists _, _, _. split; [reflexivity|]. split; [reflexivity|].
    unfold new_events. simpl. rewrite <- app_assoc, drop_app_length. simpl.
    apply Z.eqb_eq in Himg. repeat split; done.
  - eexists _, _, _. split; [reflexivity|]. split; [reflexivity|].
    rewrite new_events_app. simpl.
    apply Z.eqb_neq in Himg. repeat split; done.
Qed.
End BufferObject.

(** ** Where the import is defined *)

Section ImportDomain.
Context (env : Env).

Lemma array_set_None (a : list Z) (i : nat) (v : Z) :
  (length a <= i)%nat -> array_set a i v = None.
Proof. intros H. unfold array_set. by rewrite decide_False by lia. Qed.

Lemma copy_planes_overflow (planes : list Plane) :
  forall (i : nat) (fds offs strs : list Z),
    length fds = GBM_MAX_PLANES -> length offs = GBM_MAX_PLANES ->
    length strs = GBM_MAX_PLANES ->
    (i <= GBM_MAX_PLANES < i + length planes)%nat ->
    GbmBuffer.copy_planes i planes fds offs strs = None.
Proof.
  induction planes as [|p rest IH]; intros i fds offs strs Hf Ho Hs Hi; simpl in *.
  - lia.
  - destruct (decide (i < GBM_MAX_PLANES)%nat) as [Hlt|Hge].
    + rewrite !array_set_Some by lia. simpl.
      apply IH; rewrite ?length_insert; lia.
    + rewrite (array_set_None fds) by lia. reflexivity.
Qed.

(** The import constructor is undefined exactly on a client buffer without
    planes (it reads the first one) and on one with more than four (it
    writes them into four-element arrays); on 1 to 4 planes it always
    returns an object, whatever the driver answers. *)
Theorem from_clientBuffer_defined_iff (gpu : DrmGpu) (cb : ClientBuffer) (w : World) :
  GbmBuffer.from_clientBuffer env gpu cb w = None <->
  cb_planes cb = [] \/ (GBM_MAX_PLANES < length (cb_planes cb))%nat.
Proof.
  destruct (cb_planes cb) as [|p rest] eqn:Hp.
  - split; [by left|]. intros _.
    unfold GbmBuffer.from_clientBuffer. rewrite Hp. reflexivity.
  - destruct (decide (length rest < GBM_MAX_PLANES)%nat) as [Hlt|Hge].
    + split.
      * intros Hnone.
        destruct (from_clientBuffer_run env gpu cb w p rest Hp Hlt)
          as (type & data & _ & _ & Hrun).
        simpl in Hrun. rewrite Hnone in Hrun.
        destruct (import_answer env _ _ _ _ _); discriminate.
      * intros [Hnil|Hlen]; [discriminate|]. simpl in Hlen. lia.
    + split; [intros _; right; simpl; lia|]. intros _.
      unfold GbmBuffer.from_clientBuffer. rewrite Hp.
      assert (Hc : GbmBuffer.needs_modifier_import p (p :: rest) = true).
      { unfold GbmBuffer.needs_modifier_import, GbmBuffer.count.
        apply orb_true_iff. right. apply Z.ltb_lt.
        simpl length. unfold GBM_MAX_PLANES in Hge. lia. }
      run. rewrite Hc.
      pose proof (copy_planes_overflow (p :: rest) 0 zeros4 zeros4 zeros4
                    eq_refl eq_refl eq_refl) as Hover.
      simpl in Hover. run. rewrite Hover; [reflexivity|].
      unfold GBM_MAX_PLANES in *. lia.
Qed.
End ImportDomain.

(** ** The arrays handed to the kernel *)

Section PlaneArrays.
Context (env : Env).

Lemma array_set_inv (a a' : list Z) (i : nat) (v : Z) :
  array_set a i v = Some a' -> (i < length a)%nat /\ a' = <[i:=v]> a.
Proof. unfold array_set. case_decide; [|done]. by intros [= <-]. Qed.

Lemma fill_planes_lookup (bo : gbm_bo) (m : Z) (n : nat) :
  forall (i : nat) (a a' : FbPlanes),
    fits4 a ->
    DrmGbmBuffer.fill_planes env bo m n i a = Some a' ->
    fits4 a' /\ (n = 0 \/ i + n <= GBM_MAX_PLANES)%nat /\
    forall j : nat,
      handles a' !! j =
        (if decide (i <= j < i + n)%nat
         then Some (handle_u32 (gbm_bo_get_handle_for_plane env bo (Z.of_nat j)))
         else handles a !! j) /\
      strides a' !! j =
        (if decide (i <= j < i + n)%nat
         then Some (gbm_bo_get_stride_for_plane env bo (Z.of_nat j))
         else strides a !! j) /\
      offsets a' !! j =
        (if decide (i <= j < i + n)%nat
         then Some (gbm_bo_get_offset env bo (Z.of_nat j))
         else offsets a !! j) /\
      modifiers a' !! j =
        (if decide (i <= j < i + n)%nat then Some m else modifiers a !! j).
Proof.
  induction n as [|n IH]; intros i a a' (Hh & Hs & Ho & Hm) Hfill; simpl in Hfill.
  - injection Hfill as <-. split; [by unfold fits4|]. split; [by left|].
    intros j. repeat case_decide; try lia; done.
  - destruct (array_set (handles a) i _) as [hs|] eqn:E1; [|discriminate].
    destruct (array_set (strides a) i _) as [ss|] eqn:E2; [|discriminate].
    destruct (array_set (offsets a) i _) as [os|] eqn:E3; [|discriminate].
    destruct (array_set (modifiers a) i _) as [ms|] eqn:E4; [|discriminate].
    simpl in Hfill.
    apply array_set_inv in E1 as [L1 ->]. apply array_set_inv in E2 as [L2 ->].
    apply array_set_inv in E3 as [L3 ->]. apply array_set_inv in E4 as [L4 ->].
    apply IH in Hfill as (Hfit & Hbound & Hlook).
    2: { unfold fits4. simpl. by rewrite !length_insert. }
    split; [exact Hfit|]. split; [right; lia|].
    intros j. destruct (Hlook j) as (H1 & H2 & H3 & H4). simpl in *.
    rewrite H1, H2, H3, H4.
    destruct (decide (j = i)) as [->|Hne].
    + repeat case_decide; try lia.
      by rewrite !list_lookup_insert_eq by lia.
    + rewrite !list_lookup_insert_ne by done.
      repeat case_decide; try lia; done.
Qed.

(** The arrays cannot be built exactly when the per-plane handle query
    works and libgbm reports more than four planes: the loop then writes
    past the end of the four-element arrays. *)
Theorem plane_arrays_undefined_iff (bo : gbm_bo) (m : Z) :
  DrmGbmBuffer.plane_arrays env bo m = None <->
  handle_s32 (gbm_bo_get_handle_for_plane env bo 0) <> -1 /\
  Z.of_nat GBM_MAX_PLANES < gbm_bo_get_plane_count env bo.
Proof.
  unfold DrmGbmBuffer.plane_arrays.
  destruct (handle_s32 (gbm_bo_get_handle_for_plane env bo 0) =? -1) eqn:Hh; simpl.
  - apply Z.eqb_eq in Hh. split; [discriminate|]. intros [Hne _]. contradiction.
  - apply Z.eqb_neq in Hh.
    destruct (DrmGbmBuffer.fill_planes env bo m _ 0 _) as [a|] eqn:Hfill.
    + apply fill_planes_lookup in Hfill as (_ & Hbound & _); [|done].
      split; [discriminate|]. intros [_ Hgt]. unfold GBM_MAX_PLANES in *. lia.
    + split; [|done]. intros _. split; [exact Hh|].
      destruct (decide (gbm_bo_get_plane_count env bo <= Z.of_nat GBM_MAX_PLANES))
        as [Hle|Hgt]; [|lia].
      destruct (fill_planes_defined env bo m
                  (Z.to_nat (gbm_bo_get_plane_count env bo)) 0
                  DrmGbmBuffer.zero_planes) as [a Ha]; try reflexivity.
      { unfold GBM_MAX_PLANES in *. lia. }
      rewrite Ha in Hfill. discriminate.
Qed.

(** Entry 0 of the modifier array, which decides how the buffer is
    registered. *)
Lemma plane_arrays_first_modifier (bo : gbm_bo) (m : Z) (a : FbPlanes) :
  DrmGbmBuffer.plane_arrays env bo m = Some a ->
  modifiers a !! 0%nat =
    Some (if handle_s32 (gbm_bo_get_handle_for_plane env bo 0) =? -1
          then DRM_FORMAT_MOD_INVALID
          else if 0 <? gbm_bo_get_plane_count env bo then m else 0).
Proof.
  unfold DrmGbmBuffer.plane_arrays.
  destruct (handle_s32 (gbm_bo_get_handle_for_plane env bo 0) =? -1) eqn:Hh; simpl.
  - by intros [= <-].
  - intros Hfill. apply fill_planes_lookup in Hfill as (_ & _ & Hlook); [|done].
    destruct (Hlook 0%nat) as (_ & _ & _ & H4). rewrite H4.
    destruct (0 <? gbm_bo_get_plane_count env bo) eqn:Hr.
    + apply Z.ltb_lt in Hr. repeat case_decide; try lia; done.
    + apply Z.ltb_ge in Hr. repeat case_decide; try lia; done.
Qed.

End PlaneArrays.

(** ** Which registration call is made, and with what *)

Section RegistrationChoice.
Context (env : Env).

Lemma to_u32_to_s32 (z : Z) : to_u32 (to_s32 z) = z `mod` 2 ^ 32.
Proof.
  unfold to_u32, to_s32.
  pose proof (Z.mod_pos_bound z (2 ^ 32) ltac:(lia)) as Hb.
  destruct (z `mod` 2 ^ 32 <? 2 ^ 31).
  - apply Z.mod_small. lia.
  - rewrite <- (Z.mod_add _ 1) by lia.
    replace (z `mod` 2 ^ 32 - 2 ^ 32 + 1 * 2 ^ 32) with (z `mod` 2 ^ 32) by lia.
    apply Z.mod_small. lia.
Qed.

Lemma registration_tiers (b : DrmGbmBuffer) (bo : gbm_bo) (a : FbPlanes)
    (h evs : list Event) (id : Z) (eo : option positive) :
  registration env b bo a h evs id eo ->
  (modifier_aware b a = true /\
   exists ok, attempts evs = [(TierModifiers, ok)]) \/
  (modifier_aware b a = false /\
   exists ok rest, attempts evs = (TierMultiPlane, ok) :: rest /\
                   (rest = [] \/ exists ok', rest = [(TierLegacy, ok')])).
Proof.
  intros Hreg.
  destruct Hreg as [fb Hc H1|e Hc H1|fb Hc H1|e fb Hc H1 H2|e e' Hc H1 H2];
    unfold diagnostic; destruct (m_surface (gbm b)); unfold attempts; simpl.
  1-4: left; split; [exact Hc|]; by eexists.
  1-2: right; split; [exact Hc|]; eexists _, []; split; [reflexivity|]; by left.
  all: right; split; [exact Hc|]; eexists _, [_]; split; [reflexivity|];
    right; by eexists.
Qed.

Lemma registration_requests (b : DrmGbmBuffer) (bo : gbm_bo) (a : FbPlanes)
    (h evs : list Event) (id : Z) (eo : option positive) :
  registration env b bo a h evs id eo ->
  forall rq res, EvAddFB rq res ∈ evs ->
    rq = request_modifiers env b bo a \/ rq = request_multi_plane env b bo a \/
    rq = request_legacy env b bo a.
Proof.
  intros Hreg rq res Hin.
  destruct Hreg as [fb Hc H1|e Hc H1|fb Hc H1|e fb Hc H1 H2|e e' Hc H1 H2];
    unfold diagnostic in Hin; destruct (m_surface (gbm b)); simpl in Hin;
    repeat (apply elem_of_cons in Hin as [Hin|Hin];
            [first [discriminate Hin | injection Hin as -> _; eauto]|]);
    by apply elem_of_nil in Hin.
Qed.

(** [initialize] asks for a registration with modifiers exactly when the
    device supports it, the per-plane handle query works, and the buffer's
    modifier is valid (or libgbm reports no plane at all, which leaves
    entry 0 of the modifier array at 0).  In every other case its first call
    is the plain multi-plane one; so a buffer whose per-plane handle query
    fails is never registered with modifiers. *)
Theorem modifier_call_exactly_when (this : addr) (b : DrmGbmBuffer)
    (w : World) (bo : gbm_bo) :
  m_bo (gbm b) = Some bo -> planes_fit env bo ->
  exists b' w',
    DrmGbmBuffer.initialize env this b w = Some (b', w') /\
    let wanted :=
      addFB2ModifiersSupported (m_gpu (drm b)) = true /\
      handle_s32 (gbm_bo_get_handle_for_plane env bo 0) <> -1 /\
      (1 <= gbm_bo_get_plane_count env bo ->
       m_modifier (drm b) <> DRM_FORMAT_MOD_INVALID) in
    (wanted ->
     exists ok, attempts (new_events w w') = [(TierModifiers, ok)]) /\
    (~ wanted ->
     exists ok rest, attempts (new_events w w') = (TierMultiPlane, ok) :: rest /\
                     (rest = [] \/ exists ok', rest = [(TierLegacy, ok')])).
Proof.
  intros Hbo Hfit.
  destruct (initialize_run env this b w bo Hbo Hfit)
    as (a & evs & id & eo & Ha & Hreg & Hrun).
  eexists _, _. split; [exact Hrun|].
  rewrite new_events_app, attempts_tag.
  assert (Haware : modifier_aware b a = true <->
            addFB2ModifiersSupported (m_gpu (drm b)) = true /\
            handle_s32 (gbm_bo_get_handle_for_plane env bo 0) <> -1 /\
            (1 <= gbm_bo_get_plane_count env bo ->
             m_modifier (drm b) <> DRM_FORMAT_MOD_INVALID)).
  { unfold modifier_aware, DrmGbmBuffer.at0.
    rewrite andb_true_iff, negb_true_iff, Z.eqb_neq.
    rewrite (plane_arrays_first_modifier env bo _ a Ha). simpl.
    destruct (handle_s32 (gbm_bo_get_handle_for_plane env bo 0) =? -1) eqn:Hh.
    - apply Z.eqb_eq in Hh. tauto.
    - apply Z.eqb_neq in Hh.
      destruct (0 <? gbm_bo_get_plane_count env bo) eqn:Hn.
      + apply Z.ltb_lt in Hn. intuition lia.
      + apply Z.ltb_ge in Hn. unfold DRM_FORMAT_MOD_INVALID. intuition lia. }
  destruct (registration_tiers b bo a _ evs id eo Hreg) as [[Hc Hatt]|[Hc Hatt]].
  - split; [intros _; exact Hatt|]. intros Hnot. apply Haware in Hc. contradiction.
  - split; [|intros _; exact Hatt].
    intros Hw. apply Haware in Hw. congruence.
Qed.

(** Every registration request of [initialize] is made on the device's file
    descriptor and carries the width and height libgbm reports for the
    native buffer: the detour through the signed [QSize] loses nothing. *)
Theorem registration_requests_describe_buffer (this : addr) (b : DrmGbmBuffer)
    (w : World) (bo : gbm_bo) :
  m_bo (gbm b) = Some bo -> planes_fit env bo ->
  is_u32 (gbm_bo_get_width env bo) -> is_u32 (gbm_bo_get_height env bo) ->
  exists b' w',
    DrmGbmBuffer.initialize env this b w = Some (b', w') /\
    m_size (drm b') = {| width := to_s32 (gbm_bo_get_width env bo);
                         height := to_s32 (gbm_bo_get_height env bo) |} /\
    forall rq res, EvAddFB rq res ∈ new_events w w' ->
      request_fd rq = fd (m_gpu (drm b)) /\
      request_width rq = gbm_bo_get_width env bo /\
      request_height rq = gbm_bo_get_height env bo /\
      (forall f, request_format rq = Some f -> f = m_format (drm b)).
Proof.
  intros Hbo Hfit Hw Hh.
  destruct (initialize_run env this b w bo Hbo Hfit)
    as (a & evs & id & eo & Ha & Hreg & Hrun).
  eexists _, _. split; [exact Hrun|]. split; [reflexivity|].
  rewrite new_events_app. intros rq res Hin.
  apply elem_of_app in Hin as [Hin|Hin];
    [|apply list_elem_of_singleton in Hin; discriminate Hin].
  assert (Hfw : fb_width env bo = gbm_bo_get_width env bo).
  { unfold fb_width. rewrite to_u32_to_s32. apply Z.mod_small, Hw. }
  assert (Hfh : fb_height env bo = gbm_bo_get_height env bo).
  { unfold fb_height. rewrite to_u32_to_s32. apply Z.mod_small, Hh. }
  destruct (registration_requests b bo a _ evs id eo Hreg rq res Hin)
    as [E|[E|E]]; rewrite E; simpl; rewrite ?Hfw, ?Hfh; repeat split; try done;
    by intros f [= <-].
Qed.
End RegistrationChoice.

(** ** Whole lives of scanout buffers *)

Section ScanoutLives.
Context (env : Env).

Lemma deregistration_events_spec (h : list Event) (d : DrmBuffer) :
  occurrences is_deregistration (deregistration_events env h d) =
    (if m_bufferId d =? 0 then 0%nat else 1%nat) /\
  occurrences is_native_release (deregistration_events env h d) = 0%nat /\
  occurrences is_tagging (deregistration_events env h d) = 0%nat /\
  attempts (deregistration_events env h d) = [] /\
  (forall cb, occurrences (is_ref_of cb) (deregistration_events env h d) = 0%nat /\
              occurrences (is_unref_of cb) (deregistration_events env h d) = 0%nat) /\
  (forall f id res, EvRmFB f id res ∈ deregistration_events env h d ->
     f = fd (m_gpu d) /\ id = m_bufferId d /\ id <> 0).
Proof.
  unfold deregistration_events.
  destruct (m_bufferId d =? 0) eqn:Hid.
  - do 5 (split; [done|]). intros f id res Hin. by apply elem_of_nil in Hin.
  - apply Z.eqb_neq in Hid.
    destruct (rmfb_answer env h _ _) as [[]|e]; do 5 (split; [done|]);
      intros f id res Hin;
      repeat (apply elem_of_cons in Hin as [Hin|Hin];
              [first [discriminate Hin | injection Hin as -> -> _; done]|]);
      by apply elem_of_nil in Hin.
Qed.

(** A scanout buffer built on a native buffer from a pool and then
    destroyed: the identifier it holds is the one the kernel issued during
    construction (0 when every attempt failed); the destructor removes
    exactly that identifier, on the same device, once, and not at all when
    there is none; the very last thing that happens is that the native
    buffer goes back to its surface, or is destroyed when it has none; and
    no client buffer is referenced or released along the way. *)
Theorem pool_lifetime_removes_what_it_registered (this : addr) (gpu : DrmGpu)
    (surface : option GbmSurfacePtr) (bo : gbm_bo) (w : World) :
  planes_fit env bo ->
  exists b w1 w2,
    DrmGbmBuffer.from_surface env this gpu surface bo w = Some (b, w1) /\
    DrmGbmBuffer.destructor env this b w1 = Some (tt, w2) /\
    pool_lifetime env this gpu surface bo w = Some (tt, w2) /\
    m_bufferId (drm b) = default 0 (registered_id (new_events w w1)) /\
    occurrences is_deregistration (new_events w1 w2) =
      (if m_bufferId (drm b) =? 0 then 0%nat else 1%nat) /\
    (forall f id res, EvRmFB f id res ∈ new_events w1 w2 ->
       f = fd gpu /\ registered_id (new_events w w1) = Some id /\ id <> 0) /\
    last (new_events w1 w2) =
      Some (match surface with
            | Some s => EvSurfaceReleaseBuffer s this
            | None => EvGbmBoDestroy bo
            end) /\
    (forall cb, occurrences (is_ref_of cb) (new_events w w2) = 0%nat /\
                occurrences (is_unref_of cb) (new_events w w2) = 0%nat).
Proof.
  intros Hfit. unfold pool_lifetime, DrmGbmBuffer.from_surface.
  destruct (initialize_run env this
              {| drm := DrmGbmBuffer.DrmBuffer_new gpu (gbm_bo_get_format env bo)
                          (gbm_bo_get_modifier env bo);
                 gbm := GbmBuffer.from_surface env surface bo |} w bo eq_refl Hfit)
    as (a & evs & id & eo & Ha & Hreg & Hrun).
  destruct (registration_attempts env _ bo a _ evs id eo Hreg) as (_ & Hid & _).
  simpl in Hid.
  match type of Hrun with _ = Some (?b, ?w1) =>
    destruct (destructor_run env this b w1) as [e Hd] end.
  eexists _, _, _. split; [exact Hrun|]. split; [exact Hd|].
  split; [unfold bind; rewrite Hrun; exact Hd|].
  simpl in *.
  rewrite new_events_app, registered_id_tag.
  split; [exact Hid|].
  set (d := {| m_gpu := gpu; m_bufferId := id |}) in *.
  destruct (deregistration_events_spec
              (trace w ++ evs ++ [EvGbmBoSetUserData bo this]) d)
    as (Hcount & _ & _ & _ & Hrefs & Hrm).
  assert (Hrel : release_events this (GbmBuffer.from_surface env surface bo) =
                 [match surface with
                  | Some s => EvSurfaceReleaseBuffer s this
                  | None => EvGbmBoDestroy bo
                  end]).
  { unfold release_events. simpl. by destruct surface. }
  rewrite Hrel in *.
  assert (Hnew : forall e0 l,
            new_events {| trace := trace w ++ evs ++ [EvGbmBoSetUserData bo this];
                          errno := e0 |}
              {| trace := (trace w ++ evs ++ [EvGbmBoSetUserData bo this]) ++ l;
                 errno := e |} = l).
  { intros e0 l. unfold new_events. simpl. apply drop_app_length. }
  rewrite Hnew. split; [|split; [|split]].
  - rewrite occurrences_app, Hcount. by destruct surface.
  - intros f id' res Hin. apply elem_of_app in Hin as [Hin|Hin].
    + destruct (Hrm f id' res Hin) as (-> & -> & Hne). simpl in *.
      repeat split; try done.
      rewrite Hid in *. destruct (registered_id evs); simpl in *; congruence.
    + apply list_elem_of_singleton in Hin. by destruct surface.
  - rewrite last_snoc. reflexivity.
  - intros cb. destruct (Hrefs cb) as [Hr Hu].
    unfold new_events. simpl. rewrite <- !app_assoc, drop_app_length.
    rewrite !occurrences_app, Hr, Hu.
    assert (occurrences (is_ref_of cb) evs = 0%nat /\
            occurrences (is_unref_of cb) evs = 0%nat) as [-> ->].
    { destruct Hreg; unfold diagnostic; simpl; by destruct surface. }
    by destruct surface.
Qed.

Lemma registration_quiet (b : DrmGbmBuffer) (bo : gbm_bo) (a : FbPlanes)
    (h evs : list Event) (id : Z) (eo : option positive) :
  registration env b bo a h evs id eo ->
  occurrences is_tagging evs = 0%nat /\
  occurrences is_deregistration evs = 0%nat /\
  occurrences is_destroy evs = 0%nat /\
  occurrences is_surface_release evs = 0%nat /\
  occurrences is_import evs = 0%nat /\
  forall cb, occurrences (is_ref_of cb) evs = 0%nat /\
             occurrences (is_unref_of cb) evs = 0%nat.
Proof.
  intros Hreg. destruct Hreg; unfold diagnostic; by destruct (m_surface (gbm b)).
Qed.

(** A scanout buffer imported from a client buffer with 1 to 4 planes and
    then destroyed.  The client buffer is referenced once and released once
    whatever happens in between, and nothing is ever handed to a surface.
    When the import fails nothing else is done: no registration, no tag, no
    deregistration, nothing destroyed.  When it succeeds the imported handle
    is tagged once and destroyed once, as the last step, after the client
    buffer was released. *)
Theorem import_lifetime_balance (this : addr) (gpu : DrmGpu) (cb : ClientBuffer)
    (w : World) (p : Plane) (rest : list Plane) :
  cb_planes cb = p :: rest -> (length rest < GBM_MAX_PLANES)%nat ->
  (forall bo, planes_fit env bo) ->
  exists w',
    import_lifetime env this gpu cb w = Some (tt, w') /\
    occurrences (is_ref_of (cb_id cb)) (new_events w w') = 1%nat /\
    occurrences (is_unref_of (cb_id cb)) (new_events w w') = 1%nat /\
    occurrences is_import (new_events w w') = 1%nat /\
    occurrences is_surface_release (new_events w w') = 0%nat /\
    (forall e, import_failed_with e (new_events w w') ->
       attempts (new_events w w') = [] /\
       occurrences is_tagging (new_events w w') = 0%nat /\
       occurrences is_deregistration (new_events w w') = 0%nat /\
       occurrences is_destroy (new_events w w') = 0%nat) /\
    (forall dev type data usage bo,
       EvGbmBoImport dev type data usage (Ok bo) ∈ new_events w w' ->
       occurrences is_tagging (new_events w w') = 1%nat /\
       occurrences is_destroy (new_events w w') = 1%nat /\
       precedes (EvClientUnref (cb_id cb)) (EvGbmBoDestroy bo) (new_events w w') /\
       last (new_events w w') = Some (EvGbmBoDestroy bo)).
Proof.
  intros Hp Hlen Hfit.
  destruct (from_clientBuffer_run env gpu cb w p rest Hp Hlen)
    as (type & data & _ & _ & Hrun).
  simpl in Hrun.
  unfold import_lifetime, DrmGbmBuffer.from_clientBuffer. rewrite Hp. simpl.
  unfold bind at 1. unfold bind at 1. simpl. unfold bind at 1. rewrite Hrun.
  set (call := EvGbmBoImport (gbmDevice gpu) type data GBM_BO_USE_SCANOUT) in *.
  destruct (import_answer env _ _ _ _ _) as [bo|e].
  - match goal with
    | |- context [DrmGbmBuffer.initialize env this ?b ?w1] =>
        destruct (initialize_run env this b w1 bo eq_refl (Hfit bo))
          as (a & evs & id & eo & Ha & Hreg & Hi); rewrite Hi
    end.
    match goal with
    | |- context [DrmGbmBuffer.destructor env this ?b ?w1] =>
        destruct (destructor_run env this b w1) as [e Hd]; rewrite Hd
    end.
    destruct (registration_quiet _ bo a _ evs id eo Hreg)
      as (Q1 & Q2 & Q3 & Q4 & Q5 & Q6).
    destruct (Q6 (cb_id cb)) as [Q7 Q8].
    match goal with
    | |- context [deregistration_events env ?h ?d] =>
        destruct (deregistration_events_spec h d)
          as (D1 & D2 & D3 & D4 & D5 & D6);
        destruct (D5 (cb_id cb)) as [D7 D8];
        set (dereg := deregistration_events env h d) in *
    end.
    eexists. split; [reflexivity|].
    unfold new_events. simpl. rewrite <- !app_assoc, drop_app_length. simpl.
    unfold release_events. simpl.
    assert (Hd0 : occurrences is_destroy dereg = 0%nat /\
                  occurrences is_surface_release dereg = 0%nat /\
                  occurrences is_import dereg = 0%nat).
    { unfold dereg, deregistration_events.
      destruct (_ =? 0); [done|]. by destruct (rmfb_answer env _ _ _). }
    destruct Hd0 as (D9 & D10 & D11).
    count_all. rewrite ?bool_decide_eq_true_2 by done.
    rewrite ?Q1, ?Q4, ?Q5, ?Q7, ?Q8, ?D7, ?D8, ?D10, ?D11, ?Q3, ?D9, ?D3. simpl.
    do 4 (split; [reflexivity|]). split.
    + intros e0 (dev & ty & dat & us & Hin). exfalso.
      apply elem_of_cons in Hin as [Hin|Hin]; [discriminate Hin|].
      apply elem_of_cons in Hin as [Hin|Hin]; [discriminate Hin|].
      assert (Hno : forall l, occurrences is_import l = 0%nat ->
                EvGbmBoImport dev ty dat us (Fail e0) ∈ l -> False).
      { clear. intros l Hz Hin. induction l as [|x l IH].
        - by apply elem_of_nil in Hin.
        - rewrite occurrences_cons in Hz.
          apply elem_of_cons in Hin as [<-|Hin]; [simpl in Hz; lia|].
          apply IH; [|exact Hin]. destruct (is_import x); simpl in Hz; lia. }
      apply elem_of_app in Hin as [Hin|Hin]; [exact (Hno _ Q5 Hin)|].
      apply elem_of_cons in Hin as [Hin|Hin]; [discriminate Hin|].
      apply elem_of_app in Hin as [Hin|Hin]; [exact (Hno _ D11 Hin)|].
      apply elem_of_cons in Hin as [Hin|Hin]; [discriminate Hin|].
      apply elem_of_cons in Hin as [Hin|Hin]; [discriminate Hin|].
      by apply elem_of_nil in Hin.
    + intros dev ty dat us bo' Hin.
      assert (bo' = bo) as ->.
      { assert (Hno : forall l, occurrences is_import l = 0%nat ->
                  EvGbmBoImport dev ty dat us (Ok bo') ∈ l -> False).
        { clear. intros l Hz Hin. induction l as [|x l IH].
          - by apply elem_of_nil in Hin.
          - rewrite occurrences_cons in Hz.
            apply elem_of_cons in Hin as [<-|Hin]; [simpl in Hz; lia|].
            apply IH; [|exact Hin]. destruct (is_import x); simpl in Hz; lia. }
        apply elem_of_cons in Hin as [Hin|Hin]; [discriminate Hin|].
        apply elem_of_cons in Hin as [Hin|Hin]; [unfold call in Hin; congruence|].
        exfalso.
        apply elem_of_app in Hin as [Hin|Hin]; [exact (Hno _ Q5 Hin)|].
        apply elem_of_cons in Hin as [Hin|Hin]; [discriminate Hin|].
        apply elem_of_app in Hin as [Hin|Hin]; [exact (Hno _ D11 Hin)|].
        apply elem_of_cons in Hin as [Hin|Hin]; [discriminate Hin|].
        apply elem_of_cons in Hin as [Hin|Hin]; [discriminate Hin|].
        by apply elem_of_nil in Hin. }
      repeat split; try reflexivity.
      * exists (EvClientRef (cb_id cb) :: call (Ok bo) ::
                evs ++ EvGbmBoSetUserData bo this :: dereg), [], [].
        simpl. by rewrite <- !app_assoc.
      * apply last_Some.
        exists (call (Ok bo) :: evs ++ EvGbmBoSetUserData bo this ::
                dereg ++ [EvClientUnref (cb_id cb)]).
        simpl. rewrite <- app_assoc. simpl. by rewrite <- app_assoc.
  - unfold DrmGbmBuffer.initialize. simpl.
    match goal with
    | |- context [DrmGbmBuffer.destructor env this ?b ?w1] =>
        destruct (destructor_run env this b w1) as [e' Hd]; rewrite Hd
    end.
    eexists. split; [reflexivity|].
    unfold new_events. simpl. rewrite <- !app_assoc, drop_app_length. simpl.
    unfold release_events, deregistration_events. simpl.
    destruct (Z.pos e =? EINVAL); simpl; count_all;
      rewrite ?bool_decide_eq_true_2 by done; simpl;
      do 4 (split; [reflexivity|]); (split; [done|]);
      intros dev ty dat us bo Hin;
      repeat (apply elem_of_cons in Hin as [Hin|Hin]; [discriminate Hin|]);
      by apply elem_of_nil in Hin.
Qed.
End ScanoutLives.

(** ** Comparing buffers, and queueing them *)

(** Between [DrmGbmBuffer]s, "no mode change needed" is an equivalence: a
    buffer never needs one against itself, the answer does not depend on
    which of the two is asked, and it carries over a common third buffer.
    Against a null pointer the answer is always yes. *)
Theorem needsModeChange_equivalence (a b c : DrmGbmBuffer) :
  DrmGbmBuffer.needsModeChange a (Some (IsDrmGbmBuffer a)) = false /\
  DrmGbmBuffer.needsModeChange a (Some (IsDrmGbmBuffer b)) =
    DrmGbmBuffer.needsModeChange b (Some (IsDrmGbmBuffer a)) /\
  (DrmGbmBuffer.needsModeChange a (Some (IsDrmGbmBuffer b)) = false ->
   DrmGbmBuffer.needsModeChange b (Some (IsDrmGbmBuffer c)) = false ->
   DrmGbmBuffer.needsModeChange a (Some (IsDrmGbmBuffer c)) = false) /\
  DrmGbmBuffer.needsModeChange a None = true.
Proof.
  unfold DrmGbmBuffer.needsModeChange, DrmGbmBuffer.hasBo. simpl.
  destruct (m_bo (gbm a)), (m_bo (gbm b)), (m_bo (gbm c)); simpl; done.
Qed.

Section Queueing.
Context (env : Env).
Context (DrmDumbBuffer_destructor : addr -> DrmBuffer -> M unit).

(** Queueing the buffer that is already queued changes nothing: the slot,
    every reference count and the world are as before, and nothing is
    destroyed even when the slot holds the only reference. *)
Theorem setNext_same_buffer_is_noop (c : DrmCrtc) (st : gmap positive Shared)
    (w : World) (p : addr) (o : Shared) :
  m_nextBuffer c = Some p -> st !! p = Some o ->
  DrmCrtc.setNext env DrmDumbBuffer_destructor c (Some p) st w = Some ((c, st), w).
Proof.
  intros Hnext Hp.
  unfold DrmCrtc.setNext, QSharedPointer.assign, QSharedPointer.ref,
    QSharedPointer.deref.
  rewrite Hnext, Hp. run. rewrite lookup_insert_eq. simpl.
  rewrite decide_False by (apply Pos.succ_not_1).
  rewrite Pos.pred_succ, insert_insert_eq. run.
  rewrite insert_id by (rewrite Hp; by destruct o).
  destruct c. simpl in Hnext. by rewrite Hnext.
Qed.

(** Two buffers queued one after the other on an empty slot, with no flip
    in between: the second one ends up queued with one more reference; the
    first one is back to the references it had and is not destroyed; no
    other shared object changes and the outside world is not called. *)
Theorem setNext_twice_keeps_last (c : DrmCrtc) (st : gmap positive Shared)
    (w : World) (n1 n2 : addr) (o1 o2 : Shared) :
  m_nextBuffer c = None -> st !! n1 = Some o1 -> st !! n2 = Some o2 -> n1 <> n2 ->
  exists c1 st1 c2 st2,
    DrmCrtc.setNext env DrmDumbBuffer_destructor c (Some n1) st w = Some ((c1, st1), w) /\
    DrmCrtc.setNext env DrmDumbBuffer_destructor c1 (Some n2) st1 w = Some ((c2, st2), w) /\
    m_nextBuffer c1 = Some n1 /\
    st1 !! n1 = Some {| pointee := pointee o1; strongref := Pos.succ (strongref o1) |} /\
    m_nextBuffer c2 = Some n2 /\ m_currentBuffer c2 = m_currentBuffer c /\
    st2 !! n1 = Some o1 /\
    st2 !! n2 = Some {| pointee := pointee o2; strongref := Pos.succ (strongref o2) |} /\
    (forall a, a <> n1 -> a <> n2 -> st2 !! a = st !! a).
Proof.
  intros Hnext H1 H2 Hne.
  unfold DrmCrtc.setNext, QSharedPointer.assign, QSharedPointer.ref,
    QSharedPointer.deref.
  rewrite Hnext, H1. run.
  eexists _, _, _, _. split; [reflexivity|]. simpl.
  rewrite lookup_insert_ne by done. rewrite H2. run.
  rewrite lookup_insert_ne by done. rewrite lookup_insert_eq. simpl.
  rewrite decide_False by (apply Pos.succ_not_1). run.
  split; [reflexivity|]. simpl.
  do 4 (split; [done|]).
  split; [rewrite lookup_insert_eq, Pos.pred_succ; by destruct o1|].
  split; [rewrite lookup_insert_ne by done; by rewrite lookup_insert_eq|].
  intros a Ha1 Ha2. by rewrite !lookup_insert_ne.
Qed.
End Queueing.

(** * Properties of the deform effect *)

Ltac drun :=
  repeat (unfold Deform.bind, Deform.ret, Deform.emit, Deform.fresh, Deform.moment,
            Deform.tick, Deform.failed, Deform.connect, Deform.disconnect,
            Deform.new_GLTexture, Deform.new_GLFramebuffer, Deform.delete_GLTexture,
            Deform.delete_GLFramebuffer, Deform.delete_data in *; simpl in *).

Section DeformRender.
Context (E : Deform.Env).

Lemma deform_new_events_app (w : Deform.World E) (evs : list (Deform.Event E))
    (n : positive) (t : nat) :
  DeformTrace.new_events w
    {| Deform.trace := Deform.trace w ++ evs; Deform.next_name := n; Deform.now := t |} = evs.
Proof. unfold DeformTrace.new_events. simpl. apply drop_app_length. Qed.


(** What one call of [maybeRender] does, by the two questions it asks:
    is the texture out of date, and is the content dirty. *)
Lemma maybeRender_run (window : positive) (data : Deform.DeformOffscreenData)
    (w : Deform.World E) :
  let t := Deform.now w in
  let n := Deform.next_name w in
  Deform.maybeRender E window data w =
    if DeformTrace.stale E t window data then
      Some ((Some n,
             {| Deform.texture := Some n; Deform.fbo := Some (Pos.succ n);
                Deform.isDirty := false; Deform.shader := Deform.shader data |}),
            {| Deform.trace := Deform.trace w ++
                 [Deform.NewTexture n GL_RGBA8 (Deform.wanted_size E t window)] ++
                 match Deform.texture data with
                 | Some o => [Deform.DeleteTexture o]
                 | None => []
                 end ++
                 [Deform.SetFilter n Deform.GL_LINEAR;
                  Deform.SetWrapMode n Deform.GL_CLAMP_TO_EDGE;
                  Deform.NewFramebuffer (Pos.succ n) n] ++
                 match Deform.fbo data with
                 | Some o => [Deform.DeleteFramebuffer o]
                 | None => []
                 end ++
                 [Deform.PushFramebuffer (Some (Pos.succ n)); Deform.GlClearColor;
                  Deform.GlClear Deform.GL_COLOR_BUFFER_BIT;
                  DeformTrace.offscreen_draw E t window; Deform.PopFramebuffer];
               Deform.next_name := Pos.succ (Pos.succ n); Deform.now := t |})
    else if Deform.isDirty data then
      Some ((Deform.texture data, Deform.set_isDirty false data),
            {| Deform.trace := Deform.trace w ++
                 [Deform.PushFramebuffer (Deform.fbo data); Deform.GlClearColor;
                  Deform.GlClear Deform.GL_COLOR_BUFFER_BIT;
                  DeformTrace.offscreen_draw E t window; Deform.PopFramebuffer];
               Deform.next_name := n; Deform.now := t |})
    else Some ((Deform.texture data, data), w).
Proof.
  simpl. unfold Deform.maybeRender, DeformTrace.stale, DeformTrace.offscreen_draw.
  destruct w as [tr n t]. destruct data as [tex f dirty sh]. drun.
  destruct tex as [tex|]; drun.
  - destruct (Deform.qsize_differs _ _); drun.
    + destruct f as [f|]; drun; by rewrite <- !app_assoc.
    + destruct dirty; drun; [|reflexivity]. by rewrite <- !app_assoc.
  - destruct f as [f|]; drun; by rewrite <- !app_assoc.
Qed.

Lemma deform_count_app (f : Deform.Event E -> bool) (l1 l2 : list (Deform.Event E)) :
  DeformTrace.count f (l1 ++ l2) = (DeformTrace.count f l1 + DeformTrace.count f l2)%nat.
Proof. unfold DeformTrace.count. by rewrite filter_app, length_app. Qed.

Lemma deform_count_cons (f : Deform.Event E -> bool) (ev : Deform.Event E)
    (l : list (Deform.Event E)) :
  DeformTrace.count f (ev :: l) = ((if f ev then 1 else 0) + DeformTrace.count f l)%nat.
Proof.
  unfold DeformTrace.count. rewrite filter_cons. destruct (f ev); reflexivity.
Qed.

Lemma deform_count_nil (f : Deform.Event E -> bool) : DeformTrace.count f [] = 0%nat.
Proof. reflexivity. Qed.


(** A second [maybeRender] right after the first does nothing and hands out
    the same texture, provided the texture reports the size the window
    wants. *)
Theorem maybeRender_twice (window : positive) (data data' : Deform.DeformOffscreenData)
    (r : option positive) (w w' : Deform.World E) :
  Deform.maybeRender E window data w = Some ((r, data'), w') ->
  DeformTrace.stale E (Deform.now w') window data' = false ->
  Deform.maybeRender E window data' w' = Some ((r, data'), w').
Proof.
  rewrite !maybeRender_run. intros Hfirst Hfresh. rewrite Hfresh.
  destruct (DeformTrace.stale E (Deform.now w) window data).
  - injection Hfirst as <- <- <-. reflexivity.
  - destruct (Deform.isDirty data) eqn:Hd.
    + injection Hfirst as <- <- <-. reflexivity.
    + injection Hfirst as <- <- <-. by rewrite Hd.
Qed.
End DeformRender.

Section DeformPaint.
Context (E : Deform.Env).

Lemma paint_run (window tex : positive) (region : Deform.Region E)
    (data : Deform.WindowPaintData E) (quads : list Deform.WindowQuad)
    (offscreenShader : option positive) (w : Deform.World E) :
  Deform.paint E window tex region data quads offscreenShader w =
    Some (tt, {| Deform.trace := Deform.trace w ++
                   DeformTrace.paint_events E (Deform.now w) window tex region data
                     quads offscreenShader;
                 Deform.next_name := Deform.next_name w;
                 Deform.now := Deform.now w |}).
Proof.
  destruct w as [tr n t].
  cbv [Deform.paint Deform.bind Deform.emit Deform.ret Deform.moment Deform.trace
       Deform.next_name Deform.now DeformTrace.paint_events].
  destruct (Deform.differs E region (Deform.infiniteRegion E));
    cbv beta iota; rewrite <- !app_assoc; reflexivity.
Qed.

(** [paint] issues exactly one draw call.  The draw takes 4 vertices per
    quad when the vertex buffer supports indexed quads and 6 otherwise, out
    of a mapping of that many vertices; it happens with the texture bound,
    blending enabled, and the scissor test enabled when the region is not
    the infinite one.  Afterwards blending is disabled, and so is the
    scissor test if the call clipped, whatever they were before: [paint]
    does not restore them.  It makes no name and takes no time. *)
Theorem paint_draws_once_and_tidies_up (window tex : positive) (region : Deform.Region E)
    (data : Deform.WindowPaintData E) (quads : list Deform.WindowQuad)
    (offscreenShader : option positive) (w : Deform.World E) (caps : gset Z) :
  let t := Deform.now w in
  let clipping := Deform.differs E region (Deform.infiniteRegion E) in
  let per := if Deform.supportsIndexedQuads E t then 4 else 6 in
  let s := match offscreenShader with
           | Some s => s
           | None => Deform.stock_shader E t
           end in
  exists w' before after,
    Deform.paint E window tex region data quads offscreenShader w = Some (tt, w') /\
    Deform.next_name w' = Deform.next_name w /\ Deform.now w' = t /\
    DeformTrace.new_events w w' =
      before ++
      Deform.VboDraw
        (if clipping then Deform.mapToRenderTarget E t region else Deform.infiniteRegion E)
        (if Deform.supportsIndexedQuads E t then Deform.GL_QUADS else Deform.GL_TRIANGLES)
        0 (per * Z.of_nat (length quads)) clipping :: after /\
    DeformTrace.count DeformTrace.is_vbo_draw (DeformTrace.new_events w w') = 1%nat /\
    Deform.VboMap (per * Z.of_nat (length quads) * Deform.sizeof_GLVertex2D E) ∈ before /\
    head before = Some (Deform.ShaderBinderEnter s) /\
    last before = Some (Deform.TextureBind tex) /\
    head after = Some (Deform.TextureUnbind tex) /\
    last after = Some (Deform.ShaderBinderLeave s) /\
    Deform.GL_BLEND ∈ DeformTrace.gl_caps caps before /\
    (clipping = true -> Deform.GL_SCISSOR_TEST ∈ DeformTrace.gl_caps caps before) /\
    DeformTrace.gl_caps caps (DeformTrace.new_events w w') =
      (caps ∖ {[Deform.GL_BLEND]}) ∖
        (if clipping then {[Deform.GL_SCISSOR_TEST]} else ∅).
Proof.
  cbv zeta. rewrite paint_run. unfold DeformTrace.paint_events.
  destruct (Deform.differs E region (Deform.infiniteRegion E)).
  - eexists _, [_; _; _; _; _; _; _; _; _; _; _; _; _; _; _; _], [_; _; _; _; _].
    split; [reflexivity|]. do 2 (split; [reflexivity|]).
    rewrite deform_new_events_app.
    split; [reflexivity|]. split; [reflexivity|].
    split; [do 3 apply list_elem_of_further; apply list_elem_of_here|].
    do 4 (split; [reflexivity|]).
    unfold DeformTrace.gl_caps, Deform.GL_BLEND, Deform.GL_SCISSOR_TEST.
    cbn [foldl app DeformTrace.gl_step].
    split; [set_unfold; tauto|]. split; [set_unfold; tauto|].
    apply set_eq. intros x. set_unfold. intuition congruence.
  - eexists _, [_; _; _; _; _; _; _; _; _; _; _; _; _; _; _], [_; _; _; _].
    split; [reflexivity|]. do 2 (split; [reflexivity|]).
    rewrite deform_new_events_app.
    split; [reflexivity|]. split; [reflexivity|].
    split; [do 3 apply list_elem_of_further; apply list_elem_of_here|].
    do 4 (split; [reflexivity|]).
    unfold DeformTrace.gl_caps, Deform.GL_BLEND, Deform.GL_SCISSOR_TEST.
    cbn [foldl app DeformTrace.gl_step].
    split; [set_unfold; tauto|]. split; [discriminate|].
    apply set_eq. intros x. set_unfold. intuition congruence.
Qed.
End DeformPaint.

Section DeformDraw.
Context (E : Deform.Env).

Lemma paint_events_counts (t : nat) (window tex : positive) (region : Deform.Region E)
    (data : Deform.WindowPaintData E) (quads : list Deform.WindowQuad)
    (sh : option positive) :
  let evs := DeformTrace.paint_events E t window tex region data quads sh in
  DeformTrace.count DeformTrace.is_vbo_draw evs = 1%nat /\
  DeformTrace.count DeformTrace.is_window_draw evs = 0%nat /\
  DeformTrace.count DeformTrace.is_new_texture evs = 0%nat /\
  (forall x, DeformTrace.count (DeformTrace.makes_texture x) evs = 0%nat /\
             DeformTrace.count (DeformTrace.deletes_texture x) evs = 0%nat /\
             DeformTrace.count (DeformTrace.makes_framebuffer x) evs = 0%nat /\
             DeformTrace.count (DeformTrace.deletes_framebuffer x) evs = 0%nat /\
             DeformTrace.count (DeformTrace.opens x) evs = 0%nat /\
             DeformTrace.count (DeformTrace.closes x) evs = 0%nat).
Proof.
  unfold DeformTrace.paint_events.
  destruct (Deform.differs E region (Deform.infiniteRegion E)); cbv zeta;
    repeat split; reflexivity.
Qed.



End DeformDraw.

(** * The deform effect over a sequence of calls *)

Section DeformCalls.
Context (E : Deform.Env).

Lemma value_Some (d : Deform.DeformEffectPrivate) (window : positive)
    (x : Deform.DeformOffscreenData) :
  Deform.value d window = Some x <-> Deform.windows d !! window = Some (Some x).
Proof.
  unfold Deform.value. destruct (Deform.windows d !! window) as [[y|]|]; simpl;
    split; congruence.
Qed.

Lemma value_insert (d : Deform.DeformEffectPrivate) (window : positive)
    (v : option Deform.DeformOffscreenData) :
  Deform.value (Deform.set_windows (<[window := v]> (Deform.windows d)) d) window = v.
Proof. unfold Deform.value. simpl. by rewrite lookup_insert_eq. Qed.

(** [redirect] on a window that has an entry. *)
Lemma redirect_again (d : Deform.DeformEffectPrivate) (window : positive)
    (x : Deform.DeformOffscreenData) (w : Deform.World E) :
  Deform.value d window = Some x -> Deform.redirect E d window w = Some (d, w).
Proof.
  intros Hv. unfold Deform.redirect.
  apply value_Some in Hv as Hl. rewrite Hl. by rewrite Hv.
Qed.

(** [redirect] on a window that has none, or a null one. *)
Lemma redirect_run (d : Deform.DeformEffectPrivate) (window : positive)
    (w : Deform.World E) :
  Deform.value d window = None ->
  let ws := <[window := Some Deform.new_data]> (Deform.windows d) in
  let n := Deform.next_name w in
  let t := Deform.now w in
  let first := bool_decide (size ws = 1%nat) in
  let connects :=
    if first then
      if Deform.live d
      then [Deform.Connect Deform.windowDamaged n;
            Deform.Connect Deform.windowDeleted (Pos.succ n)]
      else [Deform.Connect Deform.windowDeleted n]
    else [] in
  let n1 := if first then if Deform.live d then Pos.succ (Pos.succ n) else Pos.succ n
            else n in
  let damaged := if first && Deform.live d then Some n
                 else Deform.windowDamagedConnection d in
  let deleted := if first then Some (if Deform.live d then Pos.succ n else n)
                 else Deform.windowDeletedConnection d in
  Deform.redirect E d window w =
    if Deform.live d then
      Some ({| Deform.windows := ws; Deform.windowDamagedConnection := damaged;
               Deform.windowDeletedConnection := deleted; Deform.live := true |},
            {| Deform.trace := Deform.trace w ++ connects;
               Deform.next_name := n1; Deform.now := t |})
    else
      Some ({| Deform.windows :=
                 <[window := Some {| Deform.texture := Some n1;
                                     Deform.fbo := Some (Pos.succ n1);
                                     Deform.isDirty := false;
                                     Deform.shader := None |}]> (Deform.windows d);
               Deform.windowDamagedConnection := damaged;
               Deform.windowDeletedConnection := deleted; Deform.live := false |},
            {| Deform.trace := Deform.trace w ++ connects ++
                 [Deform.MakeOpenGLContextCurrent;
                  Deform.NewTexture n1 GL_RGBA8 (Deform.wanted_size E t window);
                  Deform.SetFilter n1 Deform.GL_LINEAR;
                  Deform.SetWrapMode n1 Deform.GL_CLAMP_TO_EDGE;
                  Deform.NewFramebuffer (Pos.succ n1) n1;
                  Deform.PushFramebuffer (Some (Pos.succ n1)); Deform.GlClearColor;
                  Deform.GlClear Deform.GL_COLOR_BUFFER_BIT;
                  DeformTrace.offscreen_draw E t window; Deform.PopFramebuffer];
               Deform.next_name := Pos.succ (Pos.succ n1); Deform.now := t |}).
Proof.
  intros Hv. cbv zeta. unfold Deform.redirect.
  assert (Hv' : Deform.value
            match Deform.windows d !! window with
            | Some _ => d
            | None => Deform.set_windows (<[window:=None]> (Deform.windows d)) d
            end window = None).
  { destruct (Deform.windows d !! window) eqn:Hl; [done|apply value_insert]. }
  rewrite Hv'.
  assert (Hws : <[window:=Some Deform.new_data]>
            (Deform.windows match Deform.windows d !! window with
                            | Some _ => d
                            | None => Deform.set_windows
                                        (<[window:=None]> (Deform.windows d)) d
                            end) =
          <[window:=Some Deform.new_data]> (Deform.windows d)).
  { destruct (Deform.windows d !! window) eqn:Hl; [done|]. simpl.
    by rewrite insert_insert_eq. }
  set (d0 := Deform.set_windows _ _).
  assert (Hd0 : d0 = Deform.set_windows
                       (<[window:=Some Deform.new_data]> (Deform.windows d)) d).
  { unfold d0. rewrite Hws. unfold Deform.set_windows.
    by destruct (Deform.windows d !! window). }
  clearbody d0. subst d0. clear Hv' Hws.
  destruct w as [tr n t]. destruct d as [ws cd cx lv].
  unfold Deform.setupConnections. simpl.
  case_decide as Hsize.
  - rewrite bool_decide_eq_true_2 by done.
    destruct lv; drun.
    + by rewrite <- !app_assoc.
    + unfold DeformTrace.offscreen_draw, Deform.set_windows,
        Deform.set_windowDeletedConnection, Deform.set_isDirty. simpl.
      rewrite insert_insert_eq. by rewrite <- !app_assoc.
  - rewrite bool_decide_eq_false_2 by done.
    destruct lv; drun.
    + by rewrite app_nil_r.
    + unfold DeformTrace.offscreen_draw, Deform.set_windows,
        Deform.set_windowDeletedConnection, Deform.set_isDirty. simpl.
      rewrite insert_insert_eq. by rewrite <- !app_assoc.
Qed.

(** [unredirect], whatever the window. *)
Lemma unredirect_run (d : Deform.DeformEffectPrivate) (window : positive)
    (w : Deform.World E) :
  let ws := delete window (Deform.windows d) in
  Deform.unredirect E d window w =
    Some (if decide (ws = ∅) then
            {| Deform.windows := ws; Deform.windowDamagedConnection := None;
               Deform.windowDeletedConnection := None; Deform.live := Deform.live d |}
          else Deform.set_windows ws d,
          {| Deform.trace := Deform.trace w ++
               DeformLife.delete_events (Deform.value d window) ++
               (if decide (ws = ∅) then
                  [Deform.Disconnect (Deform.windowDamagedConnection d);
                   Deform.Disconnect (Deform.windowDeletedConnection d)]
                else []);
             Deform.next_name := Deform.next_name w; Deform.now := Deform.now w |}).
Proof.
  cbv zeta. unfold Deform.unredirect, DeformLife.delete_events.
  destruct w as [tr n t]. destruct d as [ws cd cx lv]. simpl.
  destruct (Deform.value _ window) as [[tex f dirty sh]|]; simpl.
  - destruct f as [f|], tex as [tex|]; drun; case_decide;
      unfold Deform.destroyConnections; drun;
      by rewrite <- ?app_assoc, ?app_nil_r.
  - drun. case_decide; unfold Deform.destroyConnections; drun;
      by rewrite <- ?app_assoc, ?app_nil_r.
Qed.
End DeformCalls.

Section DeformAccounts.
Context (E : Deform.Env).

Lemma occ_app (x : positive) (l1 l2 : list positive) :
  DeformLife.occ x (l1 ++ l2) = (DeformLife.occ x l1 + DeformLife.occ x l2)%nat.
Proof. unfold DeformLife.occ. by rewrite filter_app, length_app. Qed.

Lemma occ_perm (x : positive) (l1 l2 : list positive) :
  l1 ≡ₚ l2 -> DeformLife.occ x l1 = DeformLife.occ x l2.
Proof. intros H. unfold DeformLife.occ. by rewrite H. Qed.

Lemma occ_nil (x : positive) : DeformLife.occ x [] = 0%nat.
Proof. reflexivity. Qed.

Lemma occ_cons (x y : positive) (l : list positive) :
  DeformLife.occ x (y :: l) =
    ((if decide (y = x) then 1 else 0) + DeformLife.occ x l)%nat.
Proof. unfold DeformLife.occ. rewrite filter_cons. by case_decide. Qed.

Lemma occ_option_list (x : positive) (o : option positive) :
  DeformLife.occ x (option_list o) =
    match o with Some y => if decide (y = x) then 1%nat else 0%nat | None => 0%nat end.
Proof.
  destruct o as [y|]; [|reflexivity]. unfold DeformLife.occ. simpl.
  rewrite filter_cons. by case_decide.
Qed.

Lemma accounts_nil (n : positive) (h : DeformLife.Kind -> list positive) :
  DeformLife.accounts (E:=E) [] n n h h.
Proof.
  split; [lia|]. intros k x. rewrite !deform_count_nil. split; [lia|split; [lia|done]].
Qed.

Lemma accounts_app (e1 e2 : list (Deform.Event E)) (n n' n'' : positive)
    (a b c : DeformLife.Kind -> list positive) :
  DeformLife.accounts e1 n n' a b -> DeformLife.accounts e2 n' n'' b c ->
  DeformLife.accounts (e1 ++ e2) n n'' a c.
Proof.
  intros [Hn1 H1] [Hn2 H2]. split; [lia|]. intros k x.
  destruct (H1 k x) as (A1 & B1 & C1). destruct (H2 k x) as (A2 & B2 & C2).
  rewrite !deform_count_app. split; [lia|].
  destruct (decide (DeformTrace.count (DeformLife.made k x) e1 = 0%nat)) as [Z1|Z1];
    destruct (decide (DeformTrace.count (DeformLife.made k x) e2 = 0%nat)) as [Z2|Z2].
  - split; [lia|]. intros; lia.
  - split; [lia|]. intros _. specialize (C2 Z2). lia.
  - split; [lia|]. intros _. specialize (C1 Z1). lia.
  - specialize (C1 Z1). specialize (C2 Z2). lia.
Qed.

Lemma accounts_proper (evs : list (Deform.Event E)) (n n' : positive)
    (a a' b b' : DeformLife.Kind -> list positive) :
  (forall k, a k ≡ₚ a' k) -> (forall k, b k ≡ₚ b' k) ->
  DeformLife.accounts evs n n' a b -> DeformLife.accounts evs n n' a' b'.
Proof.
  intros Ha Hb [Hn H]. split; [done|]. intros k x.
  rewrite <- (occ_perm x _ _ (Ha k)), <- (occ_perm x _ _ (Hb k)). apply H.
Qed.

Lemma accounts_frame (evs : list (Deform.Event E)) (n n' : positive)
    (a b f : DeformLife.Kind -> list positive) :
  DeformLife.accounts evs n n' a b ->
  DeformLife.accounts evs n n' (fun k => a k ++ f k) (fun k => b k ++ f k).
Proof.
  intros [Hn H]. split; [done|]. intros k x. rewrite !occ_app.
  destruct (H k x) as (A & B & C). split; [lia|]. done.
Qed.

Lemma balanced_step (d d' : Deform.DeformEffectPrivate) (w : Deform.World E)
    (evs : list (Deform.Event E)) (n' : positive) (t' : nat) :
  DeformLife.balanced d w ->
  DeformLife.accounts evs (Deform.next_name w) n'
    (fun k => DeformLife.held k d) (fun k => DeformLife.held k d') ->
  DeformLife.balanced d'
    {| Deform.trace := Deform.trace w ++ evs; Deform.next_name := n'; Deform.now := t' |}.
Proof.
  intros Hb [Hn Ha] k x. simpl. rewrite !deform_count_app.
  destruct (Hb k x) as (A1 & B1 & C1). destruct (Ha k x) as (A2 & B2 & C2).
  split; [lia|].
  destruct (decide (DeformTrace.count (DeformLife.made k x) evs = 0%nat)) as [Z|Z].
  - split; [lia|]. intros Hx. rewrite C1 by lia. lia.
  - specialize (C2 Z). rewrite C1 by lia. split; [lia|]. intros; lia.
Qed.

(** The holdings of the effect, with those of one window set apart. *)
Lemma held_split (k : DeformLife.Kind) (d : Deform.DeformEffectPrivate)
    (window : positive) :
  DeformLife.held k d ≡ₚ
    DeformLife.holds k (Deform.value d window) ++
    DeformLife.held k (Deform.set_windows (delete window (Deform.windows d)) d).
Proof.
  unfold DeformLife.held, Deform.value. simpl.
  destruct (Deform.windows d !! window) as [v|] eqn:Hl.
  - rewrite <- (map_to_list_delete _ _ _ Hl). simpl. by rewrite <- app_assoc.
  - rewrite delete_id by done. simpl. done.
Qed.

Lemma held_insert (k : DeformLife.Kind) (d : Deform.DeformEffectPrivate)
    (window : positive) (v : option Deform.DeformOffscreenData) :
  DeformLife.held k (Deform.set_windows (<[window := v]> (Deform.windows d)) d) ≡ₚ
    DeformLife.holds k v ++
    DeformLife.held k (Deform.set_windows (delete window (Deform.windows d)) d).
Proof.
  unfold DeformLife.held. simpl.
  rewrite <- insert_delete_eq.
  rewrite map_to_list_insert by apply lookup_delete_eq. simpl.
  by rewrite <- app_assoc.
Qed.
End DeformAccounts.

(** Settle an accounting of a list of events that is written out. *)
Ltac account :=
  split; [simpl; lia|];
  let k := fresh "k" in
  let x := fresh "x" in
  intros k x; destruct k;
  unfold DeformTrace.offscreen_draw; simpl;
  repeat (rewrite deform_count_app || rewrite deform_count_cons
          || rewrite deform_count_nil || rewrite occ_app || rewrite occ_cons
          || rewrite occ_nil || rewrite occ_option_list);
  simpl;
  repeat case_bool_decide; repeat case_decide; subst; simpl;
  (split; [|split]); first [lia | done | intros; lia].

Section DeformSteps.
Context (E : Deform.Env).

Lemma maybeRender_accounts (window : positive) (old : Deform.DeformOffscreenData)
    (w : Deform.World E) :
  exists entry tex evs n',
    Deform.maybeRender E window old w =
      Some ((Some tex, entry),
            {| Deform.trace := Deform.trace w ++ evs; Deform.next_name := n';
               Deform.now := Deform.now w |}) /\
    Deform.texture entry = Some tex /\
    Deform.shader entry = Deform.shader old /\
    DeformLife.accounts evs (Deform.next_name w) n'
      (fun k => DeformLife.holds k (Some old)) (fun k => DeformLife.holds k (Some entry)) /\
    Deform.isDirty entry = false /\
    filter (fun ev => DeformTrace.is_shader_bind ev) evs = [] /\
    DeformTrace.count DeformTrace.is_vbo_draw evs = 0%nat /\
    DeformTrace.count DeformTrace.is_window_draw evs =
      (if DeformTrace.stale E (Deform.now w) window old || Deform.isDirty old
       then 1%nat else 0%nat) /\
    (DeformTrace.stale E (Deform.now w) window old || Deform.isDirty old = true ->
     DeformTrace.offscreen_draw E (Deform.now w) window ∈ evs).
Proof.
  rewrite maybeRender_run.
  destruct (DeformTrace.stale E (Deform.now w) window old) eqn:Hs.
  - eexists _, _, _, _. split; [reflexivity|]. do 2 (split; [reflexivity|]).
    simpl. destruct (Deform.texture old), (Deform.fbo old);
      (split; [account|]); (do 4 (split; [reflexivity|])); intros _; simpl;
      rewrite !elem_of_cons; tauto.
  - unfold DeformTrace.stale in Hs.
    destruct (Deform.texture old) as [tex|] eqn:Ht; [|discriminate].
    destruct (Deform.isDirty old) eqn:Hd.
    + eexists _, _, _, _. split; [reflexivity|]. do 2 (split; [done|]).
      simpl. rewrite Ht. split; [account|]. do 4 (split; [reflexivity|]).
      intros _. rewrite !elem_of_cons; tauto.
    + exists old, tex, [], (Deform.next_name w).
      split; [destruct w; simpl; by rewrite app_nil_r|]. do 2 (split; [done|]).
      split; [apply accounts_nil|]. do 4 (split; [done|]). discriminate.
Qed.

Lemma accounts_held (evs : list (Deform.Event E)) (n n' : positive)
    (d d' : Deform.DeformEffectPrivate) (a b f : DeformLife.Kind -> list positive) :
  DeformLife.accounts evs n n' a b ->
  (forall k, DeformLife.held k d ≡ₚ a k ++ f k) ->
  (forall k, DeformLife.held k d' ≡ₚ b k ++ f k) ->
  DeformLife.accounts evs n n'
    (fun k => DeformLife.held k d) (fun k => DeformLife.held k d').
Proof.
  intros Ha Hd Hd'. apply (accounts_frame E evs n n' a b f) in Ha.
  eapply accounts_proper; [| |exact Ha]; intros k; simpl; by symmetry.
Qed.

(** Replacing the entry of a redirected window by another one. *)
Lemma update_entry_consistent (d : Deform.DeformEffectPrivate) (window : positive)
    (old entry : Deform.DeformOffscreenData) :
  Deform.value d window = Some old -> DeformLife.consistent d ->
  let d' := Deform.set_windows (<[window := Some entry]> (Deform.windows d)) d in
  DeformLife.consistent d' /\ dom (Deform.windows d') = dom (Deform.windows d).
Proof.
  intros Hv (Hnull & Hdel & Hdam). apply value_Some in Hv. simpl.
  assert (Hne : Deform.windows d <> ∅).
  { intros He. rewrite He in Hv. by rewrite lookup_empty in Hv. }
  assert (Hne' : <[window := Some entry]> (Deform.windows d) <> ∅)
    by apply insert_non_empty.
  split; [split; [|split]|].
  - intros win v. simpl. destruct (decide (win = window)) as [->|Hw].
    + rewrite lookup_insert_eq. by intros [= <-].
    + rewrite lookup_insert_ne by done. apply Hnull.
  - simpl. tauto.
  - simpl. tauto.
  - rewrite dom_insert_L. apply elem_of_dom_2 in Hv.
    apply set_eq. intros y. rewrite elem_of_union, elem_of_singleton.
    split; [intros [->|]; done|by right].
Qed.

Lemma update_entry_accounts (d : Deform.DeformEffectPrivate) (window : positive)
    (old entry : Deform.DeformOffscreenData) (evs : list (Deform.Event E))
    (n n' : positive) :
  Deform.value d window = Some old ->
  DeformLife.accounts evs n n'
    (fun k => DeformLife.holds k (Some old)) (fun k => DeformLife.holds k (Some entry)) ->
  DeformLife.accounts evs n n'
    (fun k => DeformLife.held k d)
    (fun k => DeformLife.held k
                (Deform.set_windows (<[window := Some entry]> (Deform.windows d)) d)).
Proof.
  intros Hv Ha.
  eapply (accounts_held _ _ _ _ _ _ _
            (fun k => DeformLife.held k
                        (Deform.set_windows (delete window (Deform.windows d)) d)));
    [exact Ha| |].
  - intros k. rewrite <- Hv. apply held_split.
  - intros k. apply held_insert.
Qed.

Lemma paint_accounts (t : nat) (window tex : positive) (region : Deform.Region E)
    (data : Deform.WindowPaintData E) (quads : list Deform.WindowQuad)
    (sh : option positive) (n : positive) (h : DeformLife.Kind -> list positive) :
  DeformLife.accounts (DeformTrace.paint_events E t window tex region data quads sh)
    n n h h.
Proof.
  destruct (paint_events_counts E t window tex region data quads sh)
    as (_ & _ & _ & Hz).
  split; [lia|]. intros k x. destruct (Hz x) as (Z1 & Z2 & Z3 & Z4 & Z5 & Z6).
  destruct k; simpl.
  - change (DeformLife.made DeformLife.Texture x) with (DeformTrace.makes_texture (E:=E) x).
    change (DeformLife.gone DeformLife.Texture x) with (DeformTrace.deletes_texture (E:=E) x).
    rewrite Z1, Z2. split; [lia|split; [lia|done]].
  - change (DeformLife.made DeformLife.Framebuffer x)
      with (DeformTrace.makes_framebuffer (E:=E) x).
    change (DeformLife.gone DeformLife.Framebuffer x)
      with (DeformTrace.deletes_framebuffer (E:=E) x).
    rewrite Z3, Z4. split; [lia|split; [lia|done]].
  - change (DeformLife.made DeformLife.Connection x) with (DeformTrace.opens (E:=E) x).
    change (DeformLife.gone DeformLife.Connection x) with (DeformTrace.closes (E:=E) x).
    rewrite Z5, Z6. split; [lia|split; [lia|done]].
Qed.

(** [drawWindow] on a redirected window, by what [maybeRender] did. *)
Lemma drawWindow_run (d : Deform.DeformEffectPrivate) (window : positive) (mask : Z)
    (region : Deform.Region E) (data : Deform.WindowPaintData E) (w w1 : Deform.World E)
    (old entry : Deform.DeformOffscreenData) (tex : positive) :
  Deform.value d window = Some old ->
  Deform.maybeRender E window old w = Some ((Some tex, entry), w1) ->
  let deformed :=
    Deform.deform E window mask data
      [Deform.visible_quad (Deform.expandedGeometry E (Deform.now w) window)
         (Deform.frameGeometry E (Deform.now w) window)] in
  Deform.drawWindow E d window mask region data w =
    Some ((Deform.set_windows (<[window := Some entry]> (Deform.windows d)) d,
           deformed.1),
          {| Deform.trace := Deform.trace w1 ++
               DeformTrace.paint_events E (Deform.now w1) window tex region
                 deformed.1 deformed.2 (Deform.shader entry);
             Deform.next_name := Deform.next_name w1; Deform.now := Deform.now w1 |}).
Proof.
  intros Hv Hr. cbv zeta. unfold Deform.drawWindow. rewrite Hv.
  unfold Deform.bind at 1. unfold Deform.moment at 1.
  unfold Deform.bind at 1. rewrite Hr. cbn [fst snd].
  unfold Deform.bind at 1. rewrite paint_run. reflexivity.
Qed.
End DeformSteps.

(** The two conditions on the connections, after an entry was put in. *)
Ltac insert_consistent :=
  simpl;
  match goal with
  | |- context [<[?win := ?v]> ?m] => pose proof (insert_non_empty m win v)
  end;
  intuition congruence.

(** Take a conjunction in the context apart. *)
Ltac destructure H :=
  repeat match type of H with
         | _ /\ _ => let H1 := fresh "H" in destruct H as [H1 H]
         end.

Section DeformCallSteps.
Context (E : Deform.Env).

Lemma consistent_lookup (d : Deform.DeformEffectPrivate) (window : positive) :
  DeformLife.consistent d -> Deform.value d window = None ->
  Deform.windows d !! window = None.
Proof.
  intros (Hnull & _) Hv. unfold Deform.value in Hv.
  destruct (Deform.windows d !! window) as [[x|]|] eqn:Hl; [done| |done].
  by destruct (Hnull _ _ Hl).
Qed.

Lemma redirect_step (d : Deform.DeformEffectPrivate) (window : positive)
    (w : Deform.World E) :
  DeformLife.consistent d ->
  exists d' w' evs,
    Deform.redirect E d window w = Some (d', w') /\
    DeformLife.consistent d' /\
    dom (Deform.windows d') = dom (Deform.windows d) ∪ {[window]} /\
    Deform.live d' = Deform.live d /\ Deform.now w' = Deform.now w /\
    Deform.trace w' = Deform.trace w ++ evs /\
    DeformLife.accounts evs (Deform.next_name w) (Deform.next_name w')
      (fun k => DeformLife.held k d) (fun k => DeformLife.held k d').
Proof.
  intros Hc. destruct (Deform.value d window) as [old|] eqn:Hv.
  - exists d, w, []. split; [by eapply redirect_again|]. split; [done|].
    split; [|split; [done|split; [done|split; [by rewrite app_nil_r|apply accounts_nil]]]].
    apply value_Some in Hv. apply elem_of_dom_2 in Hv.
    apply set_eq. intros y. rewrite elem_of_union, elem_of_singleton.
    split; [by left|intros [?|E0]; [done|by rewrite E0]].
  - pose proof (consistent_lookup _ _ Hc Hv) as Hl.
    rewrite redirect_run by done. cbv zeta.
    destruct Hc as (Hnull & Hdel & Hdam).
    assert (Hsize : size (<[window:=Some Deform.new_data]> (Deform.windows d)) =
                    S (size (Deform.windows d))) by (by apply map_size_insert_None).
    assert (Hne : forall v, <[window:=v]> (Deform.windows d) <> ∅)
      by (intros v; apply insert_non_empty).
    assert (Hdom : forall v, dom (<[window:=v]> (Deform.windows d)) =
                             dom (Deform.windows d) ∪ {[window]}).
    { intros v. rewrite dom_insert_L. apply set_eq. intros y.
      rewrite !elem_of_union. tauto. }
    assert (Hnull' : forall v win x,
              <[window:=Some v]> (Deform.windows d) !! win = Some x -> x <> None).
    { intros v win x. destruct (decide (win = window)) as [->|Hw].
      - rewrite lookup_insert_eq. by intros [= <-].
      - rewrite lookup_insert_ne by done. apply Hnull. }
    assert (Hheld : forall k v cd cx l,
              DeformLife.held k
                {| Deform.windows := <[window:=v]> (Deform.windows d);
                   Deform.windowDamagedConnection := cd;
                   Deform.windowDeletedConnection := cx; Deform.live := l |} ≡ₚ
              (DeformLife.holds k v ++
               match k with
               | DeformLife.Connection => option_list cd ++ option_list cx
               | _ => []
               end) ++ ((map_to_list (Deform.windows d)).*2 ≫= DeformLife.holds k)).
    { intros k v cd cx l. unfold DeformLife.held. simpl.
      rewrite map_to_list_insert by done. simpl.
      rewrite <- !app_assoc. apply Permutation_app_head, Permutation_app_comm. }
    assert (Hold : forall k,
              DeformLife.held k d ≡ₚ
              match k with
              | DeformLife.Connection =>
                  option_list (Deform.windowDamagedConnection d) ++
                  option_list (Deform.windowDeletedConnection d)
              | _ => []
              end ++ ((map_to_list (Deform.windows d)).*2 ≫= DeformLife.holds k)).
    { intros k. unfold DeformLife.held. apply Permutation_app_comm. }
    destruct (decide (Deform.windows d = ∅)) as [He|He].
    + rewrite bool_decide_eq_true_2 by (rewrite Hsize, He, map_size_empty; done).
      assert (Deform.windowDamagedConnection d = None) as Hcd.
      { destruct (Deform.windowDamagedConnection d); [|done].
        destruct (proj1 Hdam) as [Hx _]; done. }
      assert (Deform.windowDeletedConnection d = None) as Hcx.
      { destruct (Deform.windowDeletedConnection d); [|done].
        destruct (proj1 Hdel); done. }
      destruct (Deform.live d) eqn:Hlive.
      * eexists _, _, _. split; [reflexivity|]. simpl.
        split; [split; [apply Hnull'|insert_consistent]|].
        split; [apply Hdom|]. do 3 (split; [reflexivity|]).
        eapply accounts_held; [|exact Hold|intros k; apply Hheld].
        rewrite Hcd, Hcx. account.
      * eexists _, _, _. split; [reflexivity|]. simpl.
        split; [split; [apply Hnull'|insert_consistent]|].
        split; [apply Hdom|]. do 3 (split; [reflexivity|]).
        eapply accounts_held; [|exact Hold|intros k; apply Hheld].
        rewrite Hcd, Hcx. account.
    + rewrite bool_decide_eq_false_2
        by (rewrite Hsize; intros [= Hz]; by apply map_size_empty_iff in Hz).
      destruct (Deform.live d) eqn:Hlive.
      * eexists _, _, _. split; [reflexivity|]. simpl.
        split; [split; [apply Hnull'|insert_consistent]|].
        split; [apply Hdom|]. do 3 (split; [reflexivity|]).
        eapply accounts_held; [|exact Hold|intros k; apply Hheld].
        destruct (Deform.windowDamagedConnection d),
          (Deform.windowDeletedConnection d); account.
      * eexists _, _, _. split; [reflexivity|]. simpl.
        split; [split; [apply Hnull'|insert_consistent]|].
        split; [apply Hdom|]. do 3 (split; [reflexivity|]).
        eapply accounts_held; [|exact Hold|intros k; apply Hheld].
        destruct (Deform.windowDamagedConnection d),
          (Deform.windowDeletedConnection d); account.
Qed.

Lemma unredirect_step (d : Deform.DeformEffectPrivate) (window : positive)
    (w : Deform.World E) :
  DeformLife.consistent d ->
  exists d' w' evs,
    Deform.unredirect E d window w = Some (d', w') /\
    DeformLife.consistent d' /\
    dom (Deform.windows d') = dom (Deform.windows d) ∖ {[window]} /\
    Deform.live d' = Deform.live d /\ Deform.now w' = Deform.now w /\
    Deform.trace w' = Deform.trace w ++ evs /\
    DeformLife.accounts evs (Deform.next_name w) (Deform.next_name w')
      (fun k => DeformLife.held k d) (fun k => DeformLife.held k d').
Proof.
  intros (Hnull & Hdel & Hdam). rewrite unredirect_run. cbv zeta.
  assert (Hnull' : forall win x,
            delete window (Deform.windows d) !! win = Some x -> x <> None).
  { intros win x Hx. apply lookup_delete_Some in Hx as [_ Hx]. by eapply Hnull. }
  assert (Hne : delete window (Deform.windows d) <> ∅ -> Deform.windows d <> ∅).
  { intros Hx He. apply Hx. rewrite He. apply delete_empty. }
  assert (Hold : forall k,
            DeformLife.held k d ≡ₚ
            (DeformLife.holds k (Deform.value d window) ++
             match k with
             | DeformLife.Connection =>
                 option_list (Deform.windowDamagedConnection d) ++
                 option_list (Deform.windowDeletedConnection d)
             | _ => []
             end) ++
            ((map_to_list (delete window (Deform.windows d))).*2 ≫= DeformLife.holds k)).
  { intros k. rewrite (held_split k d window). unfold DeformLife.held at 1. simpl.
    rewrite <- !app_assoc. apply Permutation_app_head, Permutation_app_comm. }
  assert (Hnew : forall k cd cx l,
            DeformLife.held k
              {| Deform.windows := delete window (Deform.windows d);
                 Deform.windowDamagedConnection := cd;
                 Deform.windowDeletedConnection := cx; Deform.live := l |} ≡ₚ
            match k with
            | DeformLife.Connection => option_list cd ++ option_list cx
            | _ => []
            end ++
            ((map_to_list (delete window (Deform.windows d))).*2 ≫= DeformLife.holds k)).
  { intros k cd cx l. unfold DeformLife.held. simpl. apply Permutation_app_comm. }
  case_decide as He.
  - eexists _, _, _. split; [reflexivity|]. simpl.
    split; [split; [apply Hnull'|simpl; intuition congruence]|].
    split; [apply dom_delete_L|]. do 3 (split; [reflexivity|]).
    eapply accounts_held; [|exact Hold|intros k; apply Hnew].
    unfold DeformLife.delete_events.
    destruct (Deform.value d window) as [[tex f dirty sh]|]; simpl;
      [destruct tex, f|];
      destruct (Deform.windowDamagedConnection d),
        (Deform.windowDeletedConnection d); account.
  - eexists _, _, _. split; [reflexivity|]. simpl.
    split; [split; [apply Hnull'|simpl; intuition congruence]|].
    split; [apply dom_delete_L|]. do 3 (split; [reflexivity|]).
    eapply accounts_held; [|exact Hold|intros k; apply Hnew].
    unfold DeformLife.delete_events.
    destruct (Deform.value d window) as [[tex f dirty sh]|]; simpl;
      [destruct tex, f|];
      destruct (Deform.windowDamagedConnection d),
        (Deform.windowDeletedConnection d); account.
Qed.

Lemma drawWindow_step (d : Deform.DeformEffectPrivate) (window : positive) (mask : Z)
    (region : Deform.Region E) (data : Deform.WindowPaintData E) (w : Deform.World E) :
  DeformLife.consistent d ->
  exists d' r w' evs,
    Deform.drawWindow E d window mask region data w = Some ((d', r), w') /\
    DeformLife.consistent d' /\
    dom (Deform.windows d') = dom (Deform.windows d) /\
    Deform.live d' = Deform.live d /\ Deform.now w' = Deform.now w /\
    Deform.trace w' = Deform.trace w ++ evs /\
    DeformLife.accounts evs (Deform.next_name w) (Deform.next_name w')
      (fun k => DeformLife.held k d) (fun k => DeformLife.held k d').
Proof.
  intros Hc. destruct (Deform.value d window) as [old|] eqn:Hv.
  - destruct (maybeRender_accounts E window old w)
      as (entry & tex & evs & n' & Hr & Ht & Hs & Ha & _).
    erewrite drawWindow_run by done. simpl.
    destruct (update_entry_consistent d window old entry Hv Hc) as [Hc' Hd'].
    eexists _, _, _, _. split; [reflexivity|]. split; [exact Hc'|].
    split; [exact Hd'|]. split; [reflexivity|]. split; [reflexivity|].
    simpl. rewrite <- app_assoc. split; [reflexivity|].
    apply update_entry_accounts with old; [done|].
    eapply accounts_app; [exact Ha|apply paint_accounts].
  - unfold Deform.drawWindow. rewrite Hv. drun.
    eexists _, _, _, _. split; [reflexivity|]. split; [done|].
    do 4 (split; [reflexivity|]). simpl. account.
Qed.

Lemma handleWindowDamaged_step (d : Deform.DeformEffectPrivate) (window : positive) :
  DeformLife.consistent d ->
  let d' := Deform.handleWindowDamaged d window in
  DeformLife.consistent d' /\
  dom (Deform.windows d') = dom (Deform.windows d) /\
  Deform.live d' = Deform.live d /\
  forall k, DeformLife.held k d' ≡ₚ DeformLife.held k d.
Proof.
  intros Hc. cbv zeta. unfold Deform.handleWindowDamaged.
  destruct (Deform.value d window) as [old|] eqn:Hv; [|done].
  destruct (update_entry_consistent d window old (Deform.set_isDirty true old) Hv Hc)
    as [Hc' Hd'].
  split; [exact Hc'|]. split; [exact Hd'|]. split; [reflexivity|].
  intros k. rewrite held_insert, (held_split k d window), Hv. by destruct k.
Qed.

Lemma setShader_step (d : Deform.DeformEffectPrivate) (window : positive)
    (s : option positive) :
  DeformLife.consistent d ->
  let d' := Deform.setShader d window s in
  DeformLife.consistent d' /\
  dom (Deform.windows d') = dom (Deform.windows d) /\
  Deform.live d' = Deform.live d /\
  forall k, DeformLife.held k d' ≡ₚ DeformLife.held k d.
Proof.
  intros Hc. cbv zeta. unfold Deform.setShader.
  destruct (Deform.value d window) as [old|] eqn:Hv; [|done].
  destruct (update_entry_consistent d window old (Deform.set_shader s old) Hv Hc)
    as [Hc' Hd'].
  split; [exact Hc'|]. split; [exact Hd'|]. split; [reflexivity|].
  intros k. rewrite held_insert, (held_split k d window), Hv. by destruct k.
Qed.

Lemma accounts_same (d d' : Deform.DeformEffectPrivate) (n : positive) :
  (forall k, DeformLife.held k d' ≡ₚ DeformLife.held k d) ->
  DeformLife.accounts (E:=E) [] n n
    (fun k => DeformLife.held k d) (fun k => DeformLife.held k d').
Proof.
  intros H.
  apply (accounts_proper E [] n n
           (fun k => DeformLife.held k d) (fun k => DeformLife.held k d)
           (fun k => DeformLife.held k d) (fun k => DeformLife.held k d'));
    [done|intros k; by symmetry|apply accounts_nil].
Qed.

(** One call on a consistent effect. *)
Lemma run_call_step (d : Deform.DeformEffectPrivate) (c : DeformLife.Call E)
    (w : Deform.World E) :
  DeformLife.consistent d ->
  match DeformLife.run_call d c w with
  | Some (d', w') =>
      match c with
      | DeformLife.CallSetLive _ => Deform.windows d = ∅
      | _ => True
      end /\
      DeformLife.consistent d' /\
      dom (Deform.windows d') = DeformLife.track (dom (Deform.windows d)) c /\
      Deform.live d' = DeformLife.live_step (Deform.live d) c /\
      Deform.now w' = Deform.now w /\
      exists evs,
        Deform.trace w' = Deform.trace w ++ evs /\
        DeformLife.accounts evs (Deform.next_name w) (Deform.next_name w')
          (fun k => DeformLife.held k d) (fun k => DeformLife.held k d')
  | None => (exists v, c = DeformLife.CallSetLive v) /\ Deform.windows d <> ∅
  end.
Proof.
  intros Hc. destruct c as [v|window|window|window mask region data|window|window|window s];
    simpl.
  - unfold Deform.setLive. case_decide as He; simpl; [|by eauto].
    split; [done|]. destruct Hc as (Hnull & Hdel & Hdam).
    split; [split; [done|simpl; split; [done|]]|].
    { split; [intros Hx; apply Hdam in Hx as [Hx _]; done|intros [Hx _]; done]. }
    do 3 (split; [reflexivity|]). exists []. split; [by rewrite app_nil_r|].
    by apply accounts_same.
  - destruct (redirect_step d window w Hc) as (d' & w' & evs & -> & H).
    split; [done|]. destructure H. eauto 10.
  - destruct (unredirect_step d window w Hc) as (d' & w' & evs & -> & H).
    split; [done|]. destructure H. eauto 10.
  - destruct (drawWindow_step d window mask region data w Hc)
      as (d' & r & w' & evs & Hrun & H).
    unfold Deform.bind. rewrite Hrun. simpl.
    split; [done|]. destructure H. eauto 10.
  - destruct (handleWindowDamaged_step d window Hc) as (H1 & H2 & H3 & H4).
    split; [done|]. do 4 (split; [done|]). exists []. split; [by rewrite app_nil_r|].
    by apply accounts_same.
  - unfold Deform.handleWindowDeleted.
    destruct (unredirect_step d window w Hc) as (d' & w' & evs & -> & H).
    split; [done|]. destructure H. eauto 10.
  - destruct (setShader_step d window s Hc) as (H1 & H2 & H3 & H4).
    split; [done|]. do 4 (split; [done|]). exists []. split; [by rewrite app_nil_r|].
    by apply accounts_same.
Qed.

(** A sequence of calls on a consistent effect. *)
Lemma run_calls_sound (cs : list (DeformLife.Call E)) :
  forall (d : Deform.DeformEffectPrivate) (w : Deform.World E),
  DeformLife.consistent d ->
  match DeformLife.run_calls d cs w with
  | Some (d', w') =>
      DeformLife.well_used (dom (Deform.windows d)) cs = true /\
      DeformLife.consistent d' /\
      dom (Deform.windows d') =
        DeformLife.redirected_after (dom (Deform.windows d)) cs /\
      Deform.live d' = DeformLife.live_after (Deform.live d) cs /\
      Deform.now w' = (Deform.now w + length cs)%nat /\
      exists evs,
        Deform.trace w' = Deform.trace w ++ evs /\
        DeformLife.accounts evs (Deform.next_name w) (Deform.next_name w')
          (fun k => DeformLife.held k d) (fun k => DeformLife.held k d')
  | None => DeformLife.well_used (dom (Deform.windows d)) cs = false
  end.
Proof.
  induction cs as [|c cs IH]; intros d w Hc.
  - simpl. split; [done|]. split; [done|]. do 2 (split; [done|]).
    split; [lia|]. exists []. split; [by rewrite app_nil_r|apply accounts_nil].
  - simpl. unfold Deform.bind at 1.
    pose proof (run_call_step d c w Hc) as Hstep.
    destruct (DeformLife.run_call d c w) as [[d1 w1]|].
    + destruct Hstep as (Hok & Hc1 & Hdom1 & Hlive1 & Hnow1 & evs1 & Htr1 & Ha1).
      unfold Deform.bind at 1, Deform.tick at 1.
      set (w1' := {| Deform.trace := Deform.trace w1;
                     Deform.next_name := Deform.next_name w1;
                     Deform.now := S (Deform.now w1) |}).
      specialize (IH d1 w1' Hc1).
      assert (Hhead : match c with
                      | DeformLife.CallSetLive _ =>
                          bool_decide (dom (Deform.windows d) = ∅)
                      | _ => true
                      end = true).
      { destruct c; try done. apply bool_decide_eq_true_2.
        by apply dom_empty_iff_L. }
      rewrite Hhead. simpl. rewrite <- Hdom1, <- Hlive1.
      destruct (DeformLife.run_calls d1 cs w1') as [[d2 w2]|]; [|exact IH].
      destruct IH as (Hok2 & Hc2 & Hdom2 & Hlive2 & Hnow2 & evs2 & Htr2 & Ha2).
      split; [done|]. split; [done|]. do 2 (split; [done|]).
      split; [rewrite Hnow2; simpl; lia|].
      exists (evs1 ++ evs2). split; [by rewrite Htr2, app_assoc, <- Htr1|].
      eapply accounts_app; [exact Ha1|exact Ha2].
    + destruct Hstep as [[v ->] Hne]. simpl.
      rewrite bool_decide_eq_false_2; [done|]. by rewrite dom_empty_iff_L.
Qed.

Lemma constructor_consistent : DeformLife.consistent Deform.constructor.
Proof.
  split; [|split]; simpl.
  - intros window v. by rewrite lookup_empty.
  - split; done.
  - split; [done|]. intros [Hx _]. done.
Qed.

Lemma constructor_balanced (n : positive) (t : nat) :
  DeformLife.balanced (E:=E) Deform.constructor (DeformLife.start n t).
Proof.
  intros k x. simpl. rewrite !deform_count_nil.
  unfold DeformLife.held. simpl. rewrite map_to_list_empty. simpl.
  destruct k; simpl; repeat split; lia.
Qed.

(** What the destructor does. *)
Lemma qDeleteAll_run (vs : list (option Deform.DeformOffscreenData)) :
  forall w : Deform.World E,
  Deform.qDeleteAll E vs w =
    Some (tt, {| Deform.trace := Deform.trace w ++ (vs ≫= DeformLife.delete_events);
                 Deform.next_name := Deform.next_name w;
                 Deform.now := Deform.now w |}).
Proof.
  induction vs as [|v vs IH]; intros w.
  - simpl. unfold Deform.ret. destruct w. simpl. by rewrite app_nil_r.
  - simpl. unfold Deform.bind at 1.
    assert (Hd : Deform.delete_data E v w =
              Some (tt, {| Deform.trace := Deform.trace w ++ DeformLife.delete_events v;
                           Deform.next_name := Deform.next_name w;
                           Deform.now := Deform.now w |})).
    { unfold DeformLife.delete_events. destruct w as [tr n t].
      destruct v as [[tex f dirty sh]|]; simpl;
        [destruct f, tex|]; drun; by rewrite <- ?app_assoc, ?app_nil_r. }
    rewrite Hd, IH. simpl. by rewrite <- app_assoc.
Qed.

Lemma delete_events_counts (k : DeformLife.Kind) (x : positive)
    (vs : list (option Deform.DeformOffscreenData)) :
  DeformTrace.count (E:=E) (DeformLife.made k x) (vs ≫= DeformLife.delete_events) = 0%nat /\
  DeformTrace.count (E:=E) (DeformLife.gone k x) (vs ≫= DeformLife.delete_events) =
    DeformLife.occ x (vs ≫= DeformLife.holds k).
Proof.
  induction vs as [|v vs [IH1 IH2]]; [done|].
  rewrite !bind_cons, !deform_count_app, occ_app, IH1, IH2.
  unfold DeformLife.delete_events.
  destruct v as [[tex f dirty sh]|]; simpl; [|done].
  destruct tex, f, k; simpl;
    repeat (rewrite deform_count_cons || rewrite deform_count_nil
            || rewrite occ_cons || rewrite occ_nil);
    simpl; repeat case_bool_decide; repeat case_decide; subst; done.
Qed.
End DeformCallSteps.

Section DeformLifetime.
Context (E : Deform.Env).

Lemma no_connection_in_entries (x : positive)
    (vs : list (option Deform.DeformOffscreenData)) :
  DeformLife.occ x (vs ≫= DeformLife.holds DeformLife.Connection) = 0%nat.
Proof.
  induction vs as [|v vs IH]; [done|].
  rewrite bind_cons, occ_app, IH. by destruct v.
Qed.

(** A sequence of calls on a new effect goes wrong exactly when it calls
    [setLive] while a window is redirected, which is what [setLive] asserts
    not to happen.  Nothing else can go wrong: no member dereferences a
    null entry or a null texture. *)
Theorem setLive_is_the_only_failure (cs : list (DeformLife.Call E))
    (w : Deform.World E) :
  DeformLife.run_calls Deform.constructor cs w = None <->
  DeformLife.well_used ∅ cs = false.
Proof.
  pose proof (run_calls_sound E cs Deform.constructor w constructor_consistent) as H.
  simpl in H. rewrite dom_empty_L in H.
  destruct (DeformLife.run_calls Deform.constructor cs w) as [[d' w']|].
  - destruct H as [-> _]. split; discriminate.
  - by split.
Qed.

Lemma deform_count_ge_1 (f : Deform.Event E -> bool) (ev : Deform.Event E)
    (l : list (Deform.Event E)) :
  ev ∈ l -> f ev = true -> (1 <= DeformTrace.count f l)%nat.
Proof.
  intros Hin Hf. apply list_elem_of_split in Hin as (l1 & l2 & ->).
  rewrite deform_count_app, deform_count_cons, Hf. lia.
Qed.

Lemma deform_count_ge_2 (f : Deform.Event E -> bool) (a b : Deform.Event E)
    (l : list (Deform.Event E)) :
  a ∈ l -> b ∈ l -> a <> b -> f a = true -> f b = true ->
  (2 <= DeformTrace.count f l)%nat.
Proof.
  intros Ha Hb Hne Hfa Hfb. apply list_elem_of_split in Ha as (l1 & l2 & ->).
  rewrite deform_count_app, deform_count_cons, Hfa.
  apply elem_of_app in Hb as [Hb|Hb].
  - pose proof (deform_count_ge_1 f b l1 Hb Hfb). lia.
  - apply elem_of_cons in Hb as [Hb|Hb]; [congruence|].
    pose proof (deform_count_ge_1 f b l2 Hb Hfb). lia.
Qed.

Lemma rightly_connected_app (d : Deform.DeformEffectPrivate)
    (l1 l2 : list (Deform.Event E)) :
  DeformLife.rightly_connected d l1 -> DeformLife.rightly_connected d (l1 ++ l2).
Proof.
  intros [H1 H2]. split; intros c Hc; apply elem_of_app; left; eauto.
Qed.

(** One call keeps the connections what their members' names say. *)
Lemma run_call_rightly_connected (d d' : Deform.DeformEffectPrivate)
    (c : DeformLife.Call E) (w w' : Deform.World E) :
  DeformLife.rightly_connected d (Deform.trace w) ->
  DeformLife.run_call d c w = Some (d', w') ->
  DeformLife.rightly_connected d' (Deform.trace w').
Proof.
  intros Hr.
  assert (Hun : forall window,
            Deform.unredirect E d window w = Some (d', w') ->
            DeformLife.rightly_connected d' (Deform.trace w')).
  { intros window. rewrite unredirect_run. cbv zeta.
    case_decide; intros [= <- <-]; simpl.
    - split; simpl; discriminate.
    - by apply (rightly_connected_app d). }
  destruct c as [v|window|window|window mask region data|window|window|window s];
    simpl.
  - unfold Deform.setLive. case_decide; [|discriminate].
    intros [= <- <-]. exact Hr.
  - destruct (Deform.value d window) as [old|] eqn:Hv.
    + rewrite (redirect_again E d window old w Hv). by intros [= <- <-].
    + rewrite redirect_run by done. cbv zeta.
      destruct Hr as [H1 H2].
      destruct (Deform.live d); case_bool_decide; simpl; intros [= <- <-];
        split; simpl; intros c Hc; apply elem_of_app;
        first [ injection Hc as <-; right; rewrite !elem_of_cons; tauto
              | left; eauto ].
  - apply Hun.
  - unfold Deform.bind.
    destruct (Deform.drawWindow E d window mask region data w) as [[[d1 r] w1]|] eqn:Hd;
      [|discriminate].
    unfold Deform.ret. intros [= <- <-]. simpl.
    destruct (Deform.value d window) as [old|] eqn:Hv.
    + destruct (maybeRender_accounts E window old w)
        as (entry & tex & evs & n' & Hrun & _).
      erewrite drawWindow_run in Hd by done. injection Hd as <- _ <-. simpl.
      rewrite <- app_assoc. by apply (rightly_connected_app d).
    + unfold Deform.drawWindow in Hd. rewrite Hv in Hd.
      unfold Deform.bind, Deform.emit, Deform.ret in Hd. injection Hd as <- _ <-.
      simpl. by apply rightly_connected_app.
  - unfold Deform.ret. intros [= <- <-]. unfold Deform.handleWindowDamaged.
    by destruct (Deform.value d window).
  - apply Hun.
  - unfold Deform.ret. intros [= <- <-]. unfold Deform.setShader.
    by destruct (Deform.value d window).
Qed.

Lemma run_calls_rightly_connected (cs : list (DeformLife.Call E)) :
  forall (d d' : Deform.DeformEffectPrivate) (w w' : Deform.World E),
  DeformLife.rightly_connected d (Deform.trace w) ->
  DeformLife.run_calls d cs w = Some (d', w') ->
  DeformLife.rightly_connected d' (Deform.trace w').
Proof.
  induction cs as [|c cs IH]; intros d d' w w' Hr; simpl.
  - unfold Deform.ret. by intros [= <- <-].
  - unfold Deform.bind at 1.
    destruct (DeformLife.run_call d c w) as [[d1 w1]|] eqn:Hc; [|discriminate].
    unfold Deform.bind at 1, Deform.tick at 1. apply IH. simpl.
    by eapply run_call_rightly_connected.
Qed.

(** After any sequence of calls that respects the assertion of [setLive]
    (no [setLive] while a window is redirected), on a new effect in a world
    where nothing had happened: a window has an entry, and never a null
    one, exactly when it was redirected and neither unredirected nor deleted
    since; [live] is what the last [setLive] said, or true; the member
    [windowDeletedConnection] is set exactly while some window is
    redirected, and [windowDamagedConnection] exactly while, in addition,
    the effect is live; and the connections to the [windowDeleted] signal
    that were made and not disconnected are exactly the one the first member
    holds, those to the [windowDamaged] signal exactly the one the second
    holds. *)
Theorem connections_follow_windows (cs : list (DeformLife.Call E)) (n : positive)
    (t : nat) :
  DeformLife.well_used ∅ cs = true ->
  exists d w,
    DeformLife.run_calls Deform.constructor cs (DeformLife.start n t) = Some (d, w) /\
    let redirected := DeformLife.redirected_after ∅ cs in
    (forall window, is_Some (Deform.value d window) <-> window ∈ redirected) /\
    (forall window, Deform.windows d !! window <> Some None) /\
    (Deform.windowDeletedConnection d <> None <-> redirected <> ∅) /\
    (Deform.windowDamagedConnection d <> None <->
     redirected <> ∅ /\ DeformLife.live_after true cs = true) /\
    Deform.live d = DeformLife.live_after true cs /\
    (forall c, DeformLife.is_open Deform.windowDeleted c (Deform.trace w) <->
               Deform.windowDeletedConnection d = Some c) /\
    (forall c, DeformLife.is_open Deform.windowDamaged c (Deform.trace w) <->
               Deform.windowDamagedConnection d = Some c).
Proof.
  intros Hok.
  pose proof (run_calls_sound E cs Deform.constructor (DeformLife.start n t)
                constructor_consistent) as H.
  destruct (DeformLife.run_calls Deform.constructor cs (DeformLife.start n t))
    as [[d w]|] eqn:Hrun;
    [|simpl in H; rewrite dom_empty_L in H; congruence].
  exists d, w. split; [reflexivity|].
  assert (Hright : DeformLife.rightly_connected d (Deform.trace w)).
  { eapply run_calls_rightly_connected; [|exact Hrun]. split; simpl; discriminate. }
  simpl in H. rewrite dom_empty_L in H.
  destruct H as (_ & (Hnull & Hdel & Hdam) & Hdom & Hlive & _ & evs & Htr & Ha).
  pose proof (balanced_step E Deform.constructor d (DeformLife.start n t) evs
                (Deform.next_name w) (Deform.now w)
                (constructor_balanced E n t) Ha DeformLife.Connection) as Hb.
  simpl in Hb, Htr. rewrite <- Htr in Hb. cbn [Deform.trace] in Hb.
  assert (Hheld : forall c,
            DeformLife.occ c (DeformLife.held DeformLife.Connection d) =
            (DeformLife.occ c (option_list (Deform.windowDamagedConnection d)) +
             DeformLife.occ c (option_list (Deform.windowDeletedConnection d)))%nat).
  { intros c. unfold DeformLife.held. rewrite !occ_app, no_connection_in_entries. lia. }
  assert (Hopen : forall s c, Deform.Connect s c ∈ Deform.trace w ->
            (1 <= DeformTrace.count (DeformLife.made DeformLife.Connection c)
                    (Deform.trace w))%nat).
  { intros s c Hin. apply (deform_count_ge_1 _ _ _ Hin). simpl.
    by apply bool_decide_eq_true_2. }
  assert (Hone : forall c, Deform.Connect Deform.windowDeleted c ∈ Deform.trace w ->
            Deform.Connect Deform.windowDamaged c ∈ Deform.trace w -> False).
  { intros c Hin Hin'. destruct (Hb c) as (_ & Hle & _).
    assert (2 <= DeformTrace.count (DeformLife.made DeformLife.Connection c)
                   (Deform.trace w))%nat; [|lia].
    apply (deform_count_ge_2 _ _ _ _ Hin Hin'); [discriminate| |];
      simpl; by apply bool_decide_eq_true_2. }
  destruct Hright as [Hrd Hrx].
  cbv zeta. rewrite <- Hdom, <- Hlive, dom_empty_iff_L.
  split; [|split; [|split; [done|split; [done|split; [done|split]]]]].
  - intros window. rewrite elem_of_dom. unfold Deform.value.
    destruct (Deform.windows d !! window) as [[x|]|] eqn:Hl; simpl.
    + split; eauto.
    + by destruct (Hnull _ _ Hl).
    + split; intros [? ?]; done.
  - intros window Hl. by destruct (Hnull _ _ Hl).
  - intros c. destruct (Hb c) as (Heq & Hle & _). specialize (Hheld c).
    rewrite !occ_option_list in Hheld.
    change (DeformLife.gone DeformLife.Connection c)
      with (DeformTrace.closes (E:=E) c) in Heq.
    split.
    + intros [Hin Hclosed]. pose proof (Hopen _ _ Hin) as Hge.
      destruct (Deform.windowDeletedConnection d) as [cx|] eqn:Hcx;
        [destruct (decide (cx = c)) as [->|Hne]; [done|]|];
        (destruct (Deform.windowDamagedConnection d) as [cd|] eqn:Hcd;
         [destruct (decide (cd = c)) as [->|Hne']|]; try lia;
         exfalso; exact (Hone c Hin (Hrd c eq_refl))).
    + intros Hcx. rewrite Hcx in Hheld. rewrite decide_True in Hheld by done.
      split; [by apply Hrx|lia].
  - intros c. destruct (Hb c) as (Heq & Hle & _). specialize (Hheld c).
    rewrite !occ_option_list in Hheld.
    change (DeformLife.gone DeformLife.Connection c)
      with (DeformTrace.closes (E:=E) c) in Heq.
    split.
    + intros [Hin Hclosed]. pose proof (Hopen _ _ Hin) as Hge.
      destruct (Deform.windowDamagedConnection d) as [cd|] eqn:Hcd;
        [destruct (decide (cd = c)) as [->|Hne]; [done|]|];
        (destruct (Deform.windowDeletedConnection d) as [cx|] eqn:Hcx;
         [destruct (decide (cx = c)) as [->|Hne']|]; try lia;
         exfalso; exact (Hone c (Hrx c eq_refl) Hin)).
    + intros Hcd. rewrite Hcd in Hheld. rewrite decide_True in Hheld by done.
      split; [by apply Hrd|lia].
Qed.

(** At any point in the life of an effect that started in a world where
    nothing had happened, every texture, framebuffer and connection that was
    made and not given back is held by the effect, in one place; none is
    given back that was not made, and none is made or given back twice. *)
Theorem made_and_not_freed_is_held (cs : list (DeformLife.Call E)) (n : positive)
    (t : nat) (d : Deform.DeformEffectPrivate) (w : Deform.World E) :
  DeformLife.run_calls Deform.constructor cs (DeformLife.start n t) = Some (d, w) ->
  forall k x,
    (DeformTrace.count (DeformLife.made k x) (Deform.trace w) =
       DeformTrace.count (DeformLife.gone k x) (Deform.trace w) +
       DeformLife.occ x (DeformLife.held k d))%nat /\
    (DeformTrace.count (DeformLife.made k x) (Deform.trace w) <= 1)%nat.
Proof.
  intros Hrun k x.
  pose proof (run_calls_sound E cs Deform.constructor (DeformLife.start n t)
                constructor_consistent) as H.
  rewrite Hrun in H. destruct H as (_ & _ & _ & _ & _ & evs & Htr & Ha).
  pose proof (balanced_step E Deform.constructor d (DeformLife.start n t) evs
                (Deform.next_name w) (Deform.now w)
                (constructor_balanced E n t) Ha k x) as Hb.
  simpl in Hb. simpl in Htr. rewrite Htr. tauto.
Qed.

(** The whole life of an effect, from a world where nothing had happened:
    construction, calls that respect the assertion of [setLive], and
    destruction.  It always comes to its end, and then every texture and
    every framebuffer that was made has been deleted, once; connections are
    never closed twice, but the destructor leaves open the ones the effect
    still holds. *)
Theorem lifetime_frees_what_it_made (cs : list (DeformLife.Call E)) (n : positive)
    (t : nat) :
  DeformLife.well_used ∅ cs = true ->
  exists w,
    DeformLife.lifetime cs (DeformLife.start n t) = Some (tt, w) /\
    forall x,
      (DeformTrace.count (DeformTrace.makes_texture x) (Deform.trace w) =
       DeformTrace.count (DeformTrace.deletes_texture x) (Deform.trace w)) /\
      (DeformTrace.count (DeformTrace.makes_texture x) (Deform.trace w) <= 1)%nat /\
      (DeformTrace.count (DeformTrace.makes_framebuffer x) (Deform.trace w) =
       DeformTrace.count (DeformTrace.deletes_framebuffer x) (Deform.trace w)) /\
      (DeformTrace.count (DeformTrace.makes_framebuffer x) (Deform.trace w) <= 1)%nat /\
      (DeformTrace.count (DeformTrace.closes x) (Deform.trace w) <=
       DeformTrace.count (DeformTrace.opens x) (Deform.trace w) <= 1)%nat.
Proof.
  intros Hok. unfold DeformLife.lifetime, Deform.bind.
  pose proof (run_calls_sound E cs Deform.constructor (DeformLife.start n t)
                constructor_consistent) as H.
  destruct (DeformLife.run_calls Deform.constructor cs (DeformLife.start n t))
    as [[d w1]|].
  - destruct H as (_ & _ & _ & _ & _ & evs & Htr & Ha).
    pose proof (balanced_step E Deform.constructor d (DeformLife.start n t) evs
                  (Deform.next_name w1) (Deform.now w1)
                  (constructor_balanced E n t) Ha) as Hb.
    simpl in Hb, Htr. rewrite <- Htr in Hb.
    unfold Deform.destructor. rewrite qDeleteAll_run.
    eexists. split; [reflexivity|]. intros x. simpl.
    rewrite !deform_count_app.
    set (vs := (map_to_list (Deform.windows d)).*2).
    destruct (delete_events_counts E DeformLife.Texture x vs) as [T1 T2].
    destruct (delete_events_counts E DeformLife.Framebuffer x vs) as [F1 F2].
    destruct (delete_events_counts E DeformLife.Connection x vs) as [C1 C2].
    destruct (Hb DeformLife.Texture x) as (HT & HT1 & _).
    destruct (Hb DeformLife.Framebuffer x) as (HF & HF1 & _).
    destruct (Hb DeformLife.Connection x) as (HC & HC1 & _).
    unfold DeformLife.held in HT, HF. rewrite app_nil_r in HT, HF. fold vs in HT, HF.
    rewrite (no_connection_in_entries x vs) in C2.
    change (DeformLife.made DeformLife.Texture x)
      with (DeformTrace.makes_texture (E:=E) x) in *.
    change (DeformLife.gone DeformLife.Texture x)
      with (DeformTrace.deletes_texture (E:=E) x) in *.
    change (DeformLife.made DeformLife.Framebuffer x)
      with (DeformTrace.makes_framebuffer (E:=E) x) in *.
    change (DeformLife.gone DeformLife.Framebuffer x)
      with (DeformTrace.deletes_framebuffer (E:=E) x) in *.
    change (DeformLife.made DeformLife.Connection x)
      with (DeformTrace.opens (E:=E) x) in *.
    change (DeformLife.gone DeformLife.Connection x)
      with (DeformTrace.closes (E:=E) x) in *.
    cbn [Deform.trace] in *. lia.
  - simpl in H. rewrite dom_empty_L in H. congruence.
Qed.
End DeformLifetime.

Section DeformUse.
Context (E : Deform.Env).

Lemma value_built (ws : gmap positive (option Deform.DeformOffscreenData))
    (window : positive) (v : option Deform.DeformOffscreenData)
    (cd cx : option positive) (l : bool) :
  Deform.value {| Deform.windows := <[window := v]> ws;
                  Deform.windowDamagedConnection := cd;
                  Deform.windowDeletedConnection := cx; Deform.live := l |} window = v.
Proof. unfold Deform.value. simpl. by rewrite lookup_insert_eq. Qed.

(** [redirect] is idempotent: a second [redirect] of the same window
    changes nothing and does nothing. *)
Theorem redirect_twice (d d1 : Deform.DeformEffectPrivate) (window : positive)
    (w w1 : Deform.World E) :
  Deform.redirect E d window w = Some (d1, w1) ->
  Deform.redirect E d1 window w1 = Some (d1, w1).
Proof.
  destruct (Deform.value d window) as [old|] eqn:Hv.
  - rewrite (redirect_again E d window old w Hv). intros [= <- <-].
    by eapply redirect_again.
  - rewrite redirect_run by done. cbv zeta.
    destruct (Deform.live d); intros [= <- <-];
      eapply redirect_again; apply value_built.
Qed.


(** Redirecting a window that is not redirected and unredirecting it again
    gives back the effect as it was, connections included, and everything
    that was made in between (texture, framebuffer, connections) has been
    given back. *)
Theorem redirect_unredirect_round_trip (d : Deform.DeformEffectPrivate)
    (window : positive) (w : Deform.World E) :
  DeformLife.consistent d -> Deform.value d window = None ->
  exists d1 w1 w2,
    Deform.redirect E d window w = Some (d1, w1) /\
    is_Some (Deform.value d1 window) /\
    Deform.unredirect E d1 window w1 = Some (d, w2) /\
    forall k x,
      DeformTrace.count (DeformLife.made k x) (DeformTrace.new_events w w2) =
      DeformTrace.count (DeformLife.gone k x) (DeformTrace.new_events w w2).
Proof.
  intros Hc Hv. pose proof (consistent_lookup d window Hc Hv) as Hl.
  rewrite redirect_run by done. cbv zeta.
  destruct Hc as (Hnull & Hdel & Hdam).
  assert (Hsize : size (<[window:=Some Deform.new_data]> (Deform.windows d)) =
                  S (size (Deform.windows d))) by (by apply map_size_insert_None).
  destruct d as [ws cd cx lv]. simpl in *.
  destruct (decide (ws = ∅)) as [He|He].
  - rewrite bool_decide_eq_true_2 by (rewrite Hsize, He, map_size_empty; done).
    assert (cd = None) as ->.
    { destruct cd; [|done]. destruct (proj1 Hdam) as [Hx _]; done. }
    assert (cx = None) as ->.
    { destruct cx; [|done]. destruct (proj1 Hdel); done. }
    destruct lv; simpl.
    + eexists _, _, _. split; [reflexivity|]. rewrite value_built.
      split; [by eexists|]. rewrite unredirect_run. cbv zeta. simpl.
      rewrite delete_insert_id by done. repeat (rewrite decide_True by done).
      split; [reflexivity|]. intros k x.
      repeat (rewrite decide_True by done). repeat (rewrite decide_False by done).
      unfold DeformTrace.new_events. simpl. rewrite <- !app_assoc, drop_app_length.
      rewrite value_built. simpl.
      destruct k; simpl;
        repeat (rewrite deform_count_cons || rewrite deform_count_nil); simpl;
        repeat case_bool_decide; subst; simpl; lia.
    + eexists _, _, _. split; [reflexivity|]. rewrite value_built.
      split; [by eexists|]. rewrite unredirect_run. cbv zeta. simpl.
      rewrite delete_insert_id by done. repeat (rewrite decide_True by done).
      split; [reflexivity|]. intros k x.
      repeat (rewrite decide_True by done). repeat (rewrite decide_False by done).
      unfold DeformTrace.new_events. simpl. rewrite <- !app_assoc, drop_app_length.
      rewrite value_built. unfold DeformTrace.offscreen_draw. simpl.
      destruct k; simpl;
        repeat (rewrite deform_count_cons || rewrite deform_count_nil); simpl;
        repeat case_bool_decide; subst; simpl; lia.
  - rewrite bool_decide_eq_false_2
      by (rewrite Hsize; intros [= Hz]; by apply map_size_empty_iff in Hz).
    destruct lv; simpl.
    + eexists _, _, _. split; [reflexivity|]. rewrite value_built.
      split; [by eexists|]. rewrite unredirect_run. cbv zeta. simpl.
      rewrite delete_insert_id by done. repeat (rewrite decide_False by done).
      split; [reflexivity|]. intros k x.
      repeat (rewrite decide_True by done). repeat (rewrite decide_False by done).
      unfold DeformTrace.new_events. simpl. rewrite <- !app_assoc, drop_app_length.
      rewrite value_built. simpl.
      destruct k; reflexivity.
    + eexists _, _, _. split; [reflexivity|]. rewrite value_built.
      split; [by eexists|]. rewrite unredirect_run. cbv zeta. simpl.
      rewrite delete_insert_id by done. repeat (rewrite decide_False by done).
      split; [reflexivity|]. intros k x.
      repeat (rewrite decide_True by done). repeat (rewrite decide_False by done).
      unfold DeformTrace.new_events. simpl. rewrite <- !app_assoc, drop_app_length.
      rewrite value_built. unfold DeformTrace.offscreen_draw. simpl.
      destruct k; simpl;
        repeat (rewrite deform_count_cons || rewrite deform_count_nil); simpl;
        repeat case_bool_decide; subst; simpl; lia.
Qed.

Lemma paint_events_shader (t : nat) (window tex : positive) (region : Deform.Region E)
    (data : Deform.WindowPaintData E) (quads : list Deform.WindowQuad)
    (sh : option positive) :
  let evs := DeformTrace.paint_events E t window tex region data quads sh in
  let s := match sh with Some s => s | None => Deform.stock_shader E t end in
  filter (fun ev => DeformTrace.is_shader_bind ev) evs = [Deform.ShaderBinderEnter s] /\
  last evs = Some (Deform.ShaderBinderLeave s).
Proof.
  unfold DeformTrace.paint_events.
  destruct (Deform.differs E region (Deform.infiniteRegion E)); cbv zeta;
    split; reflexivity.
Qed.



(** The shader given to [setShader] for a redirected window is the one the
    next [drawWindow] binds, and the only one; without one (a null shader)
    the stock shader of the moment is bound.  The entry keeps the shader. *)
Theorem setShader_selects_shader (d : Deform.DeformEffectPrivate) (window : positive)
    (s : option positive) (mask : Z) (region : Deform.Region E)
    (data : Deform.WindowPaintData E) (w : Deform.World E)
    (old : Deform.DeformOffscreenData) :
  Deform.value d window = Some old ->
  let bound := match s with Some s => s | None => Deform.stock_shader E (Deform.now w) end in
  exists d' r w' entry,
    Deform.drawWindow E (Deform.setShader d window s) window mask region data w =
      Some ((d', r), w') /\
    Deform.value d' window = Some entry /\ Deform.shader entry = s /\
    filter (fun ev => DeformTrace.is_shader_bind ev) (DeformTrace.new_events w w') =
      [Deform.ShaderBinderEnter bound] /\
    last (DeformTrace.new_events w w') = Some (Deform.ShaderBinderLeave bound).
Proof.
  intros Hv. cbv zeta. unfold Deform.setShader. rewrite Hv.
  set (d0 := Deform.set_windows _ d).
  assert (Hv0 : Deform.value d0 window = Some (Deform.set_shader s old))
    by apply value_insert.
  destruct (maybeRender_accounts E window (Deform.set_shader s old) w)
    as (entry & tex & evs & n' & Hr & Ht & Hs & _ & _ & Hbind & _).
  erewrite drawWindow_run by done. simpl.
  eexists _, _, _, entry. split; [reflexivity|].
  split; [unfold Deform.value; simpl; by rewrite lookup_insert_eq|]. split; [done|].
  unfold DeformTrace.new_events. simpl. rewrite <- app_assoc, drop_app_length.
  match goal with
  | |- context [DeformTrace.paint_events E ?t ?win ?tx ?r ?a ?q ?sh] =>
      destruct (paint_events_shader t win tx r a q sh) as (P1 & P2);
      generalize dependent (DeformTrace.paint_events E t win tx r a q sh);
      intros pe P1 P2
  end.
  rewrite filter_app, Hbind, P1, Hs. simpl. split; [reflexivity|].
  destruct pe as [|ev pe]; [discriminate|].
  rewrite last_app. by rewrite P2, Hs.
Qed.
End DeformUse.

(** * The properties above at concrete inputs *)

(** A buffer from a pool is mapped, and mapped again with other flags. *)
Lemma map_mapped_is_noop_witness :
  exists b' w',
    GbmBuffer.map mapping_env (GbmBuffer.from_surface mapping_env (Some 2%positive) 4%positive)
      1 empty_world = Some ((true, b'), w') /\
    GbmBuffer.map mapping_env b' 2 w' = Some ((true, b'), w') /\
    (occurrences is_map_call (new_events empty_world w') <= 1)%nat.
Proof.
  eexists _, _. split; [cbv; reflexivity|].
  apply (map_mapped_is_noop mapping_env
           (GbmBuffer.from_surface mapping_env (Some 2%positive) 4%positive) _ 1 2
           empty_world _).
  reflexivity.
Defined.

(** A buffer from a pool is released; mapping it, releasing it again and
    asking for a texture then do nothing. *)
Lemma released_buffer_is_inert_witness :
  exists b1 w1,
    GbmBuffer.releaseBuffer 100%positive
      (GbmBuffer.from_surface mapping_env (Some 2%positive) 4%positive) empty_world =
      Some (b1, w1) /\
    run_ops mapping_env 100%positive [OpMap 1; OpRelease; OpCreateTexture 7] b1 w1 =
      Some (b1, w1).
Proof.
  eexists _, _. split; [cbv; reflexivity|].
  apply (released_buffer_is_inert mapping_env 100%positive 100%positive
           (GbmBuffer.from_surface mapping_env (Some 2%positive) 4%positive) _
           [OpMap 1; OpRelease; OpCreateTexture 7] empty_world _).
  reflexivity.
Defined.

(** A texture is asked for a buffer from a pool, on an EGL that fails. *)
Lemma createTexture_outcomes_witness :
  exists r w' image,
    GbmBuffer.createTexture mapping_env
      (GbmBuffer.from_surface mapping_env (Some 2%positive) 4%positive) 7 empty_world =
      Some (r, w') /\
    image = egl_image_answer mapping_env (trace empty_world) 7 EGL_NATIVE_PIXMAP_KHR
              4%positive /\
    filter (fun ev => is_egl_image ev) (new_events empty_world w') =
      [EvEglCreateImage 7 EGL_NATIVE_PIXMAP_KHR 4%positive image] /\
    (r = None <-> image = EGL_NO_IMAGE_KHR) /\
    match r with
    | None =>
        filter (fun ev => is_any_log ev) (new_events empty_world w') =
          [EvLog Warning
             [LStr "Failed to record frame: Error creating EGLImageKHR - ";
              LStr (getEglErrorString mapping_env
                      (trace empty_world ++
                       [EvEglCreateImage 7 EGL_NATIVE_PIXMAP_KHR 4%positive image]))]]
    | Some t =>
        occurrences is_any_log (new_events empty_world w') = 0%nat /\
        tex_image t = image /\ tex_display t = 7 /\
        tex_internalFormat t = GL_RGBA8 /\
        tex_size t = {| width := to_s32 (gbm_bo_get_width mapping_env 4%positive);
                        height := to_s32 (gbm_bo_get_height mapping_env 4%positive) |}
    end.
Proof.
  apply (createTexture_outcomes mapping_env
           (GbmBuffer.from_surface mapping_env (Some 2%positive) 4%positive)
           4%positive 7 empty_world).
  reflexivity.
Defined.


(** The registration of a buffer with a valid modifier on a device that
    supports modifiers. *)
Lemma modifier_call_exactly_when_witness :
  exists b' w',
    DrmGbmBuffer.initialize rejecting_env 100%positive pool_buffer empty_world =
      Some (b', w') /\
    let wanted :=
      addFB2ModifiersSupported (m_gpu (drm pool_buffer)) = true /\
      handle_s32 (gbm_bo_get_handle_for_plane rejecting_env 4%positive 0) <> -1 /\
      (1 <= gbm_bo_get_plane_count rejecting_env 4%positive ->
       m_modifier (drm pool_buffer) <> DRM_FORMAT_MOD_INVALID) in
    (wanted ->
     exists ok, attempts (new_events empty_world w') = [(TierModifiers, ok)]) /\
    (~ wanted ->
     exists ok rest, attempts (new_events empty_world w') = (TierMultiPlane, ok) :: rest /\
                     (rest = [] \/ exists ok', rest = [(TierLegacy, ok')])).
Proof.
  apply (modifier_call_exactly_when rejecting_env 100%positive pool_buffer empty_world
           4%positive).
  - reflexivity.
  - unfold planes_fit, GBM_MAX_PLANES. simpl. lia.
Defined.

(** The requests made for a buffer of 1920 by 1080. *)
Lemma registration_requests_describe_buffer_witness :
  exists b' w',
    DrmGbmBuffer.initialize rejecting_env 100%positive pool_buffer empty_world =
      Some (b', w') /\
    m_size (drm b') = {| width := to_s32 (gbm_bo_get_width rejecting_env 4%positive);
                         height := to_s32 (gbm_bo_get_height rejecting_env 4%positive) |} /\
    forall rq res, EvAddFB rq res ∈ new_events empty_world w' ->
      request_fd rq = fd (m_gpu (drm pool_buffer)) /\
      request_width rq = gbm_bo_get_width rejecting_env 4%positive /\
      request_height rq = gbm_bo_get_height rejecting_env 4%positive /\
      (forall f, request_format rq = Some f -> f = m_format (drm pool_buffer)).
Proof.
  apply (registration_requests_describe_buffer rejecting_env 100%positive pool_buffer
           empty_world 4%positive).
  - reflexivity.
  - unfold planes_fit, GBM_MAX_PLANES. simpl. lia.
  - unfold is_u32. simpl. lia.
  - unfold is_u32. simpl. lia.
Defined.

(** The life of a scanout buffer from a pool whose registration the kernel
    accepts. *)
Lemma pool_lifetime_removes_what_it_registered_witness :
  exists b w1 w2,
    DrmGbmBuffer.from_surface planar_env 100%positive sample_gpu (Some 2%positive)
      4%positive empty_world = Some (b, w1) /\
    DrmGbmBuffer.destructor planar_env 100%positive b w1 = Some (tt, w2) /\
    pool_lifetime planar_env 100%positive sample_gpu (Some 2%positive) 4%positive
      empty_world = Some (tt, w2) /\
    m_bufferId (drm b) = default 0 (registered_id (new_events empty_world w1)) /\
    occurrences is_deregistration (new_events w1 w2) =
      (if m_bufferId (drm b) =? 0 then 0%nat else 1%nat) /\
    (forall f id res, EvRmFB f id res ∈ new_events w1 w2 ->
       f = fd sample_gpu /\ registered_id (new_events empty_world w1) = Some id /\ id <> 0) /\
    last (new_events w1 w2) = Some (EvSurfaceReleaseBuffer 2%positive 100%positive) /\
    (forall cb, occurrences (is_ref_of cb) (new_events empty_world w2) = 0%nat /\
                occurrences (is_unref_of cb) (new_events empty_world w2) = 0%nat).
Proof.
  apply (pool_lifetime_removes_what_it_registered planar_env 100%positive sample_gpu
           (Some 2%positive) 4%positive empty_world).
  unfold planes_fit, GBM_MAX_PLANES. simpl. lia.
Defined.

(** The life of a scanout buffer imported from a client buffer with one
    plane. *)
Lemma import_lifetime_balance_witness :
  exists w',
    import_lifetime mapping_env 100%positive sample_gpu (sample_client [linear_plane])
      empty_world = Some (tt, w') /\
    occurrences (is_ref_of (cb_id (sample_client [linear_plane])))
      (new_events empty_world w') = 1%nat /\
    occurrences (is_unref_of (cb_id (sample_client [linear_plane])))
      (new_events empty_world w') = 1%nat /\
    occurrences is_import (new_events empty_world w') = 1%nat /\
    occurrences is_surface_release (new_events empty_world w') = 0%nat /\
    (forall e, import_failed_with e (new_events empty_world w') ->
       attempts (new_events empty_world w') = [] /\
       occurrences is_tagging (new_events empty_world w') = 0%nat /\
       occurrences is_deregistration (new_events empty_world w') = 0%nat /\
       occurrences is_destroy (new_events empty_world w') = 0%nat) /\
    (forall dev type data usage bo,
       EvGbmBoImport dev type data usage (Ok bo) ∈ new_events empty_world w' ->
       occurrences is_tagging (new_events empty_world w') = 1%nat /\
       occurrences is_destroy (new_events empty_world w') = 1%nat /\
       precedes (EvClientUnref (cb_id (sample_client [linear_plane]))) (EvGbmBoDestroy bo)
         (new_events empty_world w') /\
       last (new_events empty_world w') = Some (EvGbmBoDestroy bo)).
Proof.
  apply (import_lifetime_balance mapping_env 100%positive sample_gpu
           (sample_client [linear_plane]) empty_world linear_plane []).
  - reflexivity.
  - unfold GBM_MAX_PLANES. simpl. lia.
  - intros bo. unfold planes_fit, GBM_MAX_PLANES. simpl. lia.
Defined.

(** The buffer that is queued is queued again. *)
Lemma setNext_same_buffer_is_noop_witness :
  DrmCrtc.setNext rejecting_env no_dumb_work sample_crtc (Some 10%positive) sample_store
    empty_world = Some ((sample_crtc, sample_store), empty_world).
Proof.
  apply (setNext_same_buffer_is_noop rejecting_env no_dumb_work sample_crtc sample_store
           empty_world 10%positive {| pointee := gbm_object 2 4 41; strongref := 1 |}).
  - reflexivity.
  - reflexivity.
Defined.

(** Two buffers are queued one after the other on an empty slot. *)
Lemma setNext_twice_keeps_last_witness :
  let c := {| m_resIndex := 0; gamma_size := 256; m_currentBuffer := None;
              m_nextBuffer := None; m_blackBuffer := None |} in
  let o1 := {| pointee := gbm_object 2 4 41; strongref := 1 |} in
  let o2 := {| pointee := gbm_object 2 5 42; strongref := 1 |} in
  exists c1 st1 c2 st2,
    DrmCrtc.setNext rejecting_env no_dumb_work c (Some 10%positive) sample_store
      empty_world = Some ((c1, st1), empty_world) /\
    DrmCrtc.setNext rejecting_env no_dumb_work c1 (Some 20%positive) st1 empty_world =
      Some ((c2, st2), empty_world) /\
    m_nextBuffer c1 = Some 10%positive /\
    st1 !! 10%positive =
      Some {| pointee := pointee o1; strongref := Pos.succ (strongref o1) |} /\
    m_nextBuffer c2 = Some 20%positive /\ m_currentBuffer c2 = m_currentBuffer c /\
    st2 !! 10%positive = Some o1 /\
    st2 !! 20%positive =
      Some {| pointee := pointee o2; strongref := Pos.succ (strongref o2) |} /\
    (forall a, a <> 10%positive -> a <> 20%positive -> st2 !! a = sample_store !! a).
Proof.
  cbv zeta.
  apply (setNext_twice_keeps_last rejecting_env no_dumb_work
           {| m_resIndex := 0; gamma_size := 256; m_currentBuffer := None;
              m_nextBuffer := None; m_blackBuffer := None |}
           sample_store empty_world 10%positive 20%positive
           {| pointee := gbm_object 2 4 41; strongref := 1 |}
           {| pointee := gbm_object 2 5 42; strongref := 1 |}).
  - reflexivity.
  - reflexivity.
  - reflexivity.
  - discriminate.
Defined.

(** A window is rendered for the first time, and then again. *)
Lemma maybeRender_twice_witness :
  exists r data' w',
    Deform.maybeRender sample_deform_env 7%positive Deform.new_data
      (DeformLife.start 1%positive 0) = Some ((r, data'), w') /\
    Deform.maybeRender sample_deform_env 7%positive data' w' = Some ((r, data'), w').
Proof.
  eexists _, _, _. split; [cbv; reflexivity|].
  eapply (maybeRender_twice sample_deform_env 7%positive Deform.new_data _ _
           (DeformLife.start 1%positive 0) _).
  - reflexivity.
  - reflexivity.
Defined.

(** The state of the effect after the sample calls. *)
Lemma connections_follow_windows_witness :
  exists d w,
    DeformLife.run_calls Deform.constructor sample_calls (DeformLife.start 1%positive 0) =
      Some (d, w) /\
    let redirected := DeformLife.redirected_after ∅ sample_calls in
    (forall window, is_Some (Deform.value d window) <-> window ∈ redirected) /\
    (forall window, Deform.windows d !! window <> Some None) /\
    (Deform.windowDeletedConnection d <> None <-> redirected <> ∅) /\
    (Deform.windowDamagedConnection d <> None <->
     redirected <> ∅ /\ DeformLife.live_after true sample_calls = true) /\
    Deform.live d = DeformLife.live_after true sample_calls /\
    (forall c, DeformLife.is_open Deform.windowDeleted c (Deform.trace w) <->
               Deform.windowDeletedConnection d = Some c) /\
    (forall c, DeformLife.is_open Deform.windowDamaged c (Deform.trace w) <->
               Deform.windowDamagedConnection d = Some c).
Proof.
  apply (connections_follow_windows sample_deform_env sample_calls 1%positive 0%nat).
  vm_compute. reflexivity.
Defined.

(** What was made and what is held after the sample calls. *)
Lemma made_and_not_freed_is_held_witness :
  exists d w,
    DeformLife.run_calls Deform.constructor sample_calls (DeformLife.start 1%positive 0) =
      Some (d, w) /\
    forall k x,
      (DeformTrace.count (DeformLife.made k x) (Deform.trace w) =
         DeformTrace.count (DeformLife.gone k x) (Deform.trace w) +
         DeformLife.occ x (DeformLife.held k d))%nat /\
      (DeformTrace.count (DeformLife.made k x) (Deform.trace w) <= 1)%nat.
Proof.
  eexists _, _. split; [vm_compute; reflexivity|].
  eapply (made_and_not_freed_is_held sample_deform_env sample_calls 1%positive 0%nat _ _).
  vm_compute. reflexivity.
Defined.

(** The life of an effect that makes the sample calls. *)
Lemma lifetime_frees_what_it_made_witness :
  exists w,
    DeformLife.lifetime sample_calls (DeformLife.start 1%positive 0) = Some (tt, w) /\
    forall x,
      (DeformTrace.count (DeformTrace.makes_texture x) (Deform.trace w) =
       DeformTrace.count (DeformTrace.deletes_texture x) (Deform.trace w)) /\
      (DeformTrace.count (DeformTrace.makes_texture x) (Deform.trace w) <= 1)%nat /\
      (DeformTrace.count (DeformTrace.makes_framebuffer x) (Deform.trace w) =
       DeformTrace.count (DeformTrace.deletes_framebuffer x) (Deform.trace w)) /\
      (DeformTrace.count (DeformTrace.makes_framebuffer x) (Deform.trace w) <= 1)%nat /\
      (DeformTrace.count (DeformTrace.closes x) (Deform.trace w) <=
       DeformTrace.count (DeformTrace.opens x) (Deform.trace w) <= 1)%nat.
Proof.
  apply (lifetime_frees_what_it_made sample_deform_env sample_calls 1%positive 0%nat).
  vm_compute. reflexivity.
Defined.

(** The first window of a new effect is redirected twice. *)
Lemma redirect_twice_witness :
  exists d1 w1,
    Deform.redirect sample_deform_env Deform.constructor 7%positive
      (DeformLife.start 1%positive 0) = Some (d1, w1) /\
    Deform.redirect sample_deform_env d1 7%positive w1 = Some (d1, w1).
Proof.
  eexists _, _. split; [vm_compute; reflexivity|].
  eapply (redirect_twice sample_deform_env Deform.constructor _ 7%positive
            (DeformLife.start 1%positive 0) _).
  vm_compute. reflexivity.
Defined.


(** The first window of a new effect is redirected and unredirected. *)
Lemma redirect_unredirect_round_trip_witness :
  exists d1 w1 w2,
    Deform.redirect sample_deform_env Deform.constructor 7%positive
      (DeformLife.start 1%positive 0) = Some (d1, w1) /\
    is_Some (Deform.value d1 7%positive) /\
    Deform.unredirect sample_deform_env d1 7%positive w1 = Some (Deform.constructor, w2) /\
    forall k x,
      DeformTrace.count (DeformLife.made k x)
        (DeformTrace.new_events (DeformLife.start 1%positive 0) w2) =
      DeformTrace.count (DeformLife.gone k x)
        (DeformTrace.new_events (DeformLife.start 1%positive 0) w2).
Proof.
  apply (redirect_unredirect_round_trip sample_deform_env Deform.constructor 7%positive
           (DeformLife.start 1%positive 0)).
  - split; [|split]; simpl.
    + intros window v. rewrite lookup_empty. discriminate.
    + split; [intros H; by destruct H|intros H; by destruct H].
    + split; [intros H; by destruct H|intros [H _]; by destruct H].
  - reflexivity.
Defined.


(** A redirected window is given a shader and drawn. *)
Lemma setShader_selects_shader_witness :
  let bound := 9%positive in
  exists d' r w' entry,
    Deform.drawWindow sample_deform_env
      (Deform.setShader sample_effect 7%positive (Some 9%positive)) 7%positive 0 3 5
      (DeformLife.start 3%positive 0) = Some ((d', r), w') /\
    Deform.value d' 7%positive = Some entry /\
    Deform.shader entry = Some 9%positive /\
    filter (fun ev => DeformTrace.is_shader_bind ev)
      (DeformTrace.new_events (DeformLife.start 3%positive 0) w') =
      [Deform.ShaderBinderEnter bound] /\
    last (DeformTrace.new_events (DeformLife.start 3%positive 0) w') =
      Some (Deform.ShaderBinderLeave bound).
Proof.
  apply (setShader_selects_shader sample_deform_env sample_effect 7%positive
           (Some 9%positive) 0 3 5 (DeformLife.start 3%positive 0) Deform.new_data).
  vm_compute. reflexivity.
Defined.
